(** * Japan Government Statistics Analyzer: normalisation and orchestration

    A shallow embedding of [utils.js] ([normalizeStatisticalData],
    [determineDataType]) and [main.js] ([mainLogic], [buildSearchParams],
    [runDemoMode]) together with the properties the specification states
    about them.

    Conventions of the embedding.
    - JavaScript values are the first-order values JSON can carry, plus
      [undefined].  An object is the ordered list of its own properties; a
      read returns the first binding of the name.  The names every object
      inherits from [Object.prototype] ([inheritedName]) are not modelled:
      statements that depend on a lookup missing are made for names outside
      that list.
    - A double is [NaN], an infinity or [m * 2^e]; the sign of zero is not
      kept.
    - The builtins the program calls but does not define ([parseFloat],
      number-to-string conversion, [String.prototype.toLowerCase], the wall
      clock behind [new Date().toISOString()]) are the fields of the class
      [Runtime]; every theorem holds for every runtime.
    - The clock is a function from the number of earlier readings to the
      text of the reading.  Only the readings whose text reaches a record
      or an item are counted; those of the logging helpers are not.
    - The order of an object's list is insertion order.  JavaScript lists
      integer-like names first; no statement here observes the difference.
    - Logging changes nothing that is modelled, but the arguments of a
      logging call are evaluated where the source evaluates them, since
      that can throw.  [Actor.pushData] is taken not to fail.
    - Strings are byte strings (UTF-8), as the source files store them.
    - Exceptions are explicit: a computation returns [Ret] or [Throw], and
      stateful code passes its state through both. *)

From Stdlib Require Import String Ascii List ZArith Bool Arith Lia.
Import ListNotations.
Local Open Scope string_scope.
Local Open Scope list_scope.
Set Warnings "-register-all".

(** ** Values *)

Inductive number :=
| NaN
| Infinity (negative : bool)
| Fin (m e : Z).

Inductive value :=
| VUndefined
| VNull
| VBool (b : bool)
| VNum (n : number)
| VStr (s : string)
| VArr (items : list value)
| VObj (props : list (string * value)).

Definition obj := list (string * value).

Definition ofNat (n : nat) : value := VNum (Fin (Z.of_nat n) 0).
Definition ofZ (z : Z) : value := VNum (Fin z 0).

(** Truthiness, as [||], [if] and [?:] read it. *)
Definition truthyNum (n : number) : bool :=
  match n with
  | NaN => false
  | Infinity _ => true
  | Fin m _ => negb (m =? 0)%Z
  end.

Definition truthy (v : value) : bool :=
  match v with
  | VUndefined | VNull => false
  | VBool b => b
  | VNum n => truthyNum n
  | VStr s => negb (s =? "")
  | VArr _ | VObj _ => true
  end.

(** [a || b] for an operand [b] that is already a value. *)
Definition or_ (a b : value) : value := if truthy a then a else b.

Definition nullish (v : value) : bool :=
  match v with
  | VUndefined | VNull => true
  | _ => false
  end.

(** ** Own properties *)

Fixpoint lookup {A} (k : string) (o : list (string * A)) : option A :=
  match o with
  | [] => None
  | (k', v) :: rest => if k =? k' then Some v else lookup k rest
  end.

(** [o[k] = v]: overwrite the binding in place, or add it last. *)
Fixpoint set {A} (k : string) (v : A) (o : list (string * A)) : list (string * A) :=
  match o with
  | [] => [(k, v)]
  | (k', v') :: rest => if k =? k' then (k, v) :: rest else (k', v') :: set k v rest
  end.

Definition field (o : obj) (k : string) : value :=
  match lookup k o with
  | Some v => v
  | None => VUndefined
  end.

(** The names a plain object inherits; a read of one of them that finds no
    own property does not yield [undefined] in JavaScript. *)
Definition inheritedNames : list string :=
  [ "constructor"; "__proto__"; "hasOwnProperty"; "isPrototypeOf";
    "propertyIsEnumerable"; "toLocaleString"; "toString"; "valueOf";
    "__defineGetter__"; "__defineSetter__"; "__lookupGetter__";
    "__lookupSetter__" ].

Definition inheritedName (k : string) : bool :=
  existsb (String.eqb k) inheritedNames.

(** [Array.isArray(v) ? v : [v]] *)
Definition asArray (v : value) : list value :=
  match v with
  | VArr l => l
  | _ => [v]
  end.

(** [Object.keys(v)], restricted to what the caller keeps: the keys of an
    array or of a string are indices, and none of them starts with [@]. *)
Definition ownKeys (v : value) : list string :=
  match v with
  | VObj o => map fst o
  | _ => []
  end.

(** ** Exceptions *)

Inductive exn :=
| TypeError_read (base : value) (key : string)
| TypeError_notFunction (callee : string)
| TypeError_toPrimitive
| Error (msg : string).

Inductive outcome (A : Type) :=
| Ret (a : A)
| Throw (e : exn).
Arguments Ret {A} a.
Arguments Throw {A} e.

Definition obind {A B} (o : outcome A) (f : A -> outcome B) : outcome B :=
  match o with
  | Ret a => f a
  | Throw e => Throw e
  end.

Declare Scope js_scope.
Delimit Scope js_scope with js.
Notation "x <~ c ;; k" := (obind c (fun x => k))
  (at level 61, c at next level, right associativity) : js_scope.

Local Open Scope js_scope.

(** [error.message], in the wording of V8. *)
Definition message (e : exn) : string :=
  match e with
  | TypeError_read base key =>
      "Cannot read properties of "
        ++ (match base with VNull => "null" | _ => "undefined" end)
        ++ " (reading '" ++ key ++ "')"
  | TypeError_notFunction callee => callee ++ " is not a function"
  | TypeError_toPrimitive => "Cannot convert object to primitive value"
  | Error msg => msg
  end.

(** [v.k] and [v[k]] for a literal name [k]: a TypeError on [null] and
    [undefined], the own property of an object, [undefined] elsewhere (the
    literal names of this program are members of no array, string, number or
    boolean). *)
Definition getProp (v : value) (k : string) : outcome value :=
  match v with
  | VUndefined | VNull => Throw (TypeError_read v k)
  | VObj o => Ret (field o k)
  | _ => Ret VUndefined
  end.

(** [v?.k] *)
Definition optProp (v : value) (k : string) : value :=
  match v with
  | VObj o => field o k
  | _ => VUndefined
  end.

(** ** The runtime *)

Class Runtime := {
  parseFloat : string -> number;
  numberToString : number -> string;
  toLowerCase : string -> string;
  (** the text [new Date().toISOString()] returns at the [n]-th reading of
      the clock *)
  toISOString : nat -> string
}.

Fixpoint join (sep : string) (l : list string) : string :=
  match l with
  | [] => ""
  | [s] => s
  | s :: rest => s ++ sep ++ join sep rest
  end.

Section Coercion.
Context {rt : Runtime}.

(** [ToString], which template literals, [parseFloat] and computed property
    names apply.  An object with an own [toString] property cannot be
    converted (the property is data, not a function, and [valueOf] returns
    the object); an array joins the conversions of its elements. *)
Fixpoint toString (v : value) : outcome string :=
  match v with
  | VUndefined => Ret "undefined"
  | VNull => Ret "null"
  | VBool true => Ret "true"
  | VBool false => Ret "false"
  | VNum n => Ret (numberToString n)
  | VStr s => Ret s
  | VArr l =>
      parts <~ (fix each (l : list value) : outcome (list string) :=
                  match l with
                  | [] => Ret []
                  | x :: rest =>
                      s <~ (if nullish x then Ret "" else toString x) ;;
                      ss <~ each rest ;;
                      Ret (s :: ss)
                  end) l ;;
      Ret (join "," parts)
  | VObj o =>
      match lookup "toString" o with
      | Some _ => Throw TypeError_toPrimitive
      | None => Ret "[object Object]"
      end
  end.

End Coercion.

(** ** Strings *)

(** [hay.includes(needle)]: on well-formed text, a substring of code units
    is a substring of bytes and conversely. *)
Fixpoint includes (hay needle : string) : bool :=
  if prefix needle hay then true
  else match hay with
       | EmptyString => false
       | String _ rest => includes rest needle
       end.

(** [s.startsWith(p)] *)
Definition startsWith (s p : string) : bool := prefix p s.

(** [s.substring(1)], applied only to keys that start with [@] (one byte,
    one code unit). *)
Definition substring1 (s : string) : string :=
  match s with
  | EmptyString => ""
  | String _ rest => rest
  end.

(** ** determineDataType *)

Section DataType.
Context {rt : Runtime}.

(** The body of [determineDataType] once [statName] is known to be a string. *)
Definition dataTypeOf (statName : string) : string :=
  let name := toLowerCase statName in
  if includes name "人口" || includes name "population" then "population"
  else if includes name "経済" || includes name "gdp" || includes name "経済" then "economic"
  else if includes name "労働" || includes name "雇用" || includes name "labor" then "labor"
  else if includes name "産業" || includes name "industry" then "industry"
  else if includes name "教育" || includes name "education" then "education"
  else if includes name "医療" || includes name "health" then "health"
  else if includes name "環境" || includes name "environment" then "environment"
  else "general".

(** [determineDataType(statName)]: calling [toLowerCase] on a value that is
    not a string is a TypeError ([statName] is never [null] or [undefined]
    at the call: it is the left or the right operand of a [||] that chose a
    truthy value). *)
Definition determineDataType (statName : value) : outcome string :=
  match statName with
  | VStr s => Ret (dataTypeOf s)
  | _ => Throw (TypeError_notFunction "statName.toLowerCase")
  end.

End DataType.

(** ** State and exceptions *)

(** A computation over a state [S]: the state survives a [Throw], as the
    heap of a JavaScript program survives an exception. *)
Definition M (S A : Type) : Type := S -> outcome A * S.

Definition ret {S A} (a : A) : M S A := fun s => (Ret a, s).

Definition throw {S A} (e : exn) : M S A := fun s => (Throw e, s).

Definition bind {S A B} (c : M S A) (f : A -> M S B) : M S B :=
  fun s =>
    match c s with
    | (Ret a, s') => f a s'
    | (Throw e, s') => (Throw e, s')
    end.

Definition lift {S A} (o : outcome A) : M S A := fun s => (o, s).

(** [try { body } catch (e) { handler }] *)
Definition tryCatch {S A} (body : M S A) (handler : exn -> M S A) : M S A :=
  fun s =>
    match body s with
    | (Ret a, s') => (Ret a, s')
    | (Throw e, s') => handler e s'
    end.

Declare Scope m_scope.
Delimit Scope m_scope with m.
Notation "x <- c ;; k" := (bind c (fun x => k))
  (at level 61, c at next level, right associativity) : m_scope.
Notation "c ;;; k" := (bind c (fun _ => k))
  (at level 61, right associativity) : m_scope.

Local Open Scope m_scope.

(** [xs.forEach(f)] and [for (const x of xs) f(x)]: the first exception ends
    the loop. *)
Fixpoint forEach {S X} (xs : list X) (f : X -> M S unit) : M S unit :=
  match xs with
  | [] => ret tt
  | x :: rest => f x ;;; forEach rest f
  end.

(** [xs.reduce(f, acc)] and a [forEach] that only updates one local object. *)
Fixpoint reduce {X A} (f : A -> X -> outcome A) (xs : list X) (acc : A) : outcome A :=
  match xs with
  | [] => Ret acc
  | x :: rest => (acc' <~ f acc x ;; reduce f rest acc')%js
  end.

(** ** normalizeStatisticalData *)

(** The ClassificationIndex [classObj]: classification id, then code, then
    label. *)
Definition index := list (string * obj).

(** The state of one call: the clock and the local array [normalizedData]. *)
Record nstate := { clock : nat; normalizedData : list value }.

Section Normalizer.
Context {rt : Runtime}.

(** [new Date().toISOString()] *)
Definition newDate : M nstate string :=
  fun s =>
    (Ret (toISOString (clock s)),
     {| clock := S (clock s); normalizedData := normalizedData s |}).

(** [normalizedData.push(r)] *)
Definition push (r : value) : M nstate unit :=
  fun s =>
    (Ret tt, {| clock := clock s; normalizedData := normalizedData s ++ [r] |}).

(** The reducer of [classItems.reduce]:
    [acc[item['@code']] = item['@name']; return acc]. *)
Definition classItem (acc : obj) (item : value) : outcome obj :=
  (code <~ getProp item "@code" ;;
   name <~ getProp item "@name" ;;
   k <~ toString code ;;
   Ret (set k name acc))%js.

(** The callback of [classes.forEach]. *)
Definition classGroup (classObj : index) (cls : value) : outcome index :=
  (c <~ getProp cls "CLASS" ;;
   if truthy c then
     id <~ getProp cls "@id" ;;
     items <~ reduce classItem (asArray c) [] ;;
     k <~ toString id ;;
     Ret (set k items classObj)
   else Ret classObj)%js.

(** Lines 250-262: the index built from the payload's [CLASS_INF]. *)
Definition buildClassObj (classInf : value) : outcome index :=
  let classes := optProp classInf "CLASS_OBJ" in
  if truthy classes then reduce classGroup (asArray classes) []
  else Ret [].

(** [classObj[classId]?.[code] || code] *)
Definition resolve (classObj : index) (classId : string) (code : value) : outcome value :=
  match lookup classId classObj with
  | None => Ret (or_ VUndefined code)
  | Some labels => (k <~ toString code ;; Ret (or_ (field labels k) code))%js
  end.

(** The callback of [Object.keys(valueItem).forEach]. *)
Definition category (classObj : index) (valueItem : value)
    (categories : obj) (key : string) : outcome obj :=
  if startsWith key "@" && negb (key =? "@unit") then
    let classId := substring1 key in
    let code := optProp valueItem key in
    (label <~ resolve classObj classId code ;;
     Ret (set classId label categories))%js
  else Ret categories.

(** [parseFloat(x) || 0] *)
Definition parseValue (x : value) : outcome value :=
  (s <~ toString x ;;
   Ret (let n := parseFloat s in if truthyNum n then VNum n else ofZ 0))%js.

(** The object literal of lines 280-297. *)
Definition dataPoint (statName surveyDate : value) (categories : obj)
    (val unit sourceTableId : value) (dataType : string)
    (lastUpdated : value) (valueItem : value) (extractedAt : string) : value :=
  VObj
    [ ("statName", statName);
      ("surveyDate", surveyDate);
      ("region", or_ (field categories "area") (or_ (field categories "region") (VStr "Japan")));
      ("category1", or_ (field categories "cat01") (or_ (field categories "tab") (VStr "General")));
      ("category2", or_ (field categories "cat02") (or_ (field categories "cat03") (VStr "")));
      ("value", val);
      ("unit", unit);
      ("sourceTableId", sourceTableId);
      ("dataType", VStr dataType);
      ("lastUpdated", lastUpdated);
      ("metadata", VObj
         [ ("tableTitle", statName);
           ("categories", VObj categories);
           ("originalAttributes", valueItem) ]);
      ("extractedAt", VStr extractedAt) ].

(** What one value row computes before the clock is read: [value], [unit],
    [categories] and the data type (lines 268-278 and the call of line 289),
    in the order the source evaluates them. *)
Definition rowData (statName : value) (classObj : index) (valueItem : value)
    : outcome (value * value * obj * string) :=
  (raw <~ getProp valueItem "$" ;;
   val <~ parseValue raw ;;
   unit <~ getProp valueItem "@unit" ;;
   categories <~ reduce (category classObj valueItem) (ownKeys valueItem) [] ;;
   dataType <~ determineDataType statName ;;
   Ret (val, or_ unit (VStr ""), categories, dataType))%js.

(** [tableInf?.UPDATED_DATE || new Date().toISOString()] *)
Definition lastUpdatedOf (tableInf : value) : M nstate value :=
  let updated := optProp tableInf "UPDATED_DATE" in
  if truthy updated then ret updated
  else (now <- newDate ;; ret (VStr now)).

(** The callback of [values.forEach]: one value row, one record pushed. *)
Definition valueRow (tableInf statName surveyDate : value) (classObj : index)
    (sourceTableId : value) (valueItem : value) : M nstate unit :=
  d <- lift (rowData statName classObj valueItem) ;;
  let '(val, unit, categories, dataType) := d in
  lastUpdated <- lastUpdatedOf tableInf ;;
  extractedAt <- newDate ;;
  push (dataPoint statName surveyDate categories val unit sourceTableId
          dataType lastUpdated valueItem extractedAt).

(** The body of [try]. *)
Definition tryBlock (rawData sourceTableId : value) : M nstate unit :=
  tableInf <- lift (getProp rawData "TABLE_INF") ;;
  classInf <- lift (getProp rawData "CLASS_INF") ;;
  dataInf <- lift (getProp rawData "DATA_INF") ;;
  let statName := or_ (optProp tableInf "TITLE") (VStr "Unknown Statistic") in
  let surveyDate := or_ (optProp tableInf "SURVEY_DATE") (VStr "Unknown Date") in
  classObj <- lift (buildClassObj classInf) ;;
  let values := optProp dataInf "VALUE" in
  if truthy values then
    forEach (asArray values) (valueRow tableInf statName surveyDate classObj sourceTableId)
  else ret tt.

(** The object literal of lines 302-315. *)
Definition errorPoint (statName surveyDate sourceTableId : value)
    (lastUpdated : string) (error : exn) (rawData : value)
    (extractedAt : string) : value :=
  VObj
    [ ("statName", statName);
      ("surveyDate", surveyDate);
      ("region", VStr "Japan");
      ("category1", VStr "General");
      ("category2", VStr "");
      ("value", ofZ 0);
      ("unit", VStr "");
      ("sourceTableId", sourceTableId);
      ("dataType", VStr "unknown");
      ("lastUpdated", VStr lastUpdated);
      ("metadata", VObj [ ("error", VStr (message error)); ("rawData", rawData) ]);
      ("extractedAt", VStr extractedAt) ].

(** The body of [catch (error)]: one placeholder record. *)
Definition catchBlock (rawData sourceTableId : value) (error : exn) : M nstate unit :=
  tableInf <- lift (getProp rawData "TABLE_INF") ;;
  let statName := or_ (optProp tableInf "TITLE") (VStr "Unknown Statistic") in
  tableInf' <- lift (getProp rawData "TABLE_INF") ;;
  let surveyDate := or_ (optProp tableInf' "SURVEY_DATE") (VStr "Unknown Date") in
  lastUpdated <- newDate ;;
  extractedAt <- newDate ;;
  push (errorPoint statName surveyDate sourceTableId lastUpdated error rawData
          extractedAt).

(** [normalizeStatisticalData(rawData, metadata, sourceTableId)], called when
    the clock has been read [now] times: the returned array, or the
    exception that leaves the function, and the clock afterwards.  The
    parameter [metadata] is not used by the body. *)
Definition normalizeStatisticalData (rawData metadata sourceTableId : value)
    (now : nat) : outcome (list value) * nat :=
  let '(o, s) :=
    tryCatch (tryBlock rawData sourceTableId) (catchBlock rawData sourceTableId)
      {| clock := now; normalizedData := [] |} in
  (match o with
   | Ret _ => Ret (normalizedData s)
   | Throw e => Throw e
   end, clock s).

End Normalizer.

(** ** main.js *)

Inductive format := structured | raw | both.

(** The validated option set, as [validateInput] returns it. *)
Record options := {
  searchKeyword : string;
  surveyYears : string;
  statsField : string;
  maxItems : Z;
  includeMetadata : bool;
  outputFormat : format
}.

(** [Math.min(Math.max(parseInt(input.maxItems) || 10, 1), 100)], for the
    integer [parseInt] returns ([None] when it returns [NaN]). *)
Definition validMaxItems (parsed : option Z) : Z :=
  let requested :=
    match parsed with
    | Some z => if (z =? 0)%Z then 10%Z else z
    | None => 10%Z
    end in
  Z.min (Z.max requested 1) 100.

(** [validateInput] leaves [maxItems] between 1 and 100. *)
Definition validated (input : options) : Prop :=
  (1 <= maxItems input <= 100)%Z.

Definition formatName (f : format) : string :=
  match f with
  | structured => "structured"
  | raw => "raw"
  | both => "both"
  end.

(** The object [validatedInput], where the program emits it. *)
Definition optionsValue (input : options) : value :=
  VObj
    [ ("searchKeyword", VStr (searchKeyword input));
      ("surveyYears", VStr (surveyYears input));
      ("statsField", VStr (statsField input));
      ("maxItems", ofZ (maxItems input));
      ("includeMetadata", VBool (includeMetadata input));
      ("outputFormat", VStr (formatName (outputFormat input))) ].

(** [xs.slice(0, n)] for an integer [n]: a negative end counts from the end
    of the array. *)
Definition slice {X} (xs : list X) (n : Z) : list X :=
  if (n <? 0)%Z then firstn (Z.to_nat (Z.of_nat (length xs) + n)) xs
  else firstn (Z.to_nat n) xs.

(** [buildSearchParams(input)] *)
Definition buildSearchParams (input : options) : value :=
  let params : obj := [] in
  let params := if negb (searchKeyword input =? "")
                then set "searchWord" (VStr (searchKeyword input)) params else params in
  let params := if negb (surveyYears input =? "")
                then set "surveyYears" (VStr (surveyYears input)) params else params in
  let params := if negb (statsField input =? "")
                then set "statsField" (VStr (statsField input)) params else params in
  let params := set "limit" (ofZ (Z.min (maxItems input * 2) 100)) params in
  VObj params.

(** The remote collaborators: each returns a value or throws. *)
Class EStat := {
  getStatsList : value -> outcome (list value);
  getMetaInfo : value -> outcome value;
  getStatsData : value -> outcome value
}.

Inductive request :=
| StatsList (params : value)
| MetaInfo (statsDataId : value)
| StatsData (statsDataId : value).

(** The state of a run: the clock, the dataset [Actor.pushData] appends to,
    the requests sent so far, and the two counters of [mainLogic]. *)
Record world := {
  time : nat;
  dataset : list value;
  requests : list request;
  totalDataPoints : nat;
  processedTables : nat
}.

Section Main.
Context {rt : Runtime} {api : EStat}.

(** [new Date().toISOString()] *)
Definition date : M world string :=
  fun w =>
    (Ret (toISOString (time w)),
     {| time := S (time w); dataset := dataset w; requests := requests w;
        totalDataPoints := totalDataPoints w; processedTables := processedTables w |}).

(** [await Actor.pushData(item)] *)
Definition pushData (item : value) : M world unit :=
  fun w =>
    (Ret tt,
     {| time := time w; dataset := dataset w ++ [item]; requests := requests w;
        totalDataPoints := totalDataPoints w; processedTables := processedTables w |}).

(** A call of a collaborator, recorded. *)
Definition send {A} (r : request) (answer : outcome A) : M world A :=
  fun w =>
    (answer,
     {| time := time w; dataset := dataset w; requests := requests w ++ [r];
        totalDataPoints := totalDataPoints w; processedTables := processedTables w |}).

(** [let totalDataPoints = 0; let processedTables = 0;] *)
Definition declareCounters : M world unit :=
  fun w =>
    (Ret tt,
     {| time := time w; dataset := dataset w; requests := requests w;
        totalDataPoints := 0; processedTables := 0 |}).

(** [processedTables++] *)
Definition countTable : M world unit :=
  fun w =>
    (Ret tt,
     {| time := time w; dataset := dataset w; requests := requests w;
        totalDataPoints := totalDataPoints w; processedTables := S (processedTables w) |}).

(** [totalDataPoints++] *)
Definition countDataPoint : M world unit :=
  fun w =>
    (Ret tt,
     {| time := time w; dataset := dataset w; requests := requests w;
        totalDataPoints := S (totalDataPoints w); processedTables := processedTables w |}).

Definition counters : M world (nat * nat) :=
  fun w => (Ret (processedTables w, totalDataPoints w), w).

(** [normalizeStatisticalData(statsData, metadata, id)] on the run's clock. *)
Definition normalize (statsData metadata id : value) : M world (list value) :=
  fun w =>
    let '(o, t) := normalizeStatisticalData statsData metadata id (time w) in
    (o, {| time := t; dataset := dataset w; requests := requests w;
           totalDataPoints := totalDataPoints w; processedTables := processedTables w |}).

Definition wantsRaw (input : options) : bool :=
  match outputFormat input with
  | raw | both => true
  | structured => false
  end.

Definition wantsStructured (input : options) : bool :=
  match outputFormat input with
  | structured | both => true
  | raw => false
  end.

(** The object literal of lines 101-108. *)
Definition rawItem (id table metadata statsData : value) (extractedAt : string) : value :=
  VObj
    [ ("type", VStr "raw");
      ("tableId", id);
      ("tableInfo", table);
      ("metadata", metadata);
      ("rawData", statsData);
      ("extractedAt", VStr extractedAt) ].

(** The [try] block of the loop body (lines 72-122).  The arguments of the
    logging calls are evaluated where the source evaluates them; logging
    itself and [sleep] change nothing that is modelled. *)
Definition tableBody (input : options) (table : value) : M world unit :=
  countTable ;;;
  id <- lift (getProp table "@id") ;;
  title <- lift (getProp table "TITLE") ;;
  _ <- lift (toString title) ;;
  metadata <-
    (if includeMetadata input then
       tryCatch (send (MetaInfo id) (getMetaInfo id)) (fun metaError => ret VNull)
     else ret VNull) ;;
  statsData <- send (StatsData id) (getStatsData id) ;;
  (if wantsRaw input then
     extractedAt <- date ;;
     pushData (rawItem id table metadata statsData extractedAt)
   else ret tt) ;;;
  (if wantsStructured input then
     normalizedData <- normalize statsData metadata id ;;
     forEach normalizedData (fun dataPoint => pushData dataPoint ;;; countDataPoint)
   else ret tt).

(** The object literal of lines 131-137. *)
Definition tableErrorItem (id title : value) (tableError : exn)
    (extractedAt : string) : value :=
  VObj
    [ ("type", VStr "error");
      ("tableId", id);
      ("tableTitle", title);
      ("error", VStr (message tableError));
      ("extractedAt", VStr extractedAt) ].

(** The [catch (tableError)] block of the loop body (lines 124-138). *)
Definition tableFailed (table : value) (tableError : exn) : M world unit :=
  id <- lift (getProp table "@id") ;;
  _ <- lift (toString id) ;;
  title <- lift (getProp table "TITLE") ;;
  extractedAt <- date ;;
  pushData (tableErrorItem id title tableError extractedAt).

(** One iteration of [for (const table of tablesToProcess)]. *)
Definition processTable (input : options) (table : value) : M world unit :=
  tryCatch (tableBody input table) (tableFailed table).

(** The two sample records of [runDemoMode]. *)
Definition demoData (extractedAt1 extractedAt2 : string) : list value :=
  [ VObj
      [ ("statName", VStr "国勢調査 人口総数");
        ("surveyDate", VStr "2020年");
        ("region", VStr "全国");
        ("category1", VStr "総人口");
        ("category2", VStr "男女計");
        ("value", ofZ 125836021);
        ("unit", VStr "人");
        ("sourceTableId", VStr "demo_001");
        ("dataType", VStr "population");
        ("lastUpdated", VStr "2021-06-25T00:00:00Z");
        ("metadata", VObj
           [ ("tableTitle", VStr "国勢調査 人口総数");
             ("categories", VObj [ ("area", VStr "全国"); ("gender", VStr "男女計") ]);
             ("note", VStr "This is demo data") ]);
        ("extractedAt", VStr extractedAt1) ];
    VObj
      [ ("statName", VStr "労働力調査 就業者数");
        ("surveyDate", VStr "2023年12月");
        ("region", VStr "全国");
        ("category1", VStr "就業者");
        ("category2", VStr "総数");
        ("value", ofZ 67230000);
        ("unit", VStr "人");
        ("sourceTableId", VStr "demo_002");
        ("dataType", VStr "labor");
        ("lastUpdated", VStr "2024-01-30T00:00:00Z");
        ("metadata", VObj
           [ ("tableTitle", VStr "労働力調査 就業者数");
             ("categories", VObj [ ("area", VStr "全国"); ("employment", VStr "就業者") ]);
             ("note", VStr "This is demo data") ]);
        ("extractedAt", VStr extractedAt2) ] ].

(** [item.f.toLowerCase()] for a field of a sample record. *)
Definition lowerField (item : value) (f : string) : string :=
  match optProp item f with
  | VStr s => toLowerCase s
  | _ => ""
  end.

(** The predicate of [filteredData.filter]. *)
Definition matchesKeyword (keyword : string) (item : value) : bool :=
  includes (lowerField item "statName") keyword
  || includes (lowerField item "category1") keyword
  || includes (lowerField item "dataType") keyword.

(** Lines 223-232: the sample records kept for an option set. *)
Definition filterDemo (input : options) (data : list value) : list value :=
  let filteredData :=
    if negb (searchKeyword input =? "")
    then filter (matchesKeyword (toLowerCase (searchKeyword input))) data
    else data in
  slice filteredData (maxItems input).

(** The object literal of lines 238-245. *)
Definition demoSummary (input : options) (demoDataPoints : nat)
    (completedAt : string) : value :=
  VObj
    [ ("type", VStr "demo_summary");
      ("message", VStr "Demo mode completed. To access real e-Stat data, please provide ESTAT_APP_ID.");
      ("demoDataPoints", ofNat demoDataPoints);
      ("searchCriteria", optionsValue input);
      ("registrationInfo", VObj
         [ ("url", VStr "https://www.e-stat.go.jp/api/");
           ("note", VStr "Register for free e-Stat API access") ]);
      ("completedAt", VStr completedAt) ].

(** [runDemoMode(input)] *)
Definition runDemoMode (input : options) : M world unit :=
  extractedAt1 <- date ;;
  extractedAt2 <- date ;;
  let filteredData := filterDemo input (demoData extractedAt1 extractedAt2) in
  forEach filteredData pushData ;;;
  completedAt <- date ;;
  pushData (demoSummary input (length filteredData) completedAt).

(** The test of line 161 on [error.message]. *)
Definition authLike (msg : string) : bool :=
  includes msg "403" || includes msg "401" || includes msg "API".

(** The [try] block of [mainLogic] (lines 37-155). *)
Definition apiRun (input : options) : M world unit :=
  let searchParams := buildSearchParams input in
  statsList <- send (StatsList searchParams) (getStatsList searchParams) ;;
  if (length statsList =? 0)%nat then
    extractedAt <- date ;;
    pushData (VObj
      [ ("message", VStr "No statistical tables found for the given search criteria");
        ("searchParams", searchParams);
        ("extractedAt", VStr extractedAt) ])
  else
    let tablesToProcess := slice statsList (maxItems input) in
    declareCounters ;;;
    forEach tablesToProcess (processTable input) ;;;
    n <- counters ;;
    completedAt <- date ;;
    pushData (VObj
      [ ("type", VStr "summary");
        ("tablesProcessed", ofNat (fst n));
        ("totalDataPoints", ofNat (snd n));
        ("searchCriteria", optionsValue input);
        ("completedAt", VStr completedAt) ]).

(** The [catch (error)] block of [mainLogic] (lines 157-178). *)
Definition apiFailed (input : options) (error : exn) : M world unit :=
  if authLike (message error) then runDemoMode input
  else
    extractedAt <- date ;;
    pushData (VObj
      [ ("type", VStr "error");
        ("error", VStr (message error));
        ("message", VStr "An error occurred while processing. Falling back to demo mode.");
        ("input", optionsValue input);
        ("extractedAt", VStr extractedAt) ]) ;;;
    runDemoMode input.

(** [mainLogic], from the point where [validatedInput] and [estatAppId] are
    known. *)
Definition mainLogic (input : options) (estatAppId : value) : M world unit :=
  if negb (truthy estatAppId) then runDemoMode input
  else tryCatch (apiRun input) (apiFailed input).

End Main.

(** ** The specification's reading of the classifier *)

Definition dataTypes : list string :=
  [ "population"; "economic"; "labor"; "industry"; "education"; "health";
    "environment"; "general" ].

(** The ordered keyword sets of section 4.3. *)
Definition keywordSets : list (string * list string) :=
  [ ("population", ["人口"; "population"]);
    ("economic", ["経済"; "gdp"]);
    ("labor", ["労働"; "雇用"; "labor"]);
    ("industry", ["産業"; "industry"]);
    ("education", ["教育"; "education"]);
    ("health", ["医療"; "health"]);
    ("environment", ["環境"; "environment"]) ].

Definition mentions (name : string) (keywords : list string) : bool :=
  existsb (includes name) keywords.

(** First matching category wins; no match yields [general]. *)
Fixpoint firstMatch (sets : list (string * list string)) (name : string) : string :=
  match sets with
  | [] => "general"
  | (category, keywords) :: rest =>
      if mentions name keywords then category else firstMatch rest name
  end.

Section Classifier.
Context {rt : Runtime}.

Definition classify (title : string) : string :=
  firstMatch keywordSets (toLowerCase title).

End Classifier.

(** ** Reading the payload and the records *)

(** The value rows of a payload: what [values.forEach] iterates over. *)
Definition valueRows (rawData : value) : list value :=
  let values := optProp (optProp rawData "DATA_INF") "VALUE" in
  if truthy values then asArray values else [].

(** The classification groups of a document: what [classes.forEach]
    iterates over. *)
Definition documentGroups (document : value) : list value :=
  let classes := optProp document "CLASS_OBJ" in
  if truthy classes then asArray classes else [].

(** The title the records carry. *)
Definition titleOf (rawData : value) : value :=
  or_ (optProp (optProp rawData "TABLE_INF") "TITLE") (VStr "Unknown Statistic").

Definition isString (v : value) : bool :=
  match v with
  | VStr _ => true
  | _ => false
  end.

(** A classification id or code as e-Stat sends it: a string, and not one
    of the inherited names. *)
Definition plainString (v : value) : bool :=
  match v with
  | VStr s => negb (inheritedName s)
  | _ => false
  end.

Definition codeString (v : value) : bool :=
  match v with
  | VStr s => negb (s =? "") && negb (inheritedName s)
  | _ => false
  end.

Definition scalar (v : value) : bool :=
  match v with
  | VArr _ | VObj _ => false
  | _ => true
  end.

(** A key of a value row that names a classification. *)
Definition classKey (key : string) : bool :=
  startsWith key "@" && negb (key =? "@unit").

Definition wfClassItem (item : value) : bool :=
  match item with
  | VObj o => plainString (field o "@code")
  | _ => false
  end.

Definition wfClassGroup (cls : value) : bool :=
  match cls with
  | VObj o =>
      let c := field o "CLASS" in
      if truthy c
      then plainString (field o "@id") && forallb wfClassItem (asArray c)
      else true
  | _ => false
  end.

(** A well-formed classification document: its groups are objects with a
    string id whose entries are objects with a string code. *)
Definition wfDocument (document : value) : bool :=
  forallb wfClassGroup (documentGroups document).

(** A well-formed value row: an object whose observation [$] is a scalar
    and whose classification attributes are non-empty codes under ordinary
    classification ids. *)
Definition wfRow (row : value) : bool :=
  match row with
  | VObj o =>
      scalar (field o "$")
      && forallb (fun kv : string * value =>
                    if classKey (fst kv)
                    then negb (inheritedName (substring1 (fst kv))) && codeString (snd kv)
                    else true) o
  | _ => false
  end.

(** A well-formed payload: an object whose title, if any, is a string, whose
    classification groups and value rows are well formed. *)
Definition wellFormed (rawData : value) : bool :=
  match rawData with
  | VObj _ =>
      isString (titleOf rawData)
      && wfDocument (optProp rawData "CLASS_INF")
      && forallb wfRow (valueRows rawData)
  | _ => false
  end.

(** The synthetic record of the [catch] block. *)
Definition isPlaceholder (r : value) : Prop :=
  optProp r "value" = ofZ 0
  /\ optProp r "dataType" = VStr "unknown"
  /\ optProp r "region" = VStr "Japan"
  /\ optProp r "category1" = VStr "General"
  /\ optProp r "category2" = VStr ""
  /\ optProp r "unit" = VStr ""
  /\ exists msg, optProp (optProp r "metadata") "error" = VStr msg.

(** The record of a value row: its data type is one of the eight. *)
Definition isDataPoint (r : value) : Prop :=
  exists dataType, optProp r "dataType" = VStr dataType /\ In dataType dataTypes.

(** The length of the list a call returned, if it returned. *)
Definition returned {A} (o : outcome (list A)) : option nat :=
  match o with
  | Ret l => Some (length l)
  | Throw _ => None
  end.

Section Reading.
Context {rt : Runtime}.

(** The index a payload yields ([classObj] when the [try] block reaches the
    value rows). *)
Definition classObjOf (rawData : value) : index :=
  match buildClassObj (optProp rawData "CLASS_INF") with
  | Ret classObj => classObj
  | Throw _ => []
  end.

(** [r] is the record the normaliser pushes for the value row [row] of
    [rawData]: the fields of [rowData], stamped; [lastUpdated] is the
    payload's [UPDATED_DATE] when it has one. *)
Definition recordOf (rawData sourceTableId : value) (row r : value) : Prop :=
  let tableInf := optProp rawData "TABLE_INF" in
  let statName := titleOf rawData in
  let surveyDate := or_ (optProp tableInf "SURVEY_DATE") (VStr "Unknown Date") in
  exists val unit categories dataType lastUpdated extractedAt,
    rowData statName (classObjOf rawData) row = Ret (val, unit, categories, dataType)
    /\ r = dataPoint statName surveyDate categories val unit sourceTableId
             dataType lastUpdated row extractedAt
    /\ (truthy (optProp tableInf "UPDATED_DATE") = true ->
        lastUpdated = optProp tableInf "UPDATED_DATE").

(** [r] is the placeholder the [catch] block pushes for [rawData] and the
    exception [error]. *)
Definition placeholderOf (rawData sourceTableId : value) (error : exn)
    (r : value) : Prop :=
  let tableInf := optProp rawData "TABLE_INF" in
  exists lastUpdated extractedAt,
    r = errorPoint (titleOf rawData)
          (or_ (optProp tableInf "SURVEY_DATE") (VStr "Unknown Date"))
          sourceTableId lastUpdated error rawData extractedAt.

End Reading.

(** ** The specification's reading of resolution and precedence *)

(** The label the index holds for a pair, if it holds one. *)
Definition indexLabel (classObj : index) (classId code : string) : option value :=
  match lookup classId classObj with
  | Some labels => lookup code labels
  | None => None
  end.

(** Section 4.1: the label of a code under a classification id is the label
    the index holds for the pair; the code stands for itself when the index
    holds none (or an empty one). *)
Definition labelOf (classObj : index) (classId code : string) : value :=
  match indexLabel classObj classId code with
  | Some l => if truthy l then l else VStr code
  | None => VStr code
  end.

Definition isText (s : string) (v : value) : bool :=
  match v with
  | VStr s' => s =? s'
  | _ => false
  end.

(** The label a classification document provides for a pair: the name of
    the last entry with that code in the last group with that id (a later
    group or entry replaces an earlier one of the same id or code). *)
Definition documentLabel (document : value) (classId code : string) : option value :=
  match find (fun cls => truthy (optProp cls "CLASS") && isText classId (optProp cls "@id"))
             (rev (documentGroups document)) with
  | Some cls =>
      match find (fun item => isText code (optProp item "@code"))
                 (rev (asArray (optProp cls "CLASS"))) with
      | Some item => Some (optProp item "@name")
      | None => None
      end
  | None => None
  end.

(** The resolved label of an attribute value: that of its code when it is a
    string. *)
Definition label (classObj : index) (classId : string) (code : value) : value :=
  match code with
  | VStr c => labelOf classObj classId c
  | _ => code
  end.

(** Section 3: the resolved label of the first classification id of [ids]
    the row carries, and [fallback] when it carries none. *)
Fixpoint firstPresent (classObj : index) (row : value) (ids : list string)
    (fallback : value) : value :=
  match ids with
  | [] => fallback
  | id :: rest =>
      match lookup ("@" ++ id)%string (match row with VObj o => o | _ => [] end) with
      | Some code => label classObj id code
      | None => firstPresent classObj row rest fallback
      end
  end.

(** The precedence rules of section 3 for the record [r] of the row [row]. *)
Definition followsPrecedence (classObj : index) (row r : value) : Prop :=
  optProp r "region" = firstPresent classObj row ["area"; "region"] (VStr "Japan")
  /\ optProp r "category1" = firstPresent classObj row ["cat01"; "tab"] (VStr "General")
  /\ optProp r "category2" = firstPresent classObj row ["cat02"; "cat03"] (VStr "").

(** Two records that agree on every field but the two the clock can fill. *)
Definition sameButTimes (r1 r2 : value) : Prop :=
  forall k : string,
    k <> "extractedAt" -> k <> "lastUpdated" -> optProp r1 k = optProp r2 k.

(** The records of value rows from two calls: equal but for the times, and
    equal on [lastUpdated] too when the payload dates itself. *)
Definition twins (tableInf : value) (r1 r2 : value) : Prop :=
  sameButTimes r1 r2
  /\ isDataPoint r1
  /\ (truthy (optProp tableInf "UPDATED_DATE") = true ->
      optProp r1 "lastUpdated" = optProp r2 "lastUpdated").

(** ** Reading a run *)

Definition isStatsData (r : request) : bool :=
  match r with
  | StatsData _ => true
  | _ => false
  end.

Definition isMetaInfo (r : request) : bool :=
  match r with
  | MetaInfo _ => true
  | _ => false
  end.

(** The data fetches and the metadata fetches among the requests of a run. *)
Definition dataFetches (w : world) : nat := length (filter isStatsData (requests w)).
Definition metaFetches (w : world) : nat := length (filter isMetaInfo (requests w)).

(** [c] raises the measure [mu] by at most [n], however it ends. *)
Definition within (mu : world -> nat) {A} (c : M world A) (n : nat) : Prop :=
  forall w o w', c w = (o, w') -> (mu w' <= mu w + n)%nat.

(** [c] sends no request. *)
Definition quiet {A} (c : M world A) : Prop :=
  forall w o w', c w = (o, w') -> requests w' = requests w.

(** Every request [c] sends satisfies [P]. *)
Definition sends (P : request -> Prop) {A} (c : M world A) : Prop :=
  forall w o w', c w = (o, w') ->
    exists new, requests w' = requests w ++ new /\ Forall P new.

(** The two requests an iteration can send for a table. *)
Definition forTable (table : value) (r : request) : Prop :=
  r = MetaInfo (optProp table "@id") \/ r = StatsData (optProp table "@id").

Section Requests.
Context {api : EStat}.

(** The requests a run under [input] may send: the search, and the two
    requests of a table among the first [maxItems] the search returned. *)
Definition fromRun (input : options) (r : request) : Prop :=
  r = StatsList (buildSearchParams input)
  \/ exists statsList table,
       getStatsList (buildSearchParams input) = Ret statsList
       /\ In table (firstn (Z.to_nat (maxItems input)) statsList)
       /\ forTable table r.

End Requests.

(** A table descriptor as the search step returns it: an object whose id
    and title are scalars. *)
Definition descriptor (table : value) : bool :=
  match table with
  | VObj o => scalar (field o "@id") && scalar (field o "TITLE")
  | _ => false
  end.

(** The world before a run. *)
Definition freshWorld : world :=
  {| time := 0; dataset := []; requests := [];
     totalDataPoints := 0; processedTables := 0 |}.

(** ** A runtime for examples

    It agrees with JavaScript on the inputs the examples below use:
    [parseFloat] on strings that are empty, start with a letter, or consist
    of ASCII digits; number-to-string conversion on integers; lower-casing
    on strings whose only cased letters are ASCII.  The clock renders its
    [n]-th reading as the text [T] followed by [n]. *)

Definition lowerAscii (c : ascii) : ascii :=
  let n := nat_of_ascii c in
  if (65 <=? n)%nat && (n <=? 90)%nat then ascii_of_nat (n + 32) else c.

Fixpoint lowerString (s : string) : string :=
  match s with
  | EmptyString => EmptyString
  | String c rest => String (lowerAscii c) (lowerString rest)
  end.

Definition digitOf (c : ascii) : option Z :=
  let n := nat_of_ascii c in
  if (48 <=? n)%nat && (n <=? 57)%nat then Some (Z.of_nat (n - 48)) else None.

(** The value of the leading decimal digits of [s], if it has any. *)
Fixpoint leadingDigits (s : string) (acc : option Z) : option Z :=
  match s with
  | EmptyString => acc
  | String c rest =>
      match digitOf c with
      | Some d =>
          leadingDigits rest
            (Some (match acc with Some a => a * 10 + d | None => d end)%Z)
      | None => acc
      end
  end.

Definition digitsParse (s : string) : number :=
  match leadingDigits s None with
  | Some z => Fin z 0
  | None => NaN
  end.

Definition digitChar (d : nat) : ascii := ascii_of_nat (48 + d).

Fixpoint natDigits (fuel n : nat) (acc : string) : string :=
  match fuel with
  | O => acc
  | S fuel' =>
      let acc' := String (digitChar (n mod 10)) acc in
      if (n <? 10)%nat then acc' else natDigits fuel' (n / 10) acc'
  end.

Definition natString (n : nat) : string := natDigits (S n) n "".

Definition integerString (n : number) : string :=
  match n with
  | NaN => "NaN"
  | Infinity false => "Infinity"
  | Infinity true => "-Infinity"
  | Fin m e =>
      let z := Z.shiftl m e in
      if (z <? 0)%Z then "-" ++ natString (Z.to_nat (- z)) else natString (Z.to_nat z)
  end.

#[local] Instance sampleRuntime : Runtime := {
  parseFloat := digitsParse;
  numberToString := integerString;
  toLowerCase := lowerString;
  toISOString := fun n => ("T" ++ natString n)%string
}.

(** ** Payloads for the examples *)

(** The scenario of section 8: one classification group, one value row. *)
Definition scenarioPayload : value :=
  VObj
    [ ("TABLE_INF", VObj [ ("TITLE", VStr "人口推計") ]);
      ("CLASS_INF", VObj
         [ ("CLASS_OBJ", VObj
              [ ("@id", VStr "area");
                ("CLASS", VArr [ VObj [ ("@code", VStr "00000"); ("@name", VStr "全国") ] ]) ]) ]);
      ("DATA_INF", VObj
         [ ("VALUE", VObj
              [ ("@area", VStr "00000"); ("@unit", VStr "人"); ("$", VStr "125836021") ]) ]) ].

(** A payload without a [DATA_INF] section. *)
Definition emptyPayload : value :=
  VObj [ ("TABLE_INF", VObj [ ("TITLE", VStr "人口推計") ]) ].

(** Three value rows, the second of which is [null]. *)
Definition brokenPayload : value :=
  VObj
    [ ("DATA_INF", VObj
         [ ("VALUE", VArr [ VObj [ ("$", VStr "1") ]; VNull; VObj [ ("$", VStr "3") ] ]) ]) ].

(** A classification document one of whose labels is empty. *)
Definition emptyLabelDocument : value :=
  VObj
    [ ("CLASS_OBJ", VObj
         [ ("@id", VStr "area");
           ("CLASS", VObj [ ("@code", VStr "13000"); ("@name", VStr "") ]) ]) ].

(** ** Collaborators and option sets for the examples *)

Definition populationTable : value :=
  VObj [ ("@id", VStr "0003448738"); ("TITLE", VStr "人口推計") ].

Definition laborTable : value :=
  VObj [ ("@id", VStr "0003005798"); ("TITLE", VStr "労働力調査") ].

Definition householdTable : value :=
  VObj [ ("@id", VStr "0002070001"); ("TITLE", VStr "家計調査") ].

Definition noResponse (context : string) : exn :=
  Error ("e-Stat API Error (" ++ context ++ "): No response received from server.").

(** A service that finds three tables, has the data of the first, fails to
    answer for the data of the second, and answers no metadata request. *)
#[local] Instance sampleApi : EStat := {
  getStatsList := fun _ => Ret [ populationTable; laborTable; householdTable ];
  getMetaInfo := fun _ => Throw (noResponse "getMetaInfo");
  getStatsData := fun id =>
    match id with
    | VStr "0003448738" => Ret scenarioPayload
    | VStr "0003005798" => Throw (noResponse "getStatsData")
    | _ => Ret emptyPayload
    end
}.

(** A service whose search is refused. *)
Definition refusedApi : EStat := {|
  getStatsList := fun _ =>
    Throw (Error "e-Stat API Error (getStatsList): Status 403 - Unknown API error");
  getMetaInfo := fun _ => Throw (noResponse "getMetaInfo");
  getStatsData := fun _ => Throw (noResponse "getStatsData")
|}.

Definition sampleInput : options :=
  {| searchKeyword := "人口"; surveyYears := ""; statsField := "";
     maxItems := 2; includeMetadata := true; outputFormat := structured |}.

Definition noMetadataInput : options :=
  {| searchKeyword := "人口"; surveyYears := ""; statsField := "";
     maxItems := 1; includeMetadata := false; outputFormat := structured |}.

(** * More of the program

    The rest of [utils.js] ([validateInput], [handleApiError],
    [getStatsList], [getMetaInfo], [getStatsData]) and the whole of
    [mainLogic], from the raw actor input and the HTTP client down.  Two more
    groups of builtins appear: [String.prototype.trim] and [parseInt]
    ([InputRuntime]), and the HTTP client [apiClient.get] ([Http]). *)

(** ** validateInput *)

(** What [parseInt] returns: [NaN], an infinity, or an integer. *)
Inductive parsedInt :=
| NotANumber
| Infinite (negative : bool)
| Integer (z : Z).

Class InputRuntime := {
  trim : string -> string;
  parseInt : string -> parsedInt
}.

(** [Math.min(Math.max(p || 10, 1), 100)] *)
Definition clampMaxItems (p : parsedInt) : Z :=
  match p with
  | NotANumber => 10
  | Infinite false => 100
  | Infinite true => 1
  | Integer z => Z.min (Z.max (if (z =? 0)%Z then 10 else z) 1) 100
  end.

(** [\['structured', 'raw', 'both'\].includes(v) ? v : 'structured'] *)
Definition formatOption (v : value) : format :=
  match v with
  | VStr s => if s =? "raw" then raw else if s =? "both" then both else structured
  | _ => structured
  end.

(** [Boolean(v !== false)] *)
Definition flagOption (v : value) : bool :=
  match v with
  | VBool false => false
  | _ => true
  end.

Section ValidateInput.
Context {rt : Runtime} {irt : InputRuntime}.

(** [input.f?.trim() || '']: the call is skipped on [null] and [undefined],
    made on a string, and a TypeError on any other value, which has no
    [trim] method. *)
Definition textOption (input : value) (f : string) : outcome string :=
  (v <~ getProp input f ;;
   match v with
   | VUndefined | VNull => Ret ""
   | VStr s => Ret (trim s)
   | _ => Throw (TypeError_notFunction ("input." ++ f ++ "?.trim"))
   end)%js.

(** [validateInput(input)] *)
Definition validateInput (input : value) : outcome options :=
  (searchKeyword <~ textOption input "searchKeyword" ;;
   surveyYears <~ textOption input "surveyYears" ;;
   statsField <~ textOption input "statsField" ;;
   requested <~ getProp input "maxItems" ;;
   digits <~ toString requested ;;
   includeMetadata <~ getProp input "includeMetadata" ;;
   outputFormat <~ getProp input "outputFormat" ;;
   Ret {| searchKeyword := searchKeyword;
          surveyYears := surveyYears;
          statsField := statsField;
          maxItems := clampMaxItems (parseInt digits);
          includeMetadata := flagOption includeMetadata;
          outputFormat := formatOption outputFormat |})%js.

End ValidateInput.

(** A text option [validateInput] accepts: absent, [null] or a string. *)
Definition textual (v : value) : bool :=
  match v with
  | VUndefined | VNull | VStr _ => true
  | _ => false
  end.

(** ** The fetchers of utils.js *)

(** What [apiClient.get] rejects with, or what the [try] block of a fetcher
    throws: an error object with its [response] (status and data, when the
    server answered), whether it has a [request], and its [message]. *)
Record failure := {
  errResponse : option (value * value);
  errRequest : bool;
  errMessage : string
}.

(** The HTTP client: a path and the [params] of the request give the
    [data] of the response, or a rejection. *)
Class Http := {
  get : string -> obj -> failure + value
}.

(** An exception of the program, as the [catch] block of a fetcher sees it:
    no [response], no [request]. *)
Definition caught (e : exn) : failure :=
  {| errResponse := None; errRequest := false; errMessage := message e |}.

(** [{...params}]: the own properties of an object, nothing for [null],
    [undefined], a number or a boolean.  The program spreads no array and no
    string, whose indices would be copied: [params] is the object
    [buildSearchParams] returns, or the default [{}]. *)
Definition spread (params : value) : obj :=
  match params with
  | VObj o => o
  | _ => []
  end.

(** [{...a, ...b}]: the properties of [b] are assigned over those of [a]. *)
Definition assign (a b : obj) : obj :=
  fold_left (fun acc kv => set (fst kv) (snd kv) acc) b a.

Module Utils.
Section Fetchers.
Context {rt : Runtime} {http : Http}.

(** [data?.GET_STATS_LIST?.RESULT?.ERROR_MSG] and its two siblings *)
Definition resultOf (data : value) (api field : string) : value :=
  optProp (optProp (optProp data api) "RESULT") field.

(** [handleApiError(error, context)]: it always throws; this is what. *)
Definition handleApiError (error : failure) (context : string) : exn :=
  match errResponse error with
  | Some (status, data) =>
      let apiErrorMsg :=
        or_ (resultOf data "GET_STATS_LIST" "ERROR_MSG")
          (or_ (resultOf data "GET_META_INFO" "ERROR_MSG")
             (or_ (resultOf data "GET_STATS_DATA" "ERROR_MSG")
                (VStr "Unknown API error"))) in
      match toString status with
      | Throw e => e
      | Ret status =>
          match toString apiErrorMsg with
          | Throw e => e
          | Ret apiErrorMsg =>
              Error ("e-Stat API Error (" ++ context ++ "): Status " ++ status
                       ++ " - " ++ apiErrorMsg)
          end
      end
  | None =>
      if errRequest error
      then Error ("e-Stat API Error (" ++ context ++ "): No response received from server.")
      else Error ("e-Stat API Error (" ++ context ++ "): " ++ errMessage error)
  end.

(** The [else] branch of a fetcher: the status is not ['0']. *)
Definition refused (data : value) (api : string) : exn :=
  match toString (or_ (resultOf data api "ERROR_MSG") (VStr "Unknown error")) with
  | Ret errorMessage => Error ("e-Stat API Error: " ++ errorMessage)
  | Throw e => e
  end.

(** [response.data?.API?.RESULT?.STATUS === '0'] *)
Definition accepted (data : value) (api : string) : bool :=
  isText "0" (resultOf data api "STATUS").

(** [getStatsList(apiClient, params)] *)
Definition getStatsList (params : value) : outcome (list value) :=
  match get "/getStatsList"
          (set "dataFormat" (VStr "json") (set "lang" (VStr "J") (spread params))) with
  | inr data =>
      if accepted data "GET_STATS_LIST" then
        let tables :=
          or_ (optProp (optProp (optProp data "GET_STATS_LIST") "DATALIST_INF") "TABLE_INF")
            (VArr []) in
        Ret (asArray tables)
      else Throw (handleApiError (caught (refused data "GET_STATS_LIST")) "getStatsList")
  | inl error => Throw (handleApiError error "getStatsList")
  end.

(** [getMetaInfo(apiClient, statsDataId)] *)
Definition getMetaInfo (statsDataId : value) : outcome value :=
  let answer :=
    match get "/getMetaInfo"
            [ ("statsDataId", statsDataId); ("lang", VStr "J"); ("dataFormat", VStr "json") ] with
    | inr data =>
        if accepted data "GET_META_INFO"
        then inr (optProp (optProp data "GET_META_INFO") "METADATA_INF")
        else inl (caught (refused data "GET_META_INFO"))
    | inl error => inl error
    end in
  match answer with
  | inr metadata => Ret metadata
  | inl error =>
      (id <~ toString statsDataId ;;
       Throw (handleApiError error ("getMetaInfo for " ++ id)))%js
  end.

(** [getStatsData(apiClient, statsDataId, params)] *)
Definition getStatsData (statsDataId params : value) : outcome value :=
  let answer :=
    match get "/getStatsData"
            (assign [ ("statsDataId", statsDataId); ("lang", VStr "J");
                      ("dataFormat", VStr "json") ] (spread params)) with
    | inr data =>
        if accepted data "GET_STATS_DATA"
        then inr (optProp (optProp data "GET_STATS_DATA") "STATISTICAL_DATA")
        else inl (caught (refused data "GET_STATS_DATA"))
    | inl error => inl error
    end in
  match answer with
  | inr statisticalData => Ret statisticalData
  | inl error =>
      (id <~ toString statsDataId ;;
       Throw (handleApiError error ("getStatsData for " ++ id)))%js
  end.

End Fetchers.
End Utils.

(** The collaborators of [mainLogic] over an HTTP client: [main.js] calls
    [getStatsData] with two arguments, so [params] is its default [{}]. *)
Definition httpApi {rt : Runtime} (http : Http) : EStat :=
  {| getStatsList := Utils.getStatsList;
     getMetaInfo := Utils.getMetaInfo;
     getStatsData := fun statsDataId => Utils.getStatsData statsDataId (VObj []) |}.

(** ** mainLogic, from the actor input *)

Section Run.
Context {rt : Runtime} {irt : InputRuntime} {api : EStat}.

(** [mainLogic] from [Actor.getInput()]: [validateInput(input || {})] stands
    outside every [try], then the run. *)
Definition run (input estatAppId : value) : M world unit :=
  validatedInput <- lift (validateInput (or_ input (VObj []))) ;;
  mainLogic validatedInput estatAppId.

End Run.

(** ** Reading a run, continued *)

(** [c] relates the world it starts from to the world it ends in by [R],
    however it ends. *)
Definition keeps (R : world -> world -> Prop) {A} (c : M world A) : Prop :=
  forall w o w', c w = (o, w') -> R w w'.

(** An item without a [type] field: the records of the normaliser and the
    sample records, as opposed to the [raw], [error], [summary] and
    [demo_summary] items. *)
Definition untyped (item : value) : bool :=
  match optProp item "type" with
  | VUndefined => true
  | _ => false
  end.

(** From [w] to [w']: items were appended to the dataset and nothing else
    happened to it. *)
Definition appends (w w' : world) : Prop :=
  exists items, dataset w' = dataset w ++ items.

(** From [w] to [w']: the table counter is unchanged, and the record counter
    grew by the number of untyped items appended to the dataset. *)
Definition tallies (w w' : world) : Prop :=
  processedTables w' = processedTables w
  /\ exists items,
       dataset w' = dataset w ++ items
       /\ totalDataPoints w' = totalDataPoints w + length (filter untyped items).

(** The exception [handleApiError] builds for a [context]. *)
Definition prefixed (context : string) (e : exn) : Prop :=
  exists rest, e = Error ("e-Stat API Error (" ++ context ++ "): " ++ rest).

(** The last item of a run tells how it ended. *)
Definition closing (item : value) : bool :=
  isText "summary" (optProp item "type")
  || isText "demo_summary" (optProp item "type")
  || isText "No statistical tables found for the given search criteria"
       (optProp item "message").

(** ** More builtins and an HTTP client for examples

    [trim] removes ASCII blanks, and [parseInt] reads an optional minus
    sign and leading decimal digits: they agree with JavaScript on the
    strings the examples use. *)

Definition isBlank (c : ascii) : bool :=
  let n := nat_of_ascii c in
  (n =? 32)%nat || ((9 <=? n)%nat && (n <=? 13)%nat).

Fixpoint trimStart (s : list ascii) : list ascii :=
  match s with
  | c :: rest => if isBlank c then trimStart rest else s
  | [] => []
  end.

Definition trimBlanks (s : string) : string :=
  string_of_list_ascii
    (rev (trimStart (rev (trimStart (list_ascii_of_string s))))).

Definition parseDecimal (s : string) : parsedInt :=
  match s with
  | String "-" rest =>
      match leadingDigits rest None with
      | Some z => Integer (- z)
      | None => NotANumber
      end
  | _ =>
      match leadingDigits s None with
      | Some z => Integer z
      | None => NotANumber
      end
  end.

#[local] Instance sampleInputRuntime : InputRuntime := {
  trim := trimBlanks;
  parseInt := parseDecimal
}.

(** An input as a user would type it. *)
Definition typedInput : value :=
  VObj
    [ ("searchKeyword", VStr "  人口 ");
      ("maxItems", VStr "250");
      ("includeMetadata", VNull);
      ("outputFormat", VStr "csv") ].

(** A client every request of which the server refuses with status 403 and
    an empty body. *)
Definition forbiddenHttp : Http :=
  {| get := fun _ _ =>
       inl {| errResponse := Some (ofZ 403, VObj []); errRequest := true;
              errMessage := "Request failed with status code 403" |} |}.

(** A client whose server finds one table and answers the data request
    with status ['0'] and no [STATISTICAL_DATA]; the metadata request gets
    no response. *)
Definition hollowHttp : Http :=
  {| get := fun path _ =>
       if path =? "/getStatsList" then
         inr (VObj [ ("GET_STATS_LIST", VObj
                        [ ("RESULT", VObj [ ("STATUS", VStr "0") ]);
                          ("DATALIST_INF", VObj [ ("TABLE_INF", populationTable) ]) ]) ])
       else if path =? "/getStatsData" then
         inr (VObj [ ("GET_STATS_DATA", VObj [ ("RESULT", VObj [ ("STATUS", VStr "0") ]) ]) ])
       else
         inl {| errResponse := None; errRequest := true;
                errMessage := "timeout of 30000ms exceeded" |} |}.

(** A service that finds nothing. *)
Definition emptyApi : EStat := {|
  getStatsList := fun _ => Ret [];
  getMetaInfo := fun _ => Throw (noResponse "getMetaInfo");
  getStatsData := fun _ => Throw (noResponse "getStatsData")
|}.

(** A service whose search returns a table that is [null]. *)
Definition nullTableApi : EStat := {|
  getStatsList := fun _ => Ret [ populationTable; VNull ];
  getMetaInfo := fun _ => Throw (noResponse "getMetaInfo");
  getStatsData := fun _ => Ret scenarioPayload
|}.

(** The metadata document an iteration holds after its metadata step:
    what [getMetaInfo] returned if it was asked and answered, [null]
    otherwise. *)
Definition metadataFor {api : EStat} (input : options) (id : value) : value :=
  if includeMetadata input then
    match getMetaInfo id with
    | Ret metadata => metadata
    | Throw _ => VNull
    end
  else VNull.

(** ** Reading the records, continued *)

(** The value row a record was made from, as the record keeps it. *)
Definition originalOf (r : value) : value :=
  optProp (optProp r "metadata") "originalAttributes".

(** A payload whose [TITLE] is an object, the number and the text of the
    title, not a string. *)
Definition numberedTitlePayload : value :=
  VObj
    [ ("TABLE_INF", VObj
         [ ("TITLE", VObj [ ("@no", VStr "001"); ("$", VStr "人口推計") ]) ]);
      ("DATA_INF", VObj
         [ ("VALUE", VArr
              [ VObj [ ("@unit", VStr "人"); ("$", VStr "125836021") ];
                VObj [ ("@unit", VStr "人"); ("$", VStr "61019059") ] ]) ]) ].

(** A client that refuses with status 403 the requests for Japanese JSON
    and answers [null] to any other. *)
Definition pickyHttp : Http :=
  {| get := fun path params =>
       match lookup "lang" params, lookup "dataFormat" params with
       | Some (VStr "J"), Some (VStr "json") => get (Http := forbiddenHttp) path params
       | _, _ => inr VNull
       end |}.
(** * Properties *)

(** ** The classifier *)

Section ClassifierFacts.
Context {rt : Runtime}.

Lemma firstMatch_in_dataTypes (name : string) :
  In (firstMatch keywordSets name) dataTypes.
Proof.
  unfold keywordSets, dataTypes. cbn [firstMatch].
  repeat match goal with
         | |- context [mentions ?n ?k] => destruct (mentions n k)
         end; cbn; tauto.
Qed.

Lemma dataTypeOf_classify (title : string) : dataTypeOf title = classify title.
Proof.
  unfold dataTypeOf, classify, keywordSets. cbn [firstMatch mentions existsb].
  repeat match goal with
         | |- context [includes ?n ?k] =>
             destruct (includes n k); cbn [orb]; try reflexivity
         end.
Qed.

(** C4.  [determineDataType] returns, for every string, one of the eight
    fixed categories: the category of the first keyword set (in the order
    population, economic, labor, industry, education, health, environment)
    one of whose keywords occurs in the lower-cased title, and [general]
    when none does.  In particular a title that mentions a population term
    is [population] whatever else it mentions. *)
Theorem determineDataType_first_match (title : string) :
  determineDataType (VStr title) = Ret (classify title)
  /\ In (classify title) dataTypes
  /\ length dataTypes = 8%nat
  /\ NoDup dataTypes
  /\ classify title =
       (if mentions (toLowerCase title) ["人口"; "population"] then "population"
        else firstMatch (tl keywordSets) (toLowerCase title)).
Proof.
  split; [| split; [| split; [| split]]].
  - cbn. now rewrite dataTypeOf_classify.
  - apply firstMatch_in_dataTypes.
  - reflexivity.
  - unfold dataTypes. repeat constructor; cbn; intuition discriminate.
  - reflexivity.
Qed.

End ClassifierFacts.

(** A title with a population term and a labor term, in mixed case. *)
Example determineDataType_population_and_labor :
  determineDataType (VStr "人口・労働力 Labor Force") = Ret "population"
  /\ determineDataType (VStr "Labor Force") = Ret "labor"
  /\ determineDataType (VStr "家計調査") = Ret "general".
Proof. repeat split; reflexivity. Qed.

(** ** Outcomes and loops *)

Lemma obind_Ret {A B} (o : outcome A) (f : A -> outcome B) (b : B) :
  obind o f = Ret b -> exists a, o = Ret a /\ f a = Ret b.
Proof. destruct o; cbn; [eauto | discriminate]. Qed.

Lemma getProp_value (v : value) (k : string) :
  nullish v = false -> getProp v k = Ret (optProp v k).
Proof. destruct v; cbn; intros H; try discriminate H; reflexivity. Qed.

Lemma getProp_nullish (v : value) (k : string) :
  nullish v = true -> getProp v k = Throw (TypeError_read v k).
Proof. destruct v; cbn; intros H; try discriminate H; reflexivity. Qed.

Lemma forEach_cons_Ret {S X} (f : X -> M S unit) (x : X) (xs : list X) (s s1 : S) :
  f x s = (Ret tt, s1) -> forEach (x :: xs) f s = forEach xs f s1.
Proof. intros H. cbn. unfold bind. now rewrite H. Qed.

Lemma forEach_cons_Throw {S X} (f : X -> M S unit) (x : X) (xs : list X) (s s1 : S) e :
  f x s = (Throw e, s1) -> forEach (x :: xs) f s = (Throw e, s1).
Proof. intros H. cbn. unfold bind. now rewrite H. Qed.

Ltac obind_inv H :=
  let a := fresh "a" in
  let Ha := fresh "H" a in
  apply obind_Ret in H; destruct H as (a & Ha & H).

(** ** Own properties *)

Lemma lookup_In {A} (k : string) (o : list (string * A)) (v : A) :
  lookup k o = Some v -> In (k, v) o.
Proof.
  induction o as [| [k' v'] o IH]; cbn; [discriminate |].
  destruct (k =? k') eqn:E.
  - intros [= ->]. apply String.eqb_eq in E. subst. now left.
  - intros H. right. auto.
Qed.

Lemma lookup_fst {A} (k : string) (o : list (string * A)) :
  existsb (String.eqb k) (map fst o) = false -> lookup k o = None.
Proof.
  induction o as [| [k' v'] o IH]; cbn; [reflexivity |].
  destruct (k =? k'); cbn; [discriminate | exact IH].
Qed.

Lemma lookup_fst_Some {A} (k : string) (o : list (string * A)) :
  existsb (String.eqb k) (map fst o) = true -> exists v, lookup k o = Some v.
Proof.
  induction o as [| [k' v'] o IH]; cbn; [discriminate |].
  destruct (k =? k'); cbn; eauto.
Qed.

Lemma lookup_set {A} (k k' : string) (v : A) (o : list (string * A)) :
  lookup k (set k' v o) = if k =? k' then Some v else lookup k o.
Proof.
  induction o as [| [k0 v0] o IH]; cbn.
  - reflexivity.
  - destruct (k' =? k0) eqn:E; cbn.
    + apply String.eqb_eq in E. subst k0. destruct (k =? k'); reflexivity.
    + rewrite IH. destruct (k =? k0) eqn:E0; [| reflexivity].
      apply String.eqb_eq in E0. subst k0.
      destruct (k =? k') eqn:E1; [| reflexivity].
      apply String.eqb_eq in E1. subst k'. rewrite String.eqb_refl in E. discriminate.
Qed.

(** ** The normaliser *)

Section NormalizerFacts.
Context {rt : Runtime}.

Lemma determineDataType_Ret (statName : value) (d : string) :
  determineDataType statName = Ret d -> In d dataTypes.
Proof.
  destruct statName; cbn; try discriminate.
  intros [= <-]. rewrite dataTypeOf_classify. apply firstMatch_in_dataTypes.
Qed.

Lemma rowData_dataType statName classObj row val unit categories dataType :
  rowData statName classObj row = Ret (val, unit, categories, dataType) ->
  In dataType dataTypes.
Proof.
  unfold rowData. intros H.
  do 5 obind_inv H. injection H as <- <- <- <-.
  eauto using determineDataType_Ret.
Qed.

Lemma valueRow_Throw tableInf statName surveyDate classObj id row e (s : nstate) :
  rowData statName classObj row = Throw e ->
  valueRow tableInf statName surveyDate classObj id row s = (Throw e, s).
Proof. intros H. unfold valueRow, bind, lift. now rewrite H. Qed.

Lemma valueRow_Ret tableInf statName surveyDate classObj id row
    val unit categories dataType (s : nstate) :
  rowData statName classObj row = Ret (val, unit, categories, dataType) ->
  exists lastUpdated extractedAt t,
    valueRow tableInf statName surveyDate classObj id row s
    = (Ret tt,
       {| clock := t;
          normalizedData :=
            normalizedData s
              ++ [dataPoint statName surveyDate categories val unit id dataType
                    lastUpdated row extractedAt] |})
    /\ (truthy (optProp tableInf "UPDATED_DATE") = true ->
        lastUpdated = optProp tableInf "UPDATED_DATE").
Proof.
  intros H. unfold valueRow, bind, lift, lastUpdatedOf. rewrite H.
  destruct (truthy (optProp tableInf "UPDATED_DATE")) eqn:U; cbn.
  - do 3 eexists. split; [reflexivity | trivial].
  - do 3 eexists. split; [reflexivity | discriminate].
Qed.

Lemma forEach_valueRow tableInf statName surveyDate classObj id rows :
  forall s : nstate,
  exists recs o s',
    forEach rows (valueRow tableInf statName surveyDate classObj id) s = (o, s')
    /\ normalizedData s' = normalizedData s ++ recs
    /\ Forall2
         (fun row r =>
            exists val unit categories dataType lastUpdated extractedAt,
              rowData statName classObj row = Ret (val, unit, categories, dataType)
              /\ r = dataPoint statName surveyDate categories val unit id dataType
                       lastUpdated row extractedAt
              /\ (truthy (optProp tableInf "UPDATED_DATE") = true ->
                  lastUpdated = optProp tableInf "UPDATED_DATE"))
         (firstn (length recs) rows) recs
    /\ match o with
       | Ret _ => length recs = length rows
       | Throw _ => (length recs < length rows)%nat
       end.
Proof.
  induction rows as [| row rows IH]; intros s.
  - exists [], (Ret tt), s. cbn. rewrite app_nil_r. repeat split; constructor.
  - cbn [forEach]. unfold bind at 1.
    destruct (rowData statName classObj row) as [[[[val unit] categories] dataType] | e] eqn:R.
    + destruct (valueRow_Ret tableInf statName surveyDate classObj id row
                  val unit categories dataType s R) as (lu & ea & t & -> & Hlu).
      destruct (IH {| clock := t;
                      normalizedData :=
                        normalizedData s
                          ++ [dataPoint statName surveyDate categories val unit id
                                dataType lu row ea] |})
        as (recs & o & s' & -> & Hnd & Hrecs & Hlen).
      exists (dataPoint statName surveyDate categories val unit id dataType lu row ea :: recs),
        o, s'.
      split; [reflexivity |]. split.
      * rewrite Hnd. cbn. now rewrite <- app_assoc.
      * split.
        -- cbn. constructor; [| exact Hrecs].
           exists val, unit, categories, dataType, lu, ea. auto.
        -- destruct o; cbn; lia.
    + rewrite (valueRow_Throw _ _ _ _ _ _ _ _ R).
      exists [], (Throw e), s. cbn. rewrite app_nil_r.
      repeat split; [constructor | lia].
Qed.

Lemma catchBlock_run rawData id error (s : nstate) :
  nullish rawData = false ->
  catchBlock rawData id error s
  = (Ret tt,
     {| clock := S (S (clock s));
        normalizedData :=
          normalizedData s
            ++ [errorPoint (titleOf rawData)
                  (or_ (optProp (optProp rawData "TABLE_INF") "SURVEY_DATE")
                     (VStr "Unknown Date"))
                  id (toISOString (clock s)) error rawData
                  (toISOString (S (clock s)))] |}).
Proof.
  intros H. unfold catchBlock, bind, lift. rewrite (getProp_value _ _ H). reflexivity.
Qed.

Lemma buildClassObj_classObjOf rawData classObj :
  buildClassObj (optProp rawData "CLASS_INF") = Ret classObj ->
  classObjOf rawData = classObj.
Proof. unfold classObjOf. now intros ->. Qed.

(** What the [try] block leaves in [normalizedData]: the records of the
    first rows, all of them when it does not throw. *)
Lemma tryBlock_run rawData id (s : nstate) :
  nullish rawData = false ->
  exists recs o s',
    tryBlock rawData id s = (o, s')
    /\ normalizedData s' = normalizedData s ++ recs
    /\ Forall2 (recordOf rawData id) (firstn (length recs) (valueRows rawData)) recs
    /\ match o with
       | Ret _ => length recs = length (valueRows rawData)
       | Throw _ => recs = [] \/ (length recs < length (valueRows rawData))%nat
       end.
Proof.
  intros H. unfold tryBlock, bind, lift. rewrite !(getProp_value _ _ H).
  destruct (buildClassObj (optProp rawData "CLASS_INF")) as [classObj | e] eqn:B.
  - apply buildClassObj_classObjOf in B. unfold valueRows.
    destruct (truthy (optProp (optProp rawData "DATA_INF") "VALUE")).
    + destruct (forEach_valueRow (optProp rawData "TABLE_INF") (titleOf rawData)
                  (or_ (optProp (optProp rawData "TABLE_INF") "SURVEY_DATE")
                     (VStr "Unknown Date"))
                  classObj id
                  (asArray (optProp (optProp rawData "DATA_INF") "VALUE")) s)
        as (recs & o & s' & E & Hnd & Hrecs & Hlen).
      exists recs, o, s'. unfold titleOf in E. rewrite E.
      split; [reflexivity |]. split; [exact Hnd |]. split.
      * unfold recordOf. rewrite B. exact Hrecs.
      * destruct o; [exact Hlen | now right].
    + exists [], (Ret tt), s. cbn. rewrite app_nil_r. repeat split; constructor.
  - exists [], (Throw e), s. cbn. rewrite app_nil_r.
    repeat split; [constructor | now left].
Qed.

Lemma recordOf_isDataPoint rawData id row r :
  recordOf rawData id row r -> isDataPoint r.
Proof.
  intros (val & unit & categories & dataType & lu & ea & R & -> & _).
  exists dataType. split; [reflexivity | eauto using rowData_dataType].
Qed.

Lemma placeholderOf_isPlaceholder rawData id e r :
  placeholderOf rawData id e r ->
  isPlaceholder r /\ optProp (optProp r "metadata") "error" = VStr (message e).
Proof.
  intros (lu & ea & ->). unfold isPlaceholder. cbn.
  repeat split. now exists (message e).
Qed.

Lemma isPlaceholder_not_isDataPoint r : isPlaceholder r -> ~ isDataPoint r.
Proof.
  intros (_ & U & _) (d & D & I). rewrite U in D. injection D as <-.
  cbn in I. intuition discriminate.
Qed.

(** The two ways a call on a payload other than [null] and [undefined]
    ends: the [try] block completes and the result is the records of all the
    rows; or it throws and the result is the records pushed so far followed
    by one placeholder. *)
Lemma normalizeStatisticalData_shape rawData metadata id now :
  nullish rawData = false ->
  exists recs,
    Forall2 (recordOf rawData id) (firstn (length recs) (valueRows rawData)) recs
    /\ ((exists s, tryBlock rawData id {| clock := now; normalizedData := [] |} = (Ret tt, s))
         /\ fst (normalizeStatisticalData rawData metadata id now) = Ret recs
         /\ length recs = length (valueRows rawData)
        \/
        (exists e s ph,
            tryBlock rawData id {| clock := now; normalizedData := [] |} = (Throw e, s)
            /\ fst (normalizeStatisticalData rawData metadata id now) = Ret (recs ++ [ph])
            /\ placeholderOf rawData id e ph)
         /\ (recs = [] \/ (length recs < length (valueRows rawData))%nat)).
Proof.
  intros H.
  destruct (tryBlock_run rawData id {| clock := now; normalizedData := [] |} H)
    as (recs & o & s' & E & Hnd & Hrecs & Hlen).
  exists recs. split; [exact Hrecs |].
  unfold normalizeStatisticalData, tryCatch. rewrite E. cbn in Hnd.
  destruct o as [[] | e].
  - left. split; [now exists s' |]. cbn. rewrite Hnd. auto.
  - right. split; [| exact Hlen]. rewrite (catchBlock_run _ _ _ _ H). cbn.
    rewrite Hnd. exists e, s'. eexists. split; [reflexivity |].
    split; [reflexivity |]. unfold placeholderOf. eauto.
Qed.

Lemma normalizeStatisticalData_Ret rawData metadata id now :
  nullish rawData = false ->
  exists l, fst (normalizeStatisticalData rawData metadata id now) = Ret l.
Proof.
  intros N.
  destruct (normalizeStatisticalData_shape rawData metadata id now N)
    as (recs & _ & [(_ & E & _) | ((e & s & ph & _ & E & _) & _)]); eauto.
Qed.

End NormalizerFacts.

(** ** Well-formed payloads *)

Section WellFormedFacts.
Context {rt : Runtime}.

Lemma toString_scalar (v : value) :
  scalar v = true -> exists s, toString v = Ret s.
Proof.
  destruct v as [| | [] | | | |]; cbn; try discriminate; eauto.
Qed.

Lemma plainString_VStr (v : value) :
  plainString v = true -> exists s, v = VStr s.
Proof. destruct v; cbn; try discriminate; eauto. Qed.

Lemma codeString_VStr (v : value) :
  codeString v = true -> exists c, v = VStr c /\ truthy v = true.
Proof.
  destruct v; cbn; try discriminate. intros H.
  apply andb_true_iff in H as [H _]. eauto.
Qed.

Lemma reduce_classItem_Ret (items : list value) :
  forallb wfClassItem items = true ->
  forall acc, exists acc', reduce classItem items acc = Ret acc'.
Proof.
  induction items as [| item items IH]; cbn; intros H acc; [eauto |].
  apply andb_true_iff in H as [Hi Hs].
  destruct item; try discriminate Hi. cbn in Hi.
  apply plainString_VStr in Hi as [c Hc].
  unfold classItem. cbn. rewrite Hc. cbn. apply IH, Hs.
Qed.

Lemma reduce_classGroup_Ret (groups : list value) :
  forallb wfClassGroup groups = true ->
  forall classObj, exists classObj', reduce classGroup groups classObj = Ret classObj'.
Proof.
  induction groups as [| cls groups IH]; cbn; intros H classObj; [eauto |].
  apply andb_true_iff in H as [Hg Hs].
  destruct cls; try discriminate Hg. cbn in Hg.
  unfold classGroup. cbn.
  destruct (truthy (field props "CLASS")).
  - apply andb_true_iff in Hg as [Hid Hitems].
    apply plainString_VStr in Hid as [i Hi].
    destruct (reduce_classItem_Ret _ Hitems []) as [labels ->].
    rewrite Hi. cbn. apply IH, Hs.
  - apply IH, Hs.
Qed.

Lemma resolve_labelOf (classObj : index) (classId code : string) :
  resolve classObj classId (VStr code) = Ret (labelOf classObj classId code).
Proof.
  unfold resolve, labelOf, indexLabel, field, or_.
  destruct (lookup classId classObj) as [labels |]; cbn; [| reflexivity].
  destruct (lookup code labels) as [l |]; [| reflexivity].
  reflexivity.
Qed.

Lemma label_truthy (classObj : index) (classId : string) (code : value) :
  codeString code = true -> truthy (label classObj classId code) = true.
Proof.
  intros H. destruct (codeString_VStr _ H) as (c & -> & T).
  unfold label, labelOf.
  destruct (indexLabel classObj classId c) as [l |]; [| exact T].
  destruct (truthy l) eqn:L; [exact L | exact T].
Qed.

Lemma classKey_at (key : string) :
  classKey key = true -> key = String "@" (substring1 key).
Proof.
  unfold classKey, startsWith. intros H. apply andb_true_iff in H as [H _].
  destruct key as [| a key]; [discriminate |].
  unfold prefix in H.
  destruct (ascii_dec "@"%char a) as [<- |]; [reflexivity | discriminate].
Qed.

Lemma wfRow_code (o : obj) (key : string) (v : value) :
  wfRow (VObj o) = true -> classKey key = true -> lookup key o = Some v ->
  codeString v = true.
Proof.
  cbn. intros H K L. apply andb_true_iff in H as [_ H].
  rewrite forallb_forall in H. specialize (H _ (lookup_In _ _ _ L)).
  cbn in H. rewrite K in H. now apply andb_true_iff in H as [_ H].
Qed.

(** The [categories] of a well-formed row: one entry for every
    classification attribute of the row, holding its resolved label. *)
Lemma categories_lookup (classObj : index) (o : obj) :
  wfRow (VObj o) = true ->
  forall keys acc,
    (forall k, In k keys -> existsb (String.eqb k) (map fst o) = true) ->
    exists categories,
      reduce (category classObj (VObj o)) keys acc = Ret categories
      /\ forall id,
          lookup id categories =
          if existsb (String.eqb (String "@" id)) keys && classKey (String "@" id)
          then option_map (label classObj id) (lookup (String "@" id) o)
          else lookup id acc.
Proof.
  intros W. induction keys as [| key keys IH]; intros acc Hk.
  - exists acc. split; [reflexivity | intros id; reflexivity].
  - cbn [reduce]. unfold category at 1. fold (classKey key).
    assert (Hk' : forall k, In k keys -> existsb (String.eqb k) (map fst o) = true)
      by (intros k I; apply Hk; now right).
    destruct (classKey key) eqn:K.
    + destruct (lookup_fst_Some key o (Hk key (or_introl eq_refl))) as [v L].
      destruct (codeString_VStr _ (wfRow_code o key v W K L)) as (c & -> & _).
      cbn [optProp]. unfold field. rewrite L. rewrite resolve_labelOf. cbn [obind].
      destruct (IH (set (substring1 key) (labelOf classObj (substring1 key) c) acc) Hk')
        as (categories & -> & Hc).
      exists categories. split; [reflexivity |]. intros id. rewrite Hc.
      cbn [existsb]. rewrite lookup_set.
      pose proof (classKey_at key K) as Hkey.
      destruct (existsb (String.eqb (String "@" id)) keys && classKey (String "@" id)) eqn:E.
      * apply andb_true_iff in E as [E1 E2]. rewrite E1, E2, orb_true_r. reflexivity.
      * destruct (id =? substring1 key) eqn:I.
        -- apply String.eqb_eq in I. subst id. rewrite <- Hkey.
           rewrite String.eqb_refl, K, L. reflexivity.
        -- assert ((String "@" id =? key) = false) as ->.
           { apply String.eqb_neq. intros F. rewrite Hkey in F. injection F as F.
             subst id. rewrite String.eqb_refl in I. discriminate. }
           cbn [orb]. rewrite E. reflexivity.
    + cbn [obind]. destruct (IH acc Hk') as (categories & -> & Hc).
      exists categories. split; [reflexivity |]. intros id. rewrite Hc.
      cbn [existsb].
      destruct (String "@" id =? key) eqn:I; [| reflexivity].
      apply String.eqb_eq in I. subst key. rewrite K, !andb_false_r. reflexivity.
Qed.

(** A well-formed row under a string title normalises, and its categories
    are the labels of its classification attributes. *)
Lemma rowData_wellFormed (statName : value) (classObj : index) (o : obj) :
  wfRow (VObj o) = true -> isString statName = true ->
  exists val unit categories dataType,
    rowData statName classObj (VObj o) = Ret (val, unit, categories, dataType)
    /\ forall id,
        classKey (String "@" id) = true ->
        lookup id categories = option_map (label classObj id) (lookup (String "@" id) o).
Proof.
  intros W T.
  assert (S : scalar (field o "$") = true)
    by (cbn in W; now apply andb_true_iff in W as [W _]).
  destruct (toString_scalar _ S) as [s Hs].
  destruct (categories_lookup classObj o W (map fst o) [])
    as (categories & Hc & Hl).
  { intros k I. apply existsb_exists. exists k. split; [exact I | apply String.eqb_refl]. }
  destruct statName as [| | | | title | |]; try discriminate T.
  unfold rowData, parseValue. cbn [getProp obind ownKeys determineDataType].
  rewrite Hs. cbn [obind]. rewrite Hc. cbn [obind].
  do 4 eexists. split; [reflexivity |].
  intros id K. rewrite Hl, K, andb_true_r.
  destruct (existsb (String.eqb (String "@" id)) (map fst o)) eqn:E; [reflexivity |].
  now rewrite (lookup_fst _ _ E).
Qed.

Lemma forEach_valueRow_Ret tableInf statName surveyDate classObj id rows :
  Forall (fun row => exists d, rowData statName classObj row = Ret d) rows ->
  forall s : nstate,
  exists s', forEach rows (valueRow tableInf statName surveyDate classObj id) s = (Ret tt, s').
Proof.
  induction 1 as [| row rows [[[[val unit] categories] dataType] R] _ IH]; intros s.
  - now exists s.
  - cbn [forEach]. unfold bind at 1.
    destruct (valueRow_Ret tableInf statName surveyDate classObj id row
                val unit categories dataType s R) as (lu & ea & t & -> & _).
    apply IH.
Qed.

Lemma wellFormed_nullish (rawData : value) :
  wellFormed rawData = true -> nullish rawData = false.
Proof. destruct rawData; cbn; congruence. Qed.

(** The [try] block completes on a well-formed payload. *)
Lemma wellFormed_tryBlock (rawData id : value) (s : nstate) :
  wellFormed rawData = true ->
  exists s', tryBlock rawData id s = (Ret tt, s').
Proof.
  intros W. pose proof (wellFormed_nullish _ W) as N.
  destruct rawData; try discriminate W.
  unfold wellFormed in W.
  apply andb_true_iff in W as [W Wrows]. apply andb_true_iff in W as [Wtitle Wclass].
  unfold tryBlock, bind, lift. rewrite !(getProp_value _ _ N).
  assert (exists classObj, buildClassObj (optProp (VObj props) "CLASS_INF") = Ret classObj)
    as [classObj ->].
  { unfold buildClassObj. unfold wfDocument, documentGroups in Wclass.
    destruct (truthy (optProp (optProp (VObj props) "CLASS_INF") "CLASS_OBJ"));
      [apply reduce_classGroup_Ret, Wclass | eauto]. }
  unfold valueRows in Wrows.
  destruct (truthy (optProp (optProp (VObj props) "DATA_INF") "VALUE"));
    [| now exists s].
  apply forEach_valueRow_Ret. rewrite forallb_forall in Wrows.
  apply Forall_forall. intros row I. specialize (Wrows row I).
  destruct row; try discriminate Wrows.
  destruct (rowData_wellFormed _ classObj _ Wrows Wtitle) as (v & u & c & d & R & _).
  exists (v, u, c, d). exact R.
Qed.

End WellFormedFacts.

(** ** Result length (C1) *)

Lemma Forall2_right {A B} (R : A -> B -> Prop) (P : B -> Prop) (l1 : list A) (l2 : list B) :
  (forall a b, R a b -> P b) -> Forall2 R l1 l2 -> Forall P l2.
Proof. intros H. induction 1; constructor; eauto. Qed.

Section Length.
Context {rt : Runtime}.

(** C1, as amended.  On every payload other than [null] and [undefined] the
    call returns a list.  A well-formed payload with N value rows gives
    exactly N records, none of them a placeholder (the empty list when
    N = 0).  When the [try] block throws, the list ends with one placeholder
    ([value] 0, [dataType] [unknown], placeholder text fields,
    [metadata.error] the message of the exception) and no other element is
    one.  The list is empty only when there is no value row, and it is never
    longer than [max 1 N]. *)
Theorem normalizeStatisticalData_length (rawData metadata id : value) (now : nat) :
  nullish rawData = false ->
  exists l,
    fst (normalizeStatisticalData rawData metadata id now) = Ret l
    /\ (wellFormed rawData = true ->
        length l = length (valueRows rawData) /\ Forall isDataPoint l)
    /\ (forall e s,
          tryBlock rawData id {| clock := now; normalizedData := [] |} = (Throw e, s) ->
          exists pre ph,
            l = pre ++ [ph] /\ Forall isDataPoint pre /\ isPlaceholder ph
            /\ optProp (optProp ph "metadata") "error" = VStr (message e))
    /\ (l = [] -> valueRows rawData = [])
    /\ (length l <= Nat.max 1 (length (valueRows rawData)))%nat.
Proof.
  intros N.
  destruct (normalizeStatisticalData_shape rawData metadata id now N)
    as (recs & Hrecs & [([s Hs] & E & Hlen) | ((e & s & ph & Hs & E & Hph) & Hlen)]).
  - exists recs. split; [exact E |]. repeat split.
    + exact Hlen.
    + eapply Forall2_right; [| exact Hrecs]. intros a b. apply recordOf_isDataPoint.
    + intros e' s' F. rewrite Hs in F. discriminate F.
    + intros ->. cbn in Hlen. symmetry in Hlen. now apply length_zero_iff_nil in Hlen.
    + lia.
  - exists (recs ++ [ph]). split; [exact E |].
    destruct (placeholderOf_isPlaceholder _ _ _ _ Hph) as [P M].
    assert (D : Forall isDataPoint recs)
      by (eapply Forall2_right; [| exact Hrecs]; intros a b; apply recordOf_isDataPoint).
    repeat split.
    + destruct (wellFormed_tryBlock rawData id {| clock := now; normalizedData := [] |} H)
        as [s' F]. rewrite Hs in F. discriminate F.
    + destruct (wellFormed_tryBlock rawData id {| clock := now; normalizedData := [] |} H)
        as [s' F]. rewrite Hs in F. discriminate F.
    + intros e' s' F. rewrite Hs in F. injection F as <- <-.
      exists recs, ph. auto.
    + intros F. now apply app_eq_nil in F as [_ F].
    + rewrite length_app. change (length [ph]) with 1%nat.
      destruct Hlen as [-> | Hlen]; [change (length (@nil value)) with 0%nat |]; lia.
Qed.

End Length.

(** The scenario of section 8 through the theorem: one row, one record. *)
Lemma normalizeStatisticalData_length_witness :
  nullish scenarioPayload = false
  /\ exists l,
       fst (normalizeStatisticalData scenarioPayload VNull (VStr "0003448738") 0) = Ret l
       /\ length l = 1%nat.
Proof.
  split; [reflexivity |].
  destruct (normalizeStatisticalData_length scenarioPayload VNull (VStr "0003448738") 0
              eq_refl) as (l & E & W & _).
  exists l. split; [exact E |]. exact (proj1 (W eq_refl)).
Defined.

(** C1 as stated fails three ways: a payload without value rows gives the
    empty list; [undefined] makes the [catch] block itself throw; and a
    failure at the second of three rows gives two records. *)
Lemma normalizeStatisticalData_length_counterexample :
  fst (normalizeStatisticalData emptyPayload VNull (VStr "0003448738") 0) = Ret []
  /\ fst (normalizeStatisticalData VUndefined VNull (VStr "0003448738") 0)
     = Throw (TypeError_read VUndefined "TABLE_INF")
  /\ length (valueRows brokenPayload) = 3%nat
  /\ returned (fst (normalizeStatisticalData brokenPayload VNull (VStr "0003448738") 0))
     = Some 2%nat.
Proof. repeat split. Qed.

(** ** Field precedence (C3) *)

Lemma Forall2_Forall_left {A B} (R : A -> B -> Prop) (P : A -> Prop)
    (l1 : list A) (l2 : list B) :
  Forall P l1 -> Forall2 R l1 l2 -> Forall2 (fun a b => P a /\ R a b) l1 l2.
Proof.
  intros F H. induction H; constructor; inversion F; subst; auto.
Qed.

Section Precedence.
Context {rt : Runtime}.

Lemma dataPoint_region sn sd c v u id d lu row ea :
  optProp (dataPoint sn sd c v u id d lu row ea) "region"
  = or_ (field c "area") (or_ (field c "region") (VStr "Japan")).
Proof. reflexivity. Qed.

Lemma dataPoint_category1 sn sd c v u id d lu row ea :
  optProp (dataPoint sn sd c v u id d lu row ea) "category1"
  = or_ (field c "cat01") (or_ (field c "tab") (VStr "General")).
Proof. reflexivity. Qed.

Lemma dataPoint_category2 sn sd c v u id d lu row ea :
  optProp (dataPoint sn sd c v u id d lu row ea) "category2"
  = or_ (field c "cat02") (or_ (field c "cat03") (VStr "")).
Proof. reflexivity. Qed.

(** The chain [categories.a || categories.b || fallback] picks the label of
    the first of the two attributes the row carries. *)
Lemma or_firstPresent (classObj : index) (o categories : obj) (a b : string)
    (fallback : value) :
  wfRow (VObj o) = true ->
  classKey (String "@" a) = true -> classKey (String "@" b) = true ->
  (forall id, classKey (String "@" id) = true ->
              lookup id categories = option_map (label classObj id) (lookup (String "@" id) o)) ->
  or_ (field categories a) (or_ (field categories b) fallback)
  = firstPresent classObj (VObj o) [a; b] fallback.
Proof.
  intros W Ka Kb H. unfold field. rewrite (H a Ka), (H b Kb). cbn [firstPresent].
  change ("@" ++ a)%string with (String "@" a).
  change ("@" ++ b)%string with (String "@" b).
  destruct (lookup (String "@" a) o) as [code |] eqn:La; cbn [option_map].
  - unfold or_ at 1. now rewrite (label_truthy _ _ _ (wfRow_code _ _ _ W Ka La)).
  - unfold or_ at 1. cbn [truthy].
    destruct (lookup (String "@" b) o) as [code |] eqn:Lb; cbn [option_map].
    + unfold or_. now rewrite (label_truthy _ _ _ (wfRow_code _ _ _ W Kb Lb)).
    + reflexivity.
Qed.

Lemma recordOf_precedence (rawData id row r : value) :
  isString (titleOf rawData) = true -> wfRow row = true ->
  recordOf rawData id row r ->
  followsPrecedence (classObjOf rawData) row r.
Proof.
  unfold followsPrecedence.
  intros T W (val & unit & categories & dataType & lu & ea & R & -> & _).
  destruct row as [| | | | | | o]; try discriminate W.
  destruct (rowData_wellFormed _ (classObjOf rawData) o W T)
    as (val' & unit' & categories' & dataType' & R' & H).
  rewrite R in R'. injection R' as <- <- <- <-.
  rewrite dataPoint_region, dataPoint_category1, dataPoint_category2.
  repeat split; apply or_firstPresent; auto.
Qed.

Lemma wellFormed_followsPrecedence (rawData metadata id : value) (now : nat) :
  wellFormed rawData = true ->
  exists l,
    fst (normalizeStatisticalData rawData metadata id now) = Ret l
    /\ Forall2 (followsPrecedence (classObjOf rawData)) (valueRows rawData) l.
Proof.
  intros W. pose proof (wellFormed_nullish _ W) as N.
  destruct (normalizeStatisticalData_shape rawData metadata id now N)
    as (recs & Hrecs & [(_ & E & Hlen) | ((e & s & ph & Hs & _) & _)]).
  - exists recs. split; [exact E |].
    rewrite Hlen, firstn_all in Hrecs.
    destruct rawData; try discriminate W. unfold wellFormed in W.
    apply andb_true_iff in W as [W Wrows]. apply andb_true_iff in W as [Wtitle _].
    rewrite forallb_forall in Wrows. apply Forall_forall in Wrows.
    eapply Forall2_impl; [| exact (Forall2_Forall_left _ _ _ _ Wrows Hrecs)].
    intros row r [Wr Hr]. exact (recordOf_precedence _ _ _ _ Wtitle Wr Hr).
  - destruct (wellFormed_tryBlock rawData id {| clock := now; normalizedData := [] |} W)
      as [s' F]. rewrite Hs in F. discriminate F.
Qed.

(** C3.  Every record of a well-formed payload follows the precedence
    rules: [region] is the resolved label of the row's [area] attribute, of
    its [region] attribute when it has no [area], and [Japan] when it has
    neither; [category1] likewise over [cat01], [tab] and [General];
    [category2] over [cat02], [cat03] and the empty string. *)
Theorem normalizeStatisticalData_precedence (rawData metadata id : value) (now : nat) :
  wellFormed rawData = true ->
  exists l,
    fst (normalizeStatisticalData rawData metadata id now) = Ret l
    /\ Forall2 (followsPrecedence (classObjOf rawData)) (valueRows rawData) l.
Proof. apply wellFormed_followsPrecedence. Qed.

End Precedence.

(** The scenario of section 8 through the theorem. *)
Lemma normalizeStatisticalData_precedence_witness :
  wellFormed scenarioPayload = true
  /\ exists l,
       fst (normalizeStatisticalData scenarioPayload VNull (VStr "0003448738") 0) = Ret l
       /\ Forall2 (followsPrecedence (classObjOf scenarioPayload))
            (valueRows scenarioPayload) l.
Proof.
  split; [reflexivity |].
  exact (normalizeStatisticalData_precedence scenarioPayload VNull
           (VStr "0003448738") 0 eq_refl).
Defined.

(** The scenario of section 8, evaluated: the [area] code resolves to its
    label, the observation parses, and the other two categories take their
    fallbacks. *)
Example scenario_record :
  exists r,
    fst (normalizeStatisticalData scenarioPayload VNull (VStr "0003448738") 0) = Ret [r]
    /\ optProp r "region" = VStr "全国"
    /\ optProp r "value" = ofZ 125836021
    /\ optProp r "unit" = VStr "人"
    /\ optProp r "category1" = VStr "General"
    /\ optProp r "category2" = VStr "".
Proof. eexists. repeat split. Qed.

(** ** Resolution (C2) *)

Lemma find_app {X} (p : X -> bool) (l1 l2 : list X) :
  find p (l1 ++ l2) = match find p l1 with Some x => Some x | None => find p l2 end.
Proof.
  induction l1 as [| x l1 IH]; cbn; [reflexivity |].
  destruct (p x); [reflexivity | exact IH].
Qed.

Section Resolution.
Context {rt : Runtime}.

(** The entries of a group, reduced: each code maps to the name of its last
    entry. *)
Lemma reduce_classItem_lookup (items : list value) :
  forallb wfClassItem items = true ->
  forall acc, exists acc',
    reduce classItem items acc = Ret acc'
    /\ forall code,
        lookup code acc'
        = match find (fun item => isText code (optProp item "@code")) (rev items) with
          | Some item => Some (optProp item "@name")
          | None => lookup code acc
          end.
Proof.
  induction items as [| item items IH]; cbn [forallb reduce]; intros H acc.
  - exists acc. split; [reflexivity | intros code; reflexivity].
  - apply andb_true_iff in H as [Hi Hs].
    destruct item as [| | | | | | o]; try discriminate Hi. cbn in Hi.
    destruct (plainString_VStr _ Hi) as [c Hc].
    unfold classItem at 1. cbn [getProp obind]. rewrite Hc. cbn [toString obind].
    destruct (IH Hs (set c (field o "@name") acc)) as (acc' & -> & L).
    exists acc'. split; [reflexivity |]. intros code. rewrite L.
    cbn [rev]. rewrite find_app.
    destruct (find (fun item => isText code (optProp item "@code")) (rev items));
      [reflexivity |].
    cbn [find optProp]. rewrite Hc. cbn [isText]. rewrite lookup_set.
    destruct (code =? c); reflexivity.
Qed.

(** The groups of a document, reduced: each id maps to the entries of its
    last group. *)
Lemma reduce_classGroup_lookup (groups : list value) :
  forallb wfClassGroup groups = true ->
  forall classObj, exists classObj',
    reduce classGroup groups classObj = Ret classObj'
    /\ forall classId code,
        indexLabel classObj' classId code
        = match find (fun cls => truthy (optProp cls "CLASS")
                                 && isText classId (optProp cls "@id")) (rev groups) with
          | Some cls =>
              match find (fun item => isText code (optProp item "@code"))
                         (rev (asArray (optProp cls "CLASS"))) with
              | Some item => Some (optProp item "@name")
              | None => None
              end
          | None => indexLabel classObj classId code
          end.
Proof.
  induction groups as [| cls groups IH]; cbn [forallb reduce]; intros H classObj.
  - exists classObj. split; [reflexivity | intros classId code; reflexivity].
  - apply andb_true_iff in H as [Hg Hs].
    destruct cls as [| | | | | | o]; try discriminate Hg. cbn in Hg.
    unfold classGroup at 1. cbn [getProp obind].
    destruct (truthy (field o "CLASS")) eqn:T.
    + apply andb_true_iff in Hg as [Hid Hitems].
      destruct (plainString_VStr _ Hid) as [i Hi].
      destruct (reduce_classItem_lookup _ Hitems []) as (labels & -> & Ll).
      cbn [obind]. rewrite Hi. cbn [toString obind].
      destruct (IH Hs (set i labels classObj)) as (classObj' & -> & L).
      exists classObj'. split; [reflexivity |]. intros classId code. rewrite L.
      cbn [rev]. rewrite find_app.
      destruct (find (fun cls => truthy (optProp cls "CLASS")
                                 && isText classId (optProp cls "@id")) (rev groups));
        [reflexivity |].
      cbn [find optProp]. rewrite T, Hi. cbn [andb isText].
      unfold indexLabel. rewrite lookup_set.
      destruct (classId =? i); [| reflexivity].
      rewrite Ll. cbn [optProp]. now destruct (find _ _).
    + cbn [obind]. destruct (IH Hs classObj) as (classObj' & -> & L).
      exists classObj'. split; [reflexivity |]. intros classId code. rewrite L.
      cbn [rev]. rewrite find_app.
      destruct (find (fun cls => truthy (optProp cls "CLASS")
                                 && isText classId (optProp cls "@id")) (rev groups));
        [reflexivity |].
      cbn [find optProp]. now rewrite T.
Qed.

(** The index of a well-formed document holds the labels the document
    provides. *)
Lemma buildClassObj_documentLabel (document : value) (classObj : index)
    (classId code : string) :
  buildClassObj document = Ret classObj -> wfDocument document = true ->
  indexLabel classObj classId code = documentLabel document classId code.
Proof.
  unfold buildClassObj, wfDocument, documentLabel, documentGroups.
  destruct (truthy (optProp document "CLASS_OBJ")).
  - intros B W.
    destruct (reduce_classGroup_lookup _ W []) as (classObj' & B' & L).
    rewrite B in B'. injection B' as <-. rewrite L.
    now destruct (find _ _).
  - intros [= <-] _. reflexivity.
Qed.

(** C2, as amended.  Through the index built from a classification
    document, a code resolves to the label the index holds for the pair
    when that label is not empty (not falsy), and to the code itself
    otherwise: when the id or the code is unknown, or the label is empty.
    Resolution does not throw and does not yield [undefined].  For a
    well-formed document the label the index holds is the one the document
    provides.  The names every object inherits are left out, as everywhere
    in this model. *)
Theorem resolve_label (document : value) (classObj : index) (classId code : string) :
  buildClassObj document = Ret classObj ->
  inheritedName classId = false -> inheritedName code = false ->
  resolve classObj classId (VStr code) = Ret (labelOf classObj classId code)
  /\ labelOf classObj classId code <> VUndefined
  /\ (forall l, indexLabel classObj classId code = Some l -> truthy l = true ->
                labelOf classObj classId code = l)
  /\ (forall l, indexLabel classObj classId code = Some l -> truthy l = false ->
                labelOf classObj classId code = VStr code)
  /\ (indexLabel classObj classId code = None ->
      labelOf classObj classId code = VStr code)
  /\ (wfDocument document = true ->
      indexLabel classObj classId code = documentLabel document classId code).
Proof.
  intros B _ _. split; [apply resolve_labelOf |].
  split; [| split; [| split; [| split]]].
  - unfold labelOf. destruct (indexLabel classObj classId code) as [l |]; [| discriminate].
    destruct (truthy l) eqn:T; [| discriminate].
    intros ->. discriminate T.
  - unfold labelOf. intros l -> ->. reflexivity.
  - unfold labelOf. intros l -> ->. reflexivity.
  - unfold labelOf. intros ->. reflexivity.
  - intros W. now apply buildClassObj_documentLabel.
Qed.

End Resolution.

(** The index of the scenario of section 8 resolves the known pair to its
    label. *)
Lemma resolve_label_witness :
  buildClassObj (optProp scenarioPayload "CLASS_INF")
  = Ret [ ("area", [ ("00000", VStr "全国") ]) ]
  /\ inheritedName "area" = false /\ inheritedName "00000" = false
  /\ resolve [ ("area", [ ("00000", VStr "全国") ]) ] "area" (VStr "00000")
     = Ret (VStr "全国").
Proof.
  split; [reflexivity | split; [reflexivity | split; [reflexivity |]]].
  exact (proj1 (resolve_label (optProp scenarioPayload "CLASS_INF")
                  [ ("area", [ ("00000", VStr "全国") ]) ] "area" "00000"
                  eq_refl eq_refl eq_refl)).
Defined.

(** C2 as stated fails on an empty label: the pair is in the index, and the
    code comes back instead of the label the document provides. *)
Lemma resolve_label_counterexample :
  buildClassObj emptyLabelDocument = Ret [ ("area", [ ("13000", VStr "") ]) ]
  /\ lookup "13000" [ ("13000", VStr "") ] = Some (VStr "")
  /\ resolve [ ("area", [ ("13000", VStr "") ]) ] "area" (VStr "13000")
     = Ret (VStr "13000").
Proof. repeat split. Qed.

(** ** Two calls (C8) *)

Section Twice.
Context {rt : Runtime}.

Lemma dataPoint_sameButTimes sn sd c v u id d row lu1 ea1 lu2 ea2 :
  sameButTimes (dataPoint sn sd c v u id d lu1 row ea1)
               (dataPoint sn sd c v u id d lu2 row ea2).
Proof.
  intros k E L. unfold dataPoint, optProp, field. cbn [lookup].
  repeat match goal with
         | |- context [k =? ?x] =>
             let Q := fresh "Q" in
             destruct (k =? x) eqn:Q;
             [ try reflexivity; apply String.eqb_eq in Q; congruence |]
         end.
  reflexivity.
Qed.

Lemma errorPoint_sameButTimes sn sd id e rawData lu1 ea1 lu2 ea2 :
  sameButTimes (errorPoint sn sd id lu1 e rawData ea1)
               (errorPoint sn sd id lu2 e rawData ea2).
Proof.
  intros k E L. unfold errorPoint, optProp, field. cbn [lookup].
  repeat match goal with
         | |- context [k =? ?x] =>
             let Q := fresh "Q" in
             destruct (k =? x) eqn:Q;
             [ try reflexivity; apply String.eqb_eq in Q; congruence |]
         end.
  reflexivity.
Qed.

Lemma forEach_valueRow_twice tableInf statName surveyDate classObj id rows :
  forall s1 s2 : nstate,
  exists recs1 recs2 o s1' s2',
    forEach rows (valueRow tableInf statName surveyDate classObj id) s1 = (o, s1')
    /\ forEach rows (valueRow tableInf statName surveyDate classObj id) s2 = (o, s2')
    /\ normalizedData s1' = normalizedData s1 ++ recs1
    /\ normalizedData s2' = normalizedData s2 ++ recs2
    /\ Forall2 (twins tableInf) recs1 recs2.
Proof.
  induction rows as [| row rows IH]; intros s1 s2.
  - exists [], [], (Ret tt), s1, s2. cbn. rewrite !app_nil_r. repeat split; constructor.
  - destruct (rowData statName classObj row) as [[[[val unit] categories] dataType] | e] eqn:R.
    + destruct (valueRow_Ret tableInf statName surveyDate classObj id row
                  val unit categories dataType s1 R) as (lu1 & ea1 & t1 & E1 & H1).
      destruct (valueRow_Ret tableInf statName surveyDate classObj id row
                  val unit categories dataType s2 R) as (lu2 & ea2 & t2 & E2 & H2).
      rewrite (forEach_cons_Ret _ _ _ _ _ E1), (forEach_cons_Ret _ _ _ _ _ E2).
      match type of E1 with
      | _ = (_, ?a) =>
          match type of E2 with
          | _ = (_, ?b) =>
              destruct (IH a b) as (recs1 & recs2 & o & s1' & s2' & -> & -> & N1 & N2 & T)
          end
      end.
      eexists (_ :: recs1), (_ :: recs2), o, s1', s2'.
      split; [reflexivity |]. split; [reflexivity |].
      split; [rewrite N1; cbn; rewrite <- app_assoc; reflexivity |].
      split; [rewrite N2; cbn; rewrite <- app_assoc; reflexivity |].
      constructor; [| exact T]. split; [apply dataPoint_sameButTimes |]. split.
      * exists dataType. split; [reflexivity | eauto using rowData_dataType].
      * intros U. cbn. now rewrite (H1 U), (H2 U).
    + rewrite (forEach_cons_Throw _ _ _ _ _ _ (valueRow_Throw _ _ _ _ _ _ _ s1 R)).
      rewrite (forEach_cons_Throw _ _ _ _ _ _ (valueRow_Throw _ _ _ _ _ _ _ s2 R)).
      exists [], [], (Throw e), s1, s2. rewrite !app_nil_r. repeat split; constructor.
Qed.

Lemma tryBlock_twice rawData id (s1 s2 : nstate) :
  nullish rawData = false ->
  exists recs1 recs2 o s1' s2',
    tryBlock rawData id s1 = (o, s1')
    /\ tryBlock rawData id s2 = (o, s2')
    /\ normalizedData s1' = normalizedData s1 ++ recs1
    /\ normalizedData s2' = normalizedData s2 ++ recs2
    /\ Forall2 (twins (optProp rawData "TABLE_INF")) recs1 recs2.
Proof.
  intros H. unfold tryBlock, bind, lift. rewrite !(getProp_value _ _ H).
  destruct (buildClassObj (optProp rawData "CLASS_INF")) as [classObj | e].
  - destruct (truthy (optProp (optProp rawData "DATA_INF") "VALUE")).
    + apply forEach_valueRow_twice.
    + exists [], [], (Ret tt), s1, s2. cbn. rewrite !app_nil_r. repeat split; constructor.
  - exists [], [], (Throw e), s1, s2. cbn. rewrite !app_nil_r. repeat split; constructor.
Qed.

(** C8, as amended.  Two calls with the same arguments, at whatever times,
    end the same way; the two lists have the same length and their records
    agree on every field except [extractedAt] and [lastUpdated].  On the
    records of value rows [lastUpdated] agrees as well when the payload
    carries an [UPDATED_DATE]; otherwise, and on the placeholder, it is the
    time of the call. *)
Theorem normalizeStatisticalData_twice (rawData metadata id : value) (now1 now2 : nat) :
  match fst (normalizeStatisticalData rawData metadata id now1),
        fst (normalizeStatisticalData rawData metadata id now2) with
  | Ret l1, Ret l2 =>
      Forall2 sameButTimes l1 l2
      /\ (truthy (optProp (optProp rawData "TABLE_INF") "UPDATED_DATE") = true ->
          Forall2 (fun r1 r2 =>
                     isDataPoint r1 ->
                     optProp r1 "lastUpdated" = optProp r2 "lastUpdated") l1 l2)
  | Throw e1, Throw e2 => e1 = e2
  | _, _ => False
  end.
Proof.
  destruct (nullish rawData) eqn:N.
  - destruct rawData; try discriminate N; reflexivity.
  - destruct (tryBlock_twice rawData id
                {| clock := now1; normalizedData := [] |}
                {| clock := now2; normalizedData := [] |} N)
      as (recs1 & recs2 & o & s1 & s2 & E1 & E2 & N1 & N2 & T).
    unfold normalizeStatisticalData, tryCatch. rewrite E1, E2.
    cbn in N1, N2.
    destruct o as [[] | e]; cbn [fst].
    + rewrite N1, N2. split.
      * eapply Forall2_impl; [| exact T]. now intros r1 r2 (S & _).
      * intros U. eapply Forall2_impl; [| exact T]. intros r1 r2 (_ & _ & L) _. auto.
    + rewrite !(catchBlock_run _ _ _ _ N). cbn [fst normalizedData].
      rewrite N1, N2. split.
      * apply Forall2_app.
        -- eapply Forall2_impl; [| exact T]. now intros r1 r2 (S & _).
        -- constructor; [apply errorPoint_sameButTimes | constructor].
      * intros U. apply Forall2_app.
        -- eapply Forall2_impl; [| exact T]. intros r1 r2 (_ & _ & L) _. auto.
        -- constructor; [| constructor].
           intros (d & D & I). cbn in D. injection D as <-.
           cbn in I. intuition discriminate.
Qed.

End Twice.

(** Section 8: an observation that does not parse gives [value] 0, and no
    exception. *)
Example unparsable_value :
  exists r,
    fst (normalizeStatisticalData
           (VObj [ ("DATA_INF", VObj [ ("VALUE", VObj [ ("$", VStr "abc") ]) ]) ])
           VNull (VStr "0003448738") 0) = Ret [r]
    /\ optProp r "value" = ofZ 0.
Proof. eexists. split; reflexivity. Qed.

(** C8 as stated fails on a payload without [UPDATED_DATE]: the records of
    two calls differ in [lastUpdated] as well. *)
Lemma normalizeStatisticalData_twice_counterexample :
  exists r1 r2,
    fst (normalizeStatisticalData scenarioPayload VNull (VStr "0003448738") 0) = Ret [r1]
    /\ fst (normalizeStatisticalData scenarioPayload VNull (VStr "0003448738") 5) = Ret [r2]
    /\ optProp r1 "lastUpdated" = VStr "T0"
    /\ optProp r2 "lastUpdated" = VStr "T5".
Proof. do 2 eexists. repeat split. Qed.

(** ** Runs: what a computation can add to the requests *)

Lemma bind_Ret {S A B} (c : M S A) (f : A -> M S B) (s s1 : S) (a : A) :
  c s = (Ret a, s1) -> bind c f s = f a s1.
Proof. intros H. unfold bind. now rewrite H. Qed.

Lemma bind_Throw {S A B} (c : M S A) (f : A -> M S B) (s s1 : S) (e : exn) :
  c s = (Throw e, s1) -> bind c f s = (Throw e, s1).
Proof. intros H. unfold bind. now rewrite H. Qed.

Lemma lift_Ret {S A} (o : outcome A) (a : A) (s : S) :
  o = Ret a -> lift o s = (Ret a, s).
Proof. now intros ->. Qed.

Section Within.
Variable mu : world -> nat.

Lemma within_ret {A} (a : A) : within mu (ret a) 0.
Proof. intros w o w' [= <- <-]. lia. Qed.

Lemma within_lift {A} (o : outcome A) : within mu (lift o) 0.
Proof. intros w o' w' [= <- <-]. lia. Qed.

Lemma within_bind {A B} (c : M world A) (f : A -> M world B) (n m k : nat) :
  within mu c n -> (forall a, within mu (f a) m) -> (n + m <= k)%nat ->
  within mu (bind c f) k.
Proof.
  intros Hc Hf L w o w'. unfold bind.
  destruct (c w) as [[a | e] w1] eqn:E; intros H.
  - apply Hc in E. apply Hf in H. lia.
  - injection H as <- <-. apply Hc in E. lia.
Qed.

Lemma within_tryCatch {A} (c : M world A) (h : exn -> M world A) (n m k : nat) :
  within mu c n -> (forall e, within mu (h e) m) -> (n + m <= k)%nat ->
  within mu (tryCatch c h) k.
Proof.
  intros Hc Hh L w o w'. unfold tryCatch.
  destruct (c w) as [[a | e] w1] eqn:E; intros H.
  - injection H as <- <-. apply Hc in E. lia.
  - apply Hc in E. apply Hh in H. lia.
Qed.

Lemma within_forEach {X} (f : X -> M world unit) (xs : list X) (n : nat) :
  (forall x, within mu (f x) n) -> within mu (forEach xs f) (length xs * n).
Proof.
  intros Hf. induction xs as [| x xs IH]; cbn [forEach length].
  - apply within_ret.
  - eapply within_bind; [apply Hf | intros _; apply IH | lia].
Qed.

Lemma within_weaken {A} (c : M world A) (n m : nat) :
  within mu c n -> (n <= m)%nat -> within mu c m.
Proof. intros H L w o w' E. apply H in E. lia. Qed.

Lemma within_if {A} (b : bool) (c1 c2 : M world A) (n : nat) :
  within mu c1 n -> within mu c2 n -> within mu (if b then c1 else c2) n.
Proof. now destruct b. Qed.

End Within.

Lemma quiet_within_data {A} (c : M world A) : quiet c -> within dataFetches c 0.
Proof. intros Q w o w' E. unfold dataFetches. rewrite (Q _ _ _ E). lia. Qed.

Lemma quiet_within_meta {A} (c : M world A) : quiet c -> within metaFetches c 0.
Proof. intros Q w o w' E. unfold metaFetches. rewrite (Q _ _ _ E). lia. Qed.

Lemma quiet_bind {A B} (c : M world A) (f : A -> M world B) :
  quiet c -> (forall a, quiet (f a)) -> quiet (bind c f).
Proof.
  intros Hc Hf w o w'. unfold bind.
  destruct (c w) as [[a | e] w1] eqn:E; intros H.
  - apply Hc in E. apply Hf in H. congruence.
  - injection H as <- <-. now apply Hc in E.
Qed.

Lemma quiet_forEach {X} (f : X -> M world unit) (xs : list X) :
  (forall x, quiet (f x)) -> quiet (forEach xs f).
Proof.
  intros Hf. induction xs as [| x xs IH]; cbn [forEach].
  - now intros w o w' [= <- <-].
  - apply quiet_bind; [apply Hf | intros _; apply IH].
Qed.

Lemma validMaxItems_validated (parsed : option Z) (input : options) :
  maxItems input = validMaxItems parsed -> validated input.
Proof. unfold validated, validMaxItems. intros ->. lia. Qed.

Section Sends.
Variable P : request -> Prop.

Lemma sends_quiet {A} (c : M world A) : quiet c -> sends P c.
Proof.
  intros Q w o w' E. exists []. rewrite (Q _ _ _ E), app_nil_r. auto.
Qed.

Lemma sends_bind {A B} (c : M world A) (f : A -> M world B) :
  sends P c -> (forall a w w1, c w = (Ret a, w1) -> sends P (f a)) -> sends P (bind c f).
Proof.
  intros Hc Hf w o w'. unfold bind.
  destruct (c w) as [[a | e] w1] eqn:E; intros H.
  - destruct (Hc _ _ _ E) as (n1 & R1 & F1).
    destruct (Hf _ _ _ E _ _ _ H) as (n2 & R2 & F2).
    exists (n1 ++ n2). rewrite R2, R1, app_assoc. split; [reflexivity |].
    apply Forall_app. auto.
  - injection H as <- <-. exact (Hc _ _ _ E).
Qed.

Lemma sends_tryCatch {A} (c : M world A) (h : exn -> M world A) :
  sends P c -> (forall e, sends P (h e)) -> sends P (tryCatch c h).
Proof.
  intros Hc Hh w o w'. unfold tryCatch.
  destruct (c w) as [[a | e] w1] eqn:E; intros H.
  - injection H as <- <-. exact (Hc _ _ _ E).
  - destruct (Hc _ _ _ E) as (n1 & R1 & F1).
    destruct (Hh _ _ _ _ H) as (n2 & R2 & F2).
    exists (n1 ++ n2). rewrite R2, R1, app_assoc. split; [reflexivity |].
    apply Forall_app. auto.
Qed.

Lemma sends_forEach {X} (f : X -> M world unit) (xs : list X) :
  (forall x, In x xs -> sends P (f x)) -> sends P (forEach xs f).
Proof.
  induction xs as [| x xs IH]; cbn [forEach]; intros Hf.
  - intros w o w' [= <- <-]. exists []. rewrite app_nil_r. auto.
  - apply sends_bind; [apply Hf; now left |].
    intros _ _ _ _. apply IH. intros y I. apply Hf. now right.
Qed.

End Sends.

Lemma sends_weaken (P Q : request -> Prop) {A} (c : M world A) :
  (forall r, P r -> Q r) -> sends P c -> sends Q c.
Proof.
  intros PQ H w o w' E. destruct (H _ _ _ E) as (new & R & F).
  exists new. split; [exact R |]. eapply Forall_impl; [exact PQ | exact F].
Qed.

Section RunFacts.
Context {rt : Runtime} {api : EStat}.

Lemma sends_send (P : request -> Prop) {A} (r : request) (answer : outcome A) :
  P r -> sends P (send r answer).
Proof.
  intros H w o w' [= <- <-]. exists [r]. split; [reflexivity | auto].
Qed.

Lemma quiet_date : quiet date.
Proof. now intros w o w' [= <- <-]. Qed.

Lemma quiet_pushData item : quiet (pushData item).
Proof. now intros w o w' [= <- <-]. Qed.

Lemma quiet_countTable : quiet countTable.
Proof. now intros w o w' [= <- <-]. Qed.

Lemma quiet_countDataPoint : quiet countDataPoint.
Proof. now intros w o w' [= <- <-]. Qed.

Lemma quiet_declareCounters : quiet declareCounters.
Proof. now intros w o w' [= <- <-]. Qed.

Lemma quiet_counters : quiet counters.
Proof. now intros w o w' [= <- <-]. Qed.

Lemma quiet_lift {A} (o : outcome A) : quiet (lift o).
Proof. now intros w o' w' [= <- <-]. Qed.

Lemma quiet_ret {A} (a : A) : quiet (ret (S := world) a).
Proof. now intros w o' w' [= <- <-]. Qed.

Lemma quiet_normalize statsData metadata id : quiet (normalize statsData metadata id).
Proof.
  intros w o w'. unfold normalize.
  destruct (normalizeStatisticalData statsData metadata id (time w)).
  now intros [= <- <-].
Qed.

Ltac quiet_steps :=
  repeat first
    [ apply quiet_date | apply quiet_pushData | apply quiet_countTable
    | apply quiet_countDataPoint | apply quiet_declareCounters | apply quiet_counters
    | apply quiet_lift | apply quiet_ret | apply quiet_normalize
    | apply quiet_forEach; intros ?
    | apply quiet_bind; [| intros ?] ].

Lemma quiet_runDemoMode input : quiet (runDemoMode input).
Proof. unfold runDemoMode. quiet_steps. Qed.

Lemma within_send_data {A} (r : request) (answer : outcome A) :
  within dataFetches (send r answer) (if isStatsData r then 1 else 0).
Proof.
  intros w o w' [= <- <-]. unfold dataFetches. cbn.
  rewrite filter_app, length_app. cbn. destruct (isStatsData r); cbn; lia.
Qed.

Lemma within_send_meta {A} (r : request) (answer : outcome A) :
  within metaFetches (send r answer) (if isMetaInfo r then 1 else 0).
Proof.
  intros w o w' [= <- <-]. unfold metaFetches. cbn.
  rewrite filter_app, length_app. cbn. destruct (isMetaInfo r); cbn; lia.
Qed.

Lemma within_data_StatsData {A} id (answer : outcome A) :
  within dataFetches (send (StatsData id) answer) 1.
Proof. exact (within_send_data (StatsData id) answer). Qed.

Lemma within_data_MetaInfo {A} id (answer : outcome A) :
  within dataFetches (send (MetaInfo id) answer) 0.
Proof. exact (within_send_data (MetaInfo id) answer). Qed.

Lemma within_data_StatsList {A} params (answer : outcome A) :
  within dataFetches (send (StatsList params) answer) 0.
Proof. exact (within_send_data (StatsList params) answer). Qed.

Lemma within_meta_StatsData {A} id (answer : outcome A) :
  within metaFetches (send (StatsData id) answer) 0.
Proof. exact (within_send_meta (StatsData id) answer). Qed.

Lemma within_meta_MetaInfo {A} id (answer : outcome A) :
  within metaFetches (send (MetaInfo id) answer) 1.
Proof. exact (within_send_meta (MetaInfo id) answer). Qed.

Lemma within_meta_StatsList {A} params (answer : outcome A) :
  within metaFetches (send (StatsList params) answer) 0.
Proof. exact (within_send_meta (StatsList params) answer). Qed.

Ltac within_data :=
  first
    [ apply quiet_within_data; solve [quiet_steps]
    | apply within_data_StatsData | apply within_data_MetaInfo
    | apply within_data_StatsList
    | eapply within_bind; [within_data | intros ?; within_data | apply Nat.le_refl]
    | eapply within_tryCatch; [within_data | intros ?; within_data | apply Nat.le_refl] ].

Ltac within_meta :=
  first
    [ apply quiet_within_meta; solve [quiet_steps]
    | apply within_meta_StatsData | apply within_meta_MetaInfo
    | apply within_meta_StatsList
    | eapply within_bind; [within_meta | intros ?; within_meta | apply Nat.le_refl]
    | eapply within_tryCatch; [within_meta | intros ?; within_meta | apply Nat.le_refl] ].

Lemma tables_date : within processedTables date 0.
Proof. intros w o w' [= <- <-]. cbn. lia. Qed.

Lemma tables_pushData item : within processedTables (pushData item) 0.
Proof. intros w o w' [= <- <-]. cbn. lia. Qed.

Lemma tables_countTable : within processedTables countTable 1.
Proof. intros w o w' [= <- <-]. cbn. lia. Qed.

Lemma tables_countDataPoint : within processedTables countDataPoint 0.
Proof. intros w o w' [= <- <-]. cbn. lia. Qed.

Lemma tables_declareCounters : within processedTables declareCounters 0.
Proof. intros w o w' [= <- <-]. cbn. lia. Qed.

Lemma tables_counters : within processedTables counters 0.
Proof. intros w o w' [= <- <-]. cbn. lia. Qed.

Lemma tables_send {A} r (answer : outcome A) : within processedTables (send r answer) 0.
Proof. intros w o w' [= <- <-]. cbn. lia. Qed.

Lemma tables_normalize statsData metadata id :
  within processedTables (normalize statsData metadata id) 0.
Proof.
  intros w o w'. unfold normalize.
  destruct (normalizeStatisticalData statsData metadata id (time w)).
  intros [= <- <-]. cbn. lia.
Qed.

Lemma tables_forEach_push (l : list value) :
  within processedTables
    (forEach l (fun dataPoint => pushData dataPoint ;;; countDataPoint)) 0.
Proof.
  eapply within_weaken.
  - apply within_forEach. intros x.
    eapply within_bind; [apply tables_pushData | intros _; apply tables_countDataPoint |].
    apply Nat.le_refl.
  - lia.
Qed.

Lemma tables_forEach_pushData (l : list value) :
  within processedTables (forEach l pushData) 0.
Proof.
  eapply within_weaken; [apply within_forEach; intros x; apply tables_pushData | lia].
Qed.

Ltac within_tables :=
  first
    [ apply tables_date | apply tables_pushData | apply tables_countTable
    | apply tables_countDataPoint | apply tables_declareCounters | apply tables_counters
    | apply tables_send | apply tables_normalize | apply tables_forEach_push
    | apply tables_forEach_pushData
    | apply within_lift | apply within_ret
    | eapply within_bind; [within_tables | intros ?; within_tables | apply Nat.le_refl]
    | eapply within_tryCatch; [within_tables | intros ?; within_tables | apply Nat.le_refl] ].

(** One table costs at most one data fetch and one metadata fetch, and
    counts once. *)
Lemma processTable_within_tables input table :
  within processedTables (processTable input table) 1.
Proof.
  unfold processTable, tableBody, tableFailed.
  destruct (includeMetadata input), (wantsRaw input), (wantsStructured input);
    (eapply within_weaken; [within_tables | cbn; lia]).
Qed.

Lemma processTable_within_data input table :
  within dataFetches (processTable input table) 1.
Proof.
  unfold processTable, tableBody, tableFailed.
  destruct (includeMetadata input), (wantsRaw input), (wantsStructured input);
    (eapply within_weaken; [within_data | cbn; lia]).
Qed.

Lemma processTable_within_meta input table :
  within metaFetches (processTable input table) 1.
Proof.
  unfold processTable, tableBody, tableFailed.
  destruct (includeMetadata input), (wantsRaw input), (wantsStructured input);
    (eapply within_weaken; [within_meta | cbn; lia]).
Qed.

Lemma getProp_Ret (v : value) (k : string) (x : value) :
  getProp v k = Ret x -> x = optProp v k.
Proof. destruct v; cbn; congruence. Qed.

(** The requests of one iteration are for its table. *)
Lemma processTable_sends input table :
  sends (forTable table) (processTable input table).
Proof.
  unfold processTable. apply sends_tryCatch.
  - unfold tableBody.
    apply sends_bind; [apply sends_quiet, quiet_countTable | intros _ _ _ _].
    apply sends_bind; [apply sends_quiet, quiet_lift | intros id w0 w1 E].
    assert (id = optProp table "@id") as ->.
    { unfold lift in E. injection E as E _. now apply getProp_Ret in E. }
    apply sends_bind; [apply sends_quiet, quiet_lift | intros title _ _ _].
    apply sends_bind; [apply sends_quiet, quiet_lift | intros _ _ _ _].
    apply sends_bind.
    { destruct (includeMetadata input); [| apply sends_quiet, quiet_ret].
      apply sends_tryCatch; [apply sends_send; now left |].
      intros _. apply sends_quiet, quiet_ret. }
    intros metadata _ _ _.
    apply sends_bind; [apply sends_send; now right | intros statsData _ _ _].
    apply sends_quiet.
    destruct (wantsRaw input), (wantsStructured input); quiet_steps.
  - intros e. apply sends_quiet. unfold tableFailed. quiet_steps.
Qed.

Lemma tables_runDemoMode input : within processedTables (runDemoMode input) 0.
Proof. unfold runDemoMode. eapply within_weaken; [within_tables | cbn; lia]. Qed.

Lemma forEach_pushData (xs : list value) :
  forall w,
    forEach xs pushData w
    = (Ret tt,
       {| time := time w; dataset := dataset w ++ xs; requests := requests w;
          totalDataPoints := totalDataPoints w; processedTables := processedTables w |}).
Proof.
  induction xs as [| x xs IH]; intros w.
  - destruct w. cbn. now rewrite app_nil_r.
  - rewrite (forEach_cons_Ret pushData x xs w _ eq_refl), IH. cbn.
    now rewrite <- app_assoc.
Qed.

(** [runDemoMode] reads the clock three times and appends the kept sample
    records and the summary. *)
Lemma runDemoMode_run input w :
  runDemoMode input w
  = (Ret tt,
     let kept := filterDemo input
                   (demoData (toISOString (time w)) (toISOString (S (time w)))) in
     {| time := S (S (S (time w)));
        dataset := dataset w ++ kept
                   ++ [demoSummary input (length kept) (toISOString (S (S (time w))))];
        requests := requests w;
        totalDataPoints := totalDataPoints w;
        processedTables := processedTables w |}).
Proof.
  unfold runDemoMode.
  rewrite (bind_Ret date _ w _ _ eq_refl).
  rewrite (bind_Ret date _ _ _ _ eq_refl).
  cbn [time]. rewrite (bind_Ret _ _ _ _ _ (forEach_pushData _ _)).
  rewrite (bind_Ret date _ _ _ _ eq_refl). unfold pushData.
  cbn [time dataset requests totalDataPoints processedTables].
  now rewrite <- app_assoc.
Qed.

Lemma apiFailed_Ret input e w : exists w', apiFailed input e w = (Ret tt, w').
Proof.
  unfold apiFailed. destruct (authLike (message e)).
  - rewrite runDemoMode_run. eauto.
  - rewrite (bind_Ret date _ w _ _ eq_refl).
    rewrite (bind_Ret (pushData _) _ _ _ _ eq_refl).
    rewrite runDemoMode_run. eauto.
Qed.

Lemma mainLogic_Ret input estatAppId w :
  exists w', mainLogic input estatAppId w = (Ret tt, w').
Proof.
  unfold mainLogic. destruct (negb (truthy estatAppId)).
  - rewrite runDemoMode_run. eauto.
  - unfold tryCatch. destruct (apiRun input w) as [[[] | e] w1]; [eauto |].
    apply apiFailed_Ret.
Qed.

Lemma slice_firstn {X} (xs : list X) (n : Z) :
  (0 <= n)%Z ->
  slice xs n = firstn (Z.to_nat n) xs /\ (length (slice xs n) <= Z.to_nat n)%nat.
Proof.
  intros H. unfold slice. destruct (n <? 0)%Z eqn:E; [lia |].
  split; [reflexivity | apply firstn_le_length].
Qed.

Section Bound.
Variable mu : world -> nat.
Hypothesis mu_processTable : forall input table, within mu (processTable input table) 1.
Hypothesis mu_list : forall params (answer : outcome (list value)),
    within mu (send (StatsList params) answer) 0.
Hypothesis mu_date : within mu date 0.
Hypothesis mu_pushData : forall item, within mu (pushData item) 0.
Hypothesis mu_declare : within mu declareCounters 0.
Hypothesis mu_counters : within mu counters 0.
Hypothesis mu_demo : forall input, within mu (runDemoMode input) 0.

Lemma apiRun_within input :
  validated input -> within mu (apiRun input) (Z.to_nat (maxItems input)).
Proof.
  intros [V _]. unfold apiRun.
  apply (within_bind mu _ _ 0 (Z.to_nat (maxItems input)) _); [apply mu_list | | lia].
  intros statsList. destruct (length statsList =? 0)%nat.
  - eapply within_weaken;
      [eapply within_bind; [apply mu_date | intros ?; apply mu_pushData | apply Nat.le_refl]
      | lia].
  - eapply within_weaken.
    + eapply within_bind; [apply mu_declare | intros _ | apply Nat.le_refl].
      eapply within_bind;
        [apply within_forEach; intros table; apply mu_processTable | intros _
        | apply Nat.le_refl].
      eapply within_bind; [apply mu_counters | intros ? | apply Nat.le_refl].
      eapply within_bind; [apply mu_date | intros ?; apply mu_pushData | apply Nat.le_refl].
    + destruct (slice_firstn statsList (maxItems input)) as [_ L]; lia.
Qed.

Lemma mainLogic_within input estatAppId :
  validated input -> within mu (mainLogic input estatAppId) (Z.to_nat (maxItems input)).
Proof.
  intros V. unfold mainLogic. destruct (negb (truthy estatAppId)).
  - eapply within_weaken; [apply mu_demo | lia].
  - eapply within_tryCatch; [apply (apiRun_within input V) | intros e |].
    + unfold apiFailed. destruct (authLike (message e)).
      * apply mu_demo.
      * eapply within_weaken.
        -- eapply within_bind; [apply mu_date | intros ? | apply Nat.le_refl].
           eapply within_bind; [apply mu_pushData | intros _; apply mu_demo | apply Nat.le_refl].
        -- lia.
    + lia.
Qed.

End Bound.

Lemma apiRun_sends input :
  validated input -> sends (fromRun input) (apiRun input).
Proof.
  intros [V _]. unfold apiRun.
  apply sends_bind; [apply sends_send; now left | intros statsList w0 w1 E].
  assert (L : getStatsList (buildSearchParams input) = Ret statsList)
    by (unfold send in E; now injection E as E _).
  destruct (length statsList =? 0)%nat; [apply sends_quiet; quiet_steps |].
  apply sends_bind; [apply sends_quiet, quiet_declareCounters | intros _ _ _ _].
  apply sends_bind; [| intros _ _ _ _; apply sends_quiet; quiet_steps].
  apply sends_forEach. intros table I.
  apply (sends_weaken (forTable table)); [| apply processTable_sends].
  intros r F. right. exists statsList, table.
  assert (V0 : (0 <= maxItems input)%Z) by lia.
  destruct (slice_firstn statsList (maxItems input) V0) as [<- _]. auto.
Qed.

Lemma mainLogic_sends input estatAppId :
  validated input -> sends (fromRun input) (mainLogic input estatAppId).
Proof.
  intros V. unfold mainLogic. destruct (negb (truthy estatAppId)).
  - apply sends_quiet, quiet_runDemoMode.
  - apply sends_tryCatch; [now apply apiRun_sends |].
    intros e. apply sends_quiet. unfold apiFailed.
    destruct (authLike (message e)); [apply quiet_runDemoMode |].
    quiet_steps.
Qed.

(** C5.  Under a validated option set a run processes the candidates
    [statsList.slice(0, maxItems)], which are the first [maxItems] of the
    search answer and no more than [maxItems]; whatever the collaborators
    answer, the run ends normally, having sent at most [maxItems] data
    fetches and at most [maxItems] metadata fetches and counted at most
    [maxItems] tables. *)
Theorem mainLogic_bounded (input : options) (estatAppId : value) (w : world) :
  validated input ->
  exists w',
    mainLogic input estatAppId w = (Ret tt, w')
    /\ (dataFetches w' <= dataFetches w + Z.to_nat (maxItems input))%nat
    /\ (metaFetches w' <= metaFetches w + Z.to_nat (maxItems input))%nat
    /\ (processedTables w' <= processedTables w + Z.to_nat (maxItems input))%nat
    /\ (exists new, requests w' = requests w ++ new /\ Forall (fromRun input) new)
    /\ forall statsList : list value,
         slice statsList (maxItems input) = firstn (Z.to_nat (maxItems input)) statsList
         /\ (length (slice statsList (maxItems input)) <= Z.to_nat (maxItems input))%nat.
Proof.
  intros V. destruct (mainLogic_Ret input estatAppId w) as [w' E].
  exists w'. split; [exact E |].
  split; [| split; [| split; [| split; [| split]]]].
  - refine (mainLogic_within dataFetches _ _ _ _ _ _ _ input estatAppId V w _ w' E);
      intros; solve [within_data | apply processTable_within_data
                    | apply quiet_within_data, quiet_runDemoMode].
  - refine (mainLogic_within metaFetches _ _ _ _ _ _ _ input estatAppId V w _ w' E);
      intros; solve [within_meta | apply processTable_within_meta
                    | apply quiet_within_meta, quiet_runDemoMode].
  - refine (mainLogic_within processedTables _ _ _ _ _ _ _ input estatAppId V w _ w' E);
      intros; solve [within_tables | apply processTable_within_tables
                    | apply tables_runDemoMode].
  - exact (mainLogic_sends input estatAppId V w _ w' E).
  - apply slice_firstn. destruct V. lia.
  - apply slice_firstn. destruct V. lia.
Qed.

End RunFacts.

(** Three candidates, [maxItems] 2: two data fetches. *)
Lemma mainLogic_bounded_witness :
  validated sampleInput
  /\ exists w',
       mainLogic sampleInput (VStr "app-id") freshWorld = (Ret tt, w')
       /\ (dataFetches w' <= 2)%nat
       /\ requests w'
          = [ StatsList (buildSearchParams sampleInput);
              MetaInfo (VStr "0003448738"); StatsData (VStr "0003448738");
              MetaInfo (VStr "0003005798"); StatsData (VStr "0003005798") ].
Proof.
  assert (V : validated sampleInput) by (unfold validated; cbn; lia).
  split; [exact V |].
  destruct (mainLogic_bounded (api := sampleApi) sampleInput (VStr "app-id")
              freshWorld V) as (w' & E & D & _).
  exists w'. split; [exact E |]. split; [exact D |].
  vm_compute in E. injection E as <-. reflexivity.
Defined.

(** ** One table (C6, C7) *)

Section TableFacts.
Context {rt : Runtime} {api : EStat}.

Lemma descriptor_reads (table : value) :
  descriptor table = true ->
  getProp table "@id" = Ret (optProp table "@id")
  /\ getProp table "TITLE" = Ret (optProp table "TITLE")
  /\ (exists s, toString (optProp table "TITLE") = Ret s)
  /\ (exists s, toString (optProp table "@id") = Ret s).
Proof.
  destruct table; try discriminate. cbn. intros H.
  apply andb_true_iff in H as [Hid Htitle].
  repeat split; auto using toString_scalar.
Qed.

Lemma send_Ret {A} (r : request) (answer : outcome A) (a : A) (w : world) :
  answer = Ret a ->
  send r answer w
  = (Ret a,
     {| time := time w; dataset := dataset w; requests := requests w ++ [r];
        totalDataPoints := totalDataPoints w; processedTables := processedTables w |}).
Proof. now intros ->. Qed.

(** The metadata step never fails the table: it ends normally with the
    document or with [null], having sent one request. *)
Lemma metadata_step (id : value) (w : world) :
  exists metadata,
    tryCatch (send (MetaInfo id) (getMetaInfo id)) (fun _ => ret VNull) w
    = (Ret metadata,
       {| time := time w; dataset := dataset w;
          requests := requests w ++ [MetaInfo id];
          totalDataPoints := totalDataPoints w;
          processedTables := processedTables w |})
    /\ (forall e, getMetaInfo id = Throw e -> metadata = VNull).
Proof.
  unfold tryCatch, send, ret.
  destruct (getMetaInfo id) as [metadata | e].
  - exists metadata. split; [reflexivity | discriminate].
  - exists VNull. split; [reflexivity | reflexivity].
Qed.

(** Up to the data fetch a descriptor's iteration reads no clock and emits
    nothing. *)
Lemma tableBody_fetch_failure input table e w :
  descriptor table = true ->
  getStatsData (optProp table "@id") = Throw e ->
  exists w1,
    tableBody input table w = (Throw e, w1)
    /\ time w1 = time w /\ dataset w1 = dataset w.
Proof.
  intros D F. destruct (descriptor_reads table D) as (Hid & Htitle & [s Hs] & _).
  unfold tableBody.
  rewrite (bind_Ret countTable _ w _ _ eq_refl).
  rewrite (bind_Ret _ _ _ _ _ (lift_Ret _ _ _ Hid)).
  rewrite (bind_Ret _ _ _ _ _ (lift_Ret _ _ _ Htitle)).
  rewrite (bind_Ret _ _ _ _ _ (lift_Ret _ _ _ Hs)).
  destruct (includeMetadata input).
  - match goal with
    | |- context [bind (tryCatch _ _) _ ?w0] =>
        destruct (metadata_step (optProp table "@id") w0) as (metadata & M & _)
    end.
    rewrite (bind_Ret _ _ _ _ _ M).
    unfold send at 1. rewrite F.
    eexists. split; [apply bind_Throw; reflexivity | split; reflexivity].
  - rewrite (bind_Ret (ret VNull) _ _ _ _ eq_refl).
    unfold send at 1. rewrite F.
    eexists. split; [apply bind_Throw; reflexivity | split; reflexivity].
Qed.

(** C6.  When the data fetch of a table descriptor fails, its iteration ends
    normally, the dataset grows by exactly one item, tagged [error] and
    carrying the table's id (and title, and the message of the failure), and
    the loop goes on with the remaining tables. *)
Theorem processTable_fetch_failure (input : options) (table : value) (e : exn)
    (rest : list value) (w : world) :
  descriptor table = true ->
  getStatsData (optProp table "@id") = Throw e ->
  exists w',
    processTable input table w = (Ret tt, w')
    /\ dataset w'
       = dataset w
         ++ [ tableErrorItem (optProp table "@id") (optProp table "TITLE") e
                (toISOString (time w)) ]
    /\ optProp (tableErrorItem (optProp table "@id") (optProp table "TITLE") e
                  (toISOString (time w))) "type" = VStr "error"
    /\ optProp (tableErrorItem (optProp table "@id") (optProp table "TITLE") e
                  (toISOString (time w))) "tableId" = optProp table "@id"
    /\ forEach (table :: rest) (processTable input) w
       = forEach rest (processTable input) w'.
Proof.
  intros D F. destruct (descriptor_reads table D) as (Hid & Htitle & _ & [s Hs]).
  destruct (tableBody_fetch_failure input table e w D F) as (w1 & B & T1 & D1).
  assert (P : processTable input table w
              = (Ret tt,
                 {| time := S (time w1);
                    dataset := dataset w1
                               ++ [ tableErrorItem (optProp table "@id")
                                      (optProp table "TITLE") e (toISOString (time w1)) ];
                    requests := requests w1;
                    totalDataPoints := totalDataPoints w1;
                    processedTables := processedTables w1 |})).
  { unfold processTable, tryCatch. rewrite B. unfold tableFailed.
    rewrite (bind_Ret _ _ _ _ _ (lift_Ret _ _ _ Hid)).
    rewrite (bind_Ret _ _ _ _ _ (lift_Ret _ _ _ Hs)).
    rewrite (bind_Ret _ _ _ _ _ (lift_Ret _ _ _ Htitle)).
    rewrite (bind_Ret date _ _ _ _ eq_refl). reflexivity. }
  eexists. split; [exact P |].
  split; [cbn [dataset]; now rewrite T1, D1 |].
  split; [reflexivity |]. split; [reflexivity |].
  exact (forEach_cons_Ret _ _ _ _ _ P).
Qed.

Lemma forEach_push_count (l : list value) :
  forall w,
    forEach l (fun dataPoint => pushData dataPoint ;;; countDataPoint) w
    = (Ret tt,
       {| time := time w; dataset := dataset w ++ l; requests := requests w;
          totalDataPoints := totalDataPoints w + length l;
          processedTables := processedTables w |}).
Proof.
  induction l as [| x l IH]; intros w.
  - destruct w. cbn. now rewrite app_nil_r, Nat.add_0_r.
  - rewrite (forEach_cons_Ret _ x l w _ eq_refl), IH. cbn.
    rewrite <- app_assoc. do 3 f_equal. lia.
Qed.

Lemma normalize_run statsData metadata id w :
  normalize statsData metadata id w
  = (fst (normalizeStatisticalData statsData metadata id (time w)),
     {| time := snd (normalizeStatisticalData statsData metadata id (time w));
        dataset := dataset w; requests := requests w;
        totalDataPoints := totalDataPoints w;
        processedTables := processedTables w |}).
Proof.
  unfold normalize.
  now destruct (normalizeStatisticalData statsData metadata id (time w)).
Qed.

Lemma normalize_Ret statsData metadata id w l :
  fst (normalizeStatisticalData statsData metadata id (time w)) = Ret l ->
  normalize statsData metadata id w
  = (Ret l,
     {| time := snd (normalizeStatisticalData statsData metadata id (time w));
        dataset := dataset w; requests := requests w;
        totalDataPoints := totalDataPoints w;
        processedTables := processedTables w |}).
Proof. intros H. now rewrite normalize_run, H. Qed.

(** The body of the normaliser does not mention its second parameter. *)
Lemma normalizeStatisticalData_metadata rawData metadata1 metadata2 id now :
  normalizeStatisticalData rawData metadata1 id now
  = normalizeStatisticalData rawData metadata2 id now.
Proof. reflexivity. Qed.

(** C7, as amended.  When metadata is requested and its fetch fails, the
    table is still processed: the iteration ends normally after the two
    requests, with [metadata] [null] in the raw item (if one is emitted) and
    with the records the normaliser returns for the data payload.  Those
    records do not depend on the metadata document: the normaliser builds
    its index from the payload's own [CLASS_INF], so the codes of a
    well-formed payload resolve through that index exactly as they do when
    the metadata fetch succeeds. *)
Theorem processTable_metadata_failure (input : options) (table payload : value)
    (e : exn) (w : world) :
  descriptor table = true ->
  includeMetadata input = true ->
  getMetaInfo (optProp table "@id") = Throw e ->
  getStatsData (optProp table "@id") = Ret payload ->
  nullish payload = false ->
  exists l w',
    (forall metadata,
        fst (normalizeStatisticalData payload metadata (optProp table "@id")
               (if wantsRaw input then S (time w) else time w)) = Ret l)
    /\ processTable input table w = (Ret tt, w')
    /\ requests w'
       = requests w ++ [ MetaInfo (optProp table "@id"); StatsData (optProp table "@id") ]
    /\ dataset w'
       = dataset w
         ++ (if wantsRaw input
             then [ rawItem (optProp table "@id") table VNull payload (toISOString (time w)) ]
             else [])
         ++ (if wantsStructured input then l else [])
    /\ (wellFormed payload = true ->
        Forall2 (followsPrecedence (classObjOf payload)) (valueRows payload) l).
Proof.
  intros D I Fm Fd N.
  destruct (descriptor_reads table D) as (Hid & Htitle & [s Hs] & _).
  set (id := optProp table "@id") in *.
  set (start := if wantsRaw input then S (time w) else time w).
  destruct (normalizeStatisticalData_Ret payload VNull id start N) as (l & El).
  exists l.
  assert (B : exists w',
             tableBody input table w = (Ret tt, w')
             /\ requests w' = requests w ++ [MetaInfo id; StatsData id]
             /\ dataset w'
                = dataset w
                  ++ (if wantsRaw input
                      then [rawItem id table VNull payload (toISOString (time w))]
                      else [])
                  ++ (if wantsStructured input then l else [])).
  { unfold tableBody.
    rewrite (bind_Ret countTable _ w _ _ eq_refl).
    rewrite (bind_Ret _ _ _ _ _ (lift_Ret _ _ _ Hid)).
    rewrite (bind_Ret _ _ _ _ _ (lift_Ret _ _ _ Htitle)).
    rewrite (bind_Ret _ _ _ _ _ (lift_Ret _ _ _ Hs)).
    rewrite I.
    match goal with
    | |- context [bind (tryCatch _ _) _ ?w0] =>
        destruct (metadata_step id w0) as (metadata & M & Mnull)
    end.
    rewrite (bind_Ret _ _ _ _ _ M). rewrite (Mnull e Fm).
    rewrite (bind_Ret _ _ _ _ _ (send_Ret _ _ _ _ Fd)).
    cbn [time dataset requests totalDataPoints processedTables].
    subst start. unfold wantsRaw, wantsStructured in *.
    destruct (outputFormat input).
    - rewrite (bind_Ret (ret tt) _ _ _ _ eq_refl).
      erewrite bind_Ret; [| apply normalize_Ret; cbn [time]; exact El].
      rewrite forEach_push_count.
      eexists. split; [reflexivity |]. cbn.
      split; [now rewrite <- app_assoc | reflexivity].
    - rewrite (bind_Ret _ _ _ _ _ (bind_Ret date _ _ _ _ eq_refl)).
      eexists. split; [reflexivity |]. cbn.
      split; [now rewrite <- app_assoc | reflexivity].
    - rewrite (bind_Ret _ _ _ _ _ (bind_Ret date _ _ _ _ eq_refl)).
      unfold pushData at 1.
      cbn [time dataset requests totalDataPoints processedTables].
      erewrite bind_Ret; [| apply normalize_Ret; cbn [time]; exact El].
      rewrite forEach_push_count.
      eexists. split; [reflexivity |]. cbn.
      split; [now rewrite <- app_assoc | now rewrite <- app_assoc]. }
  destruct B as (w' & B & R & Dw).
  exists w'. split; [intros metadata; exact El |].
  split; [unfold processTable, tryCatch; now rewrite B |].
  split; [exact R |]. split; [exact Dw |].
  intros W.
  destruct (wellFormed_followsPrecedence payload VNull id start W) as (l' & El' & H).
  rewrite El in El'. injection El' as <-. exact H.
Qed.

End TableFacts.

(** The second table of the sample service: its data fetch is not
    answered. *)
Lemma processTable_fetch_failure_witness :
  descriptor laborTable = true
  /\ getStatsData (optProp laborTable "@id") = Throw (noResponse "getStatsData")
  /\ exists w',
       processTable sampleInput laborTable freshWorld = (Ret tt, w')
       /\ dataset w'
          = [ tableErrorItem (VStr "0003005798") (VStr "労働力調査")
                (noResponse "getStatsData") "T0" ].
Proof.
  split; [reflexivity |]. split; [reflexivity |].
  destruct (processTable_fetch_failure (api := sampleApi) sampleInput laborTable
              (noResponse "getStatsData") [] freshWorld eq_refl eq_refl)
    as (w' & P & D & _).
  exists w'. split; [exact P | exact D].
Defined.

(** A whole run over the three tables of the sample service: the record of
    the first, the error item of the second, nothing for the third (its
    payload has no value rows), and the summary counting three tables. *)
Example mainLogic_continues_after_failure :
  exists r w',
    mainLogic
      {| searchKeyword := ""; surveyYears := ""; statsField := ""; maxItems := 3;
         includeMetadata := false; outputFormat := structured |}
      (VStr "app-id") freshWorld = (Ret tt, w')
    /\ dataset w'
       = [ r;
           tableErrorItem (VStr "0003005798") (VStr "労働力調査")
             (noResponse "getStatsData") "T2";
           VObj
             [ ("type", VStr "summary");
               ("tablesProcessed", ofNat 3);
               ("totalDataPoints", ofNat 1);
               ("searchCriteria",
                optionsValue
                  {| searchKeyword := ""; surveyYears := ""; statsField := "";
                     maxItems := 3; includeMetadata := false;
                     outputFormat := structured |});
               ("completedAt", VStr "T3") ] ]
    /\ optProp r "sourceTableId" = VStr "0003448738".
Proof. do 2 eexists. split; [vm_compute; reflexivity |]. split; reflexivity. Qed.

(** The first table of the sample service, whose metadata request fails. *)
Lemma processTable_metadata_failure_witness :
  descriptor populationTable = true
  /\ includeMetadata sampleInput = true
  /\ getMetaInfo (optProp populationTable "@id") = Throw (noResponse "getMetaInfo")
  /\ getStatsData (optProp populationTable "@id") = Ret scenarioPayload
  /\ nullish scenarioPayload = false
  /\ exists l w',
       processTable sampleInput populationTable freshWorld = (Ret tt, w')
       /\ dataset w' = l
       /\ fst (normalizeStatisticalData scenarioPayload
                 (VObj [ ("CLASS_INF", VObj []) ]) (VStr "0003448738") 0) = Ret l.
Proof.
  repeat (split; [reflexivity |]).
  destruct (processTable_metadata_failure (api := sampleApi) sampleInput
              populationTable scenarioPayload
              (noResponse "getMetaInfo") freshWorld eq_refl eq_refl eq_refl eq_refl eq_refl)
    as (l & w' & N & P & _ & D & _).
  exists l, w'. split; [exact P |]. split; [exact D | apply N].
Defined.

(** C7 as stated fails: the metadata request fails, and the code [00000]
    of the row still comes out as its label, through the payload's own
    [CLASS_INF]. *)
Lemma processTable_metadata_failure_counterexample :
  includeMetadata sampleInput = true
  /\ getMetaInfo (optProp populationTable "@id") = Throw (noResponse "getMetaInfo")
  /\ exists r w',
       processTable sampleInput populationTable freshWorld = (Ret tt, w')
       /\ dataset w' = [r]
       /\ optProp (optProp (optProp r "metadata") "originalAttributes") "@area" = VStr "00000"
       /\ optProp r "region" = VStr "全国".
Proof.
  split; [reflexivity |]. split; [reflexivity |].
  do 2 eexists. split; [vm_compute; reflexivity |]. repeat split.
Qed.

(** ** The sample-data fallback (C9) *)

Lemma In_slice {X} (x : X) (xs : list X) (n : Z) : In x (slice xs n) -> In x xs.
Proof.
  unfold slice. destruct (n <? 0)%Z; intros H.
  - rewrite <- (firstn_skipn (Z.to_nat (Z.of_nat (length xs) + n)) xs).
    apply in_or_app. now left.
  - rewrite <- (firstn_skipn (Z.to_nat n) xs). apply in_or_app. now left.
Qed.

Section Fallback.
Context {rt : Runtime} {api : EStat}.

Lemma filterDemo_In input data x : In x (filterDemo input data) -> In x data.
Proof.
  unfold filterDemo. intros H. apply In_slice in H.
  destruct (negb (searchKeyword input =? "")); [| exact H].
  now apply filter_In in H.
Qed.

Lemma demoData_untyped a b x : In x (demoData a b) -> optProp x "type" = VUndefined.
Proof. cbn. intros [<- | [<- | []]]; reflexivity. Qed.

Lemma searchWord_param input :
  optProp (buildSearchParams input) "searchWord"
  = if searchKeyword input =? "" then VUndefined else VStr (searchKeyword input).
Proof.
  unfold buildSearchParams.
  destruct (searchKeyword input =? ""), (surveyYears input =? ""),
    (statsField input =? ""); reflexivity.
Qed.

(** On a validated option set the cap of line 232 keeps the first
    [maxItems] of the records the filter of lines 224-231 lets through. *)
Lemma filterDemo_firstn input data :
  validated input ->
  filterDemo input data
  = firstn (Z.to_nat (maxItems input))
      (if searchKeyword input =? "" then data
       else filter (matchesKeyword (toLowerCase (searchKeyword input))) data).
Proof.
  intros [L U]. unfold filterDemo.
  destruct (searchKeyword input =? ""); cbn [negb]; apply slice_firstn; lia.
Qed.

(** What the filter tests on a sample record: the keyword occurs in the
    lower-cased [statName], [category1] or [dataType]. *)
Lemma matchesKeyword_sample a b keyword x :
  In x (demoData a b) ->
  matchesKeyword keyword x = true
  <-> exists f s,
        In f ["statName"; "category1"; "dataType"]
        /\ optProp x f = VStr s
        /\ includes (toLowerCase s) keyword = true.
Proof.
  intros [<- | [<- | []]]; unfold matchesKeyword, lowerField;
    cbn [demoData optProp field lookup String.eqb Ascii.eqb Bool.eqb]; split.
  1, 3: intros H; apply orb_true_iff in H; destruct H as [H | H];
    [apply orb_true_iff in H; destruct H as [H | H] |];
    [exists "statName" | exists "category1" | exists "dataType"];
    eexists; (split; [cbn; tauto |]); (split; [reflexivity | exact H]).
  all: intros (f & s & I & O & H); cbn [In] in I;
    destruct I as [<- | [<- | [<- | []]]];
    cbn [optProp field lookup String.eqb Ascii.eqb Bool.eqb] in O;
    injection O as <-; rewrite H; rewrite ?orb_true_r; reflexivity.
Qed.

(** Which sample records the filter lets through, for the keyword of an
    option set. *)
Lemma matching_sample input a b x :
  In x (demoData a b) ->
  In x (if searchKeyword input =? "" then demoData a b
        else filter (matchesKeyword (toLowerCase (searchKeyword input))) (demoData a b))
  <-> (searchKeyword input = ""
       \/ exists f s,
            In f ["statName"; "category1"; "dataType"]
            /\ optProp x f = VStr s
            /\ includes (toLowerCase s) (toLowerCase (searchKeyword input)) = true).
Proof.
  intros I. destruct (searchKeyword input =? "") eqn:K.
  - apply String.eqb_eq in K. split; [now left | now intros _].
  - apply String.eqb_neq in K. rewrite filter_In, (matchesKeyword_sample a b _ x I).
    split; [intros [_ H]; now right | intros [H | H]; [contradiction | now split]].
Qed.

(** C9.  When the search fails with an error whose message the program
    classifies as an authentication failure, the run ends normally, having
    sent the search alone, and adds to the dataset records of the fixed
    sample of two, then one [demo_summary] item counting them, and nothing
    else: no item tagged [error].  The records are filtered by the keyword
    of the search that failed, the [searchWord] of its request: without one
    the whole sample passes, with one the records in whose lower-cased
    [statName], [category1] or [dataType] the lower-cased keyword occurs;
    the first [maxItems] of the records that pass are emitted, in the order
    of the sample. *)
Theorem mainLogic_auth_fallback (input : options) (estatAppId : value) (e : exn)
    (w : world) :
  validated input ->
  truthy estatAppId = true ->
  getStatsList (buildSearchParams input) = Throw e ->
  authLike (message e) = true ->
  exists sample matching kept w',
    sample = demoData (toISOString (time w)) (toISOString (S (time w)))
    /\ length sample = 2%nat
    /\ matching
       = match optProp (buildSearchParams input) "searchWord" with
         | VStr keyword => filter (matchesKeyword (toLowerCase keyword)) sample
         | _ => sample
         end
    /\ (forall x, In x sample ->
          In x matching
          <-> (searchKeyword input = ""
               \/ exists f s,
                    In f ["statName"; "category1"; "dataType"]
                    /\ optProp x f = VStr s
                    /\ includes (toLowerCase s) (toLowerCase (searchKeyword input))
                       = true))
    /\ kept = firstn (Z.to_nat (maxItems input)) matching
    /\ (length kept <= Z.to_nat (maxItems input))%nat
    /\ (forall x, In x kept -> In x sample)
    /\ mainLogic input estatAppId w = (Ret tt, w')
    /\ requests w' = requests w ++ [StatsList (buildSearchParams input)]
    /\ dataset w'
       = dataset w ++ kept
         ++ [ demoSummary input (length kept) (toISOString (S (S (time w)))) ]
    /\ optProp (demoSummary input (length kept) (toISOString (S (S (time w))))) "type"
       = VStr "demo_summary"
    /\ Forall (fun item => optProp item "type" <> VStr "error")
         (kept ++ [ demoSummary input (length kept) (toISOString (S (S (time w)))) ]).
Proof.
  intros V A F C.
  set (sample := demoData (toISOString (time w)) (toISOString (S (time w)))).
  set (matching := if searchKeyword input =? "" then sample
                   else filter (matchesKeyword (toLowerCase (searchKeyword input))) sample).
  assert (K : filterDemo input sample = firstn (Z.to_nat (maxItems input)) matching)
    by exact (filterDemo_firstn input sample V).
  exists sample, matching, (filterDemo input sample). eexists.
  split; [reflexivity |]. split; [reflexivity |].
  split; [rewrite searchWord_param; subst matching;
          now destruct (searchKeyword input =? "") |].
  split; [intros x; apply matching_sample |].
  split; [exact K |].
  split; [rewrite K, length_firstn; lia |].
  split; [intros x; apply filterDemo_In |].
  split.
  { unfold mainLogic, tryCatch. rewrite A. cbn [negb]. unfold apiRun.
    erewrite bind_Throw; [| unfold send; rewrite F; reflexivity].
    unfold apiFailed. rewrite C. rewrite runDemoMode_run. reflexivity. }
  cbn [dataset time requests]. split; [reflexivity |]. split; [reflexivity |].
  split; [reflexivity |].
  apply Forall_app. split.
  - apply Forall_forall. intros x H.
    rewrite (demoData_untyped _ _ x (filterDemo_In _ _ _ H)). discriminate.
  - constructor; [discriminate | constructor].
Qed.

End Fallback.

(** A refused search under the keyword of the first sample record: the
    second record does not pass. *)
Lemma mainLogic_auth_fallback_witness :
  validated sampleInput
  /\ truthy (VStr "app-id") = true
  /\ authLike "e-Stat API Error (getStatsList): Status 403 - Unknown API error" = true
  /\ exists sample summary w',
       mainLogic (api := refusedApi) sampleInput (VStr "app-id") freshWorld = (Ret tt, w')
       /\ dataset w' = [sample; summary]
       /\ optProp sample "sourceTableId" = VStr "demo_001"
       /\ optProp summary "type" = VStr "demo_summary".
Proof.
  assert (V : validated sampleInput) by (unfold validated; cbn; lia).
  split; [exact V |]. split; [reflexivity |]. split; [reflexivity |].
  destruct (mainLogic_auth_fallback (api := refusedApi) sampleInput (VStr "app-id")
              (Error "e-Stat API Error (getStatsList): Status 403 - Unknown API error")
              freshWorld V eq_refl eq_refl eq_refl)
    as (sample & matching & kept & w' & S & _ & M & _ & K & _ & _ & E & _ & D & _).
  subst sample. vm_compute in M. subst matching. vm_compute in K. subst kept.
  do 2 eexists. exists w'.
  split; [exact E |]. split; [exact D |]. split; reflexivity.
Defined.

(** ** Metadata on every record (C10) *)

(** The normaliser has no access to the options: the record of every value
    row carries the [metadata] object. *)
Lemma recordOf_metadata {rt : Runtime} (rawData id row r : value) :
  recordOf rawData id row r ->
  exists categories,
    optProp r "metadata"
    = VObj [ ("tableTitle", titleOf rawData);
             ("categories", VObj categories);
             ("originalAttributes", row) ].
Proof.
  intros (val & unit & categories & dataType & lu & ea & _ & -> & _).
  now exists categories.
Qed.

(** C10 fails on the code: [includeMetadata] is [false], and the record the
    run emits carries the full [metadata] object all the same. *)
Theorem mainLogic_metadata_not_requested :
  includeMetadata noMetadataInput = false
  /\ exists r summary w',
       mainLogic noMetadataInput (VStr "app-id") freshWorld = (Ret tt, w')
       /\ dataset w' = [r; summary]
       /\ optProp summary "type" = VStr "summary"
       /\ optProp r "metadata"
          = VObj
              [ ("tableTitle", VStr "人口推計");
                ("categories", VObj [ ("area", VStr "全国") ]);
                ("originalAttributes",
                 VObj [ ("@area", VStr "00000"); ("@unit", VStr "人");
                        ("$", VStr "125836021") ]) ].
Proof.
  split; [reflexivity |].
  do 3 eexists. split; [vm_compute; reflexivity |]. repeat split.
Qed.

(** * More of the program: properties *)

(** ** validateInput *)

Lemma clampMaxItems_range (p : parsedInt) : (1 <= clampMaxItems p <= 100)%Z.
Proof.
  destruct p as [| [] | z]; cbn; lia.
Qed.

Lemma textOption_Ret {irt : InputRuntime} (input : value) (f : string) :
  nullish input = false ->
  (exists s, textOption input f = Ret s) <-> textual (optProp input f) = true.
Proof.
  intros N. unfold textOption. rewrite (getProp_value _ _ N). cbn [obind].
  destruct (optProp input f); cbn; split;
    first [ reflexivity | discriminate | intros [? [=]] | eauto ].
Qed.

Section ValidateInputFacts.
Context {rt : Runtime} {irt : InputRuntime}.

Lemma validateInput_range (input : value) (o : options) :
  validateInput input = Ret o -> (1 <= maxItems o <= 100)%Z.
Proof.
  unfold validateInput. intros H.
  repeat obind_inv H. injection H as <-.
  cbn [maxItems]. apply clampMaxItems_range.
Qed.


(** X2.  On an input other than [null] and [undefined], [validateInput]
    returns exactly when the three text options are each absent, [null] or
    a string and [maxItems] can be converted to a string; otherwise it
    throws a TypeError.  Nothing else in the input can make it fail. *)
Theorem validateInput_returns (input : value) :
  nullish input = false ->
  (exists o, validateInput input = Ret o)
  <-> (textual (optProp input "searchKeyword") = true
       /\ textual (optProp input "surveyYears") = true
       /\ textual (optProp input "statsField") = true
       /\ exists digits, toString (optProp input "maxItems") = Ret digits).
Proof.
  intros N. split.
  - intros [o H]. unfold validateInput in H.
    apply obind_Ret in H. destruct H as (k & Hk & H).
    apply obind_Ret in H. destruct H as (y & Hy & H).
    apply obind_Ret in H. destruct H as (f & Hf & H).
    apply obind_Ret in H. destruct H as (m & Hm & H).
    apply obind_Ret in H. destruct H as (d & Hd & H).
    apply getProp_Ret in Hm. subst m.
    repeat split; try (apply (textOption_Ret _ _ N); eauto).
    eauto.
  - intros (K & Y & F & d & D).
    apply (textOption_Ret _ _ N) in K, Y, F.
    destruct K as [k K], Y as [y Y], F as [f F].
    unfold validateInput. rewrite K, Y, F. cbn [obind].
    rewrite !(getProp_value _ _ N). cbn [obind]. rewrite D. cbn [obind]. eauto.
Qed.

(** X3.  [validateInput] is a retraction onto the option sets it accepts:
    applied to the object form of an option set that is already valid (text
    options trimmed, [maxItems] between 1 and 100 and printed and parsed
    back as itself), it returns that option set unchanged. *)
Theorem validateInput_optionsValue (o : options) :
  validated o ->
  trim (searchKeyword o) = searchKeyword o ->
  trim (surveyYears o) = surveyYears o ->
  trim (statsField o) = statsField o ->
  parseInt (numberToString (Fin (maxItems o) 0)) = Integer (maxItems o) ->
  validateInput (optionsValue o) = Ret o.
Proof.
  intros [L U] K Y F P. destruct o as [k y f m i fmt]. cbn in *.
  assert (C : clampMaxItems (Integer m) = m).
  { cbn. destruct (m =? 0)%Z eqn:E; lia. }
  unfold validateInput, textOption, optionsValue.
  cbn [getProp field lookup obind String.eqb Ascii.eqb Bool.eqb searchKeyword
       surveyYears statsField maxItems includeMetadata outputFormat ofZ toString].
  rewrite K. cbn [obind]. rewrite Y. cbn [obind]. rewrite F. cbn [obind].
  rewrite P, C. now destruct i, fmt.
Qed.

End ValidateInputFacts.


Lemma validateInput_returns_witness :
  nullish typedInput = false
  /\ ((exists o, validateInput typedInput = Ret o)
      <-> (textual (optProp typedInput "searchKeyword") = true
           /\ textual (optProp typedInput "surveyYears") = true
           /\ textual (optProp typedInput "statsField") = true
           /\ exists digits, toString (optProp typedInput "maxItems") = Ret digits)).
Proof.
  split; [reflexivity |].
  exact (validateInput_returns typedInput eq_refl).
Defined.

Lemma validateInput_optionsValue_witness :
  validated sampleInput
  /\ validateInput (optionsValue sampleInput) = Ret sampleInput.
Proof.
  assert (V : validated sampleInput) by (unfold validated; cbn; lia).
  split; [exact V |].
  exact (validateInput_optionsValue sampleInput V eq_refl eq_refl eq_refl eq_refl).
Defined.

(** ** handleApiError and the fetchers *)

Lemma toString_Throw {rt : Runtime} (v : value) (e : exn) :
  toString v = Throw e -> e = TypeError_toPrimitive.
Proof.
  revert v e. fix IH 1. intros [| | [] | n | s | items | o] e; cbn; try discriminate.
  - assert (E : forall e',
               (fix each (l : list value) : outcome (list string) :=
                  match l with
                  | [] => Ret []
                  | x :: rest =>
                      obind (if nullish x then Ret "" else toString x)
                        (fun s => obind (each rest) (fun ss => Ret (s :: ss)))
                  end) items = Throw e' -> e' = TypeError_toPrimitive).
    { induction items as [| x rest IHrest]; intros e'; [discriminate |].
      destruct (nullish x).
      - cbn [obind]. destruct (_ rest) eqn:R; cbn [obind]; [discriminate |].
        intros [= <-]. now apply IHrest.
      - destruct (toString x) eqn:X; cbn [obind].
        + destruct (_ rest) eqn:R; cbn [obind]; [discriminate |].
          intros [= <-]. now apply IHrest.
        + intros [= <-]. exact (IH x _ X). }
    destruct (_ items) eqn:R; cbn [obind]; [discriminate |].
    intros [= <-]. now apply E.
  - destruct (lookup "toString" o); [| discriminate]. now intros [= <-].
Qed.

Lemma prefix_app (p s rest : string) : prefix p s = true -> prefix p (s ++ rest) = true.
Proof.
  revert s. induction p as [| c p IH]; intros s; [now destruct s, rest |].
  destruct s as [| d s]; cbn; [discriminate |].
  destruct (ascii_dec c d); [apply IH | discriminate].
Qed.

Lemma includes_unfold (hay needle : string) :
  includes hay needle
  = if prefix needle hay then true
    else match hay with
         | EmptyString => false
         | String _ rest => includes rest needle
         end.
Proof. now destruct hay. Qed.

Lemma includes_app (hay rest needle : string) :
  includes hay needle = true -> includes (hay ++ rest) needle = true.
Proof.
  induction hay as [| c hay IH]; intros H;
    rewrite includes_unfold in H; rewrite (includes_unfold (_ ++ rest)).
  - destruct (prefix needle "") eqn:P; [| discriminate].
    now rewrite (prefix_app _ _ rest P).
  - destruct (prefix needle (String c hay)) eqn:P.
    + now rewrite (prefix_app _ _ rest P).
    + destruct (prefix needle (String c hay ++ rest)); [reflexivity |].
      cbn [append]. now apply IH.
Qed.

Lemma prefixed_authLike (context : string) (e : exn) :
  prefixed context e -> authLike (message e) = true.
Proof.
  intros [rest ->]. unfold authLike, message.
  assert (I : includes ("e-Stat API Error (" ++ context ++ "): " ++ rest) "API" = true)
    by (apply includes_app; reflexivity).
  rewrite I. apply orb_true_r.
Qed.

Section FetcherFacts.
Context {rt : Runtime} {http : Http}.

Lemma handleApiError_cases (error : failure) (context : string) :
  Utils.handleApiError error context = TypeError_toPrimitive
  \/ prefixed context (Utils.handleApiError error context).
Proof.
  unfold Utils.handleApiError.
  destruct (errResponse error) as [[status data] |].
  - cbv zeta. set (apiErrorMsg := or_ _ _).
    destruct (toString status) eqn:S; [| left; now apply toString_Throw in S].
    destruct (toString apiErrorMsg) eqn:A; [| left; now apply toString_Throw in A].
    right. eexists. reflexivity.
  - right. destruct (errRequest error); eexists; reflexivity.
Qed.

End FetcherFacts.

Section HandleApiError.
Context {rt : Runtime} {http : Http}.

(** X4.  Whatever the failure and the context, the exception
    [handleApiError] throws is an [Error] whose message starts with
    [e-Stat API Error (context): ], and therefore passes the test
    [mainLogic] applies to recognise an authentication failure; the one
    exception is a TypeError, when the server answered with a status or an
    error message that cannot be converted to a string. *)
Theorem handleApiError_authLike (error : failure) (context : string) :
  (prefixed context (Utils.handleApiError error context)
   /\ authLike (message (Utils.handleApiError error context)) = true)
  \/ (Utils.handleApiError error context = TypeError_toPrimitive
      /\ errResponse error <> None).
Proof.
  destruct (handleApiError_cases error context) as [T | P].
  - right. split; [exact T |].
    unfold Utils.handleApiError in T. destruct (errResponse error); [discriminate |].
    now destruct (errRequest error).
  - left. split; [exact P | exact (prefixed_authLike _ _ P)].
Qed.

Lemma getStatsList_Throw (params : value) (e : exn) :
  Utils.getStatsList params = Throw e ->
  e = TypeError_toPrimitive \/ prefixed "getStatsList" e.
Proof.
  unfold Utils.getStatsList. destruct (get _ _) as [error | data].
  - intros [= <-]. apply handleApiError_cases.
  - destruct (Utils.accepted data "GET_STATS_LIST"); [discriminate |].
    intros [= <-]. apply handleApiError_cases.
Qed.

End HandleApiError.

(** ** The branches of mainLogic *)

Section Branches.
Context {rt : Runtime} {api : EStat}.

Lemma search_failure (input : options) (estatAppId : value) (e : exn) (w : world) :
  truthy estatAppId = true ->
  getStatsList (buildSearchParams input) = Throw e ->
  mainLogic input estatAppId w
  = apiFailed input e
      {| time := time w; dataset := dataset w;
         requests := requests w ++ [StatsList (buildSearchParams input)];
         totalDataPoints := totalDataPoints w; processedTables := processedTables w |}.
Proof.
  intros A F. unfold mainLogic, tryCatch. rewrite A. cbn [negb]. unfold apiRun.
  erewrite bind_Throw; [| unfold send; rewrite F; reflexivity]. reflexivity.
Qed.

Lemma search_failure_authLike (input : options) (estatAppId : value) (e : exn)
    (w : world) :
  truthy estatAppId = true ->
  getStatsList (buildSearchParams input) = Throw e ->
  authLike (message e) = true ->
  exists w',
    mainLogic input estatAppId w = (Ret tt, w')
    /\ dataset w'
       = dataset w
         ++ filterDemo input (demoData (toISOString (time w)) (toISOString (S (time w))))
         ++ [ demoSummary input
                (length (filterDemo input
                           (demoData (toISOString (time w)) (toISOString (S (time w))))))
                (toISOString (S (S (time w)))) ].
Proof.
  intros A F C. rewrite (search_failure _ _ _ _ A F).
  unfold apiFailed. rewrite C, runDemoMode_run. eexists. split; reflexivity.
Qed.

End Branches.

(** X5.  Over the HTTP client, a search that fails never produces an
    [error] item: whatever went wrong (no response, a refusal, a status
    other than ['0']), the exception carries the prefix of [handleApiError],
    the run takes it for an authentication failure and ends normally with
    the sample records and the [demo_summary] item only.  The one failure
    that escapes this is the TypeError of a server answer that cannot be
    converted to a string. *)
Theorem mainLogic_http_search_failure {rt : Runtime} (http : Http) (input : options)
    (estatAppId : value) (e : exn) (w : world) :
  truthy estatAppId = true ->
  Utils.getStatsList (buildSearchParams input) = Throw e ->
  e <> TypeError_toPrimitive ->
  prefixed "getStatsList" e
  /\ exists w',
       mainLogic (api := httpApi http) input estatAppId w = (Ret tt, w')
       /\ dataset w'
          = dataset w
            ++ filterDemo input (demoData (toISOString (time w)) (toISOString (S (time w))))
            ++ [ demoSummary input
                   (length (filterDemo input
                              (demoData (toISOString (time w)) (toISOString (S (time w))))))
                   (toISOString (S (S (time w)))) ]
       /\ requests w' = requests w ++ [StatsList (buildSearchParams input)].
Proof.
  intros A F N.
  destruct (getStatsList_Throw _ _ F) as [T | P]; [contradiction |].
  split; [exact P |].
  pose proof (search_failure (api := httpApi http) input estatAppId e w A F) as E.
  unfold apiFailed in E. rewrite (prefixed_authLike _ _ P), runDemoMode_run in E.
  eexists. split; [exact E |]. split; reflexivity.
Qed.

(** A search refused with status 403. *)
Lemma mainLogic_http_search_failure_witness :
  truthy (VStr "app-id") = true
  /\ Utils.getStatsList (http := forbiddenHttp) (buildSearchParams sampleInput)
     = Throw (Error "e-Stat API Error (getStatsList): Status 403 - Unknown API error")
  /\ exists sample summary w',
       mainLogic (api := httpApi forbiddenHttp) sampleInput (VStr "app-id") freshWorld
       = (Ret tt, w')
       /\ dataset w' = [sample; summary]
       /\ optProp summary "type" = VStr "demo_summary".
Proof.
  split; [reflexivity |]. split; [reflexivity |].
  destruct (mainLogic_http_search_failure (rt := sampleRuntime) forbiddenHttp sampleInput (VStr "app-id")
              (Error "e-Stat API Error (getStatsList): Status 403 - Unknown API error")
              freshWorld eq_refl eq_refl ltac:(discriminate))
    as (_ & w' & E & D & _).
  do 2 eexists. exists w'. split; [exact E |]. split; [exact D | reflexivity].
Defined.

Lemma filterDemo_length {rt : Runtime} (input : options) (data : list value) :
  validated input ->
  (length (filterDemo input data) <= length data)%nat
  /\ (length (filterDemo input data) <= Z.to_nat (maxItems input))%nat.
Proof.
  intros [L U]. unfold filterDemo.
  set (kept := if negb (searchKeyword input =? "") then _ else data).
  assert (K : (length kept <= length data)%nat).
  { subst kept. destruct (negb _); [apply filter_length_le | apply Nat.le_refl]. }
  destruct (slice_firstn kept (maxItems input)) as [-> B]; [lia |].
  split; [| exact B]. rewrite length_firstn. lia.
Qed.

Section DemoMode.
Context {rt : Runtime} {api : EStat}.

(** X6.  Without an application id the run never contacts e-Stat: it sends
    no request, ends normally, and appends the sample records that pass the
    keyword filter, followed by one [demo_summary] item whose
    [demoDataPoints] is their number.  Without a keyword the whole sample
    of two passes; with one, the records in whose lower-cased [statName],
    [category1] or [dataType] the lower-cased keyword occurs.  The first
    [maxItems] of the records that pass are appended, in the order of the
    sample: at most two, and at most [maxItems]. *)
Theorem mainLogic_demo_mode (input : options) (estatAppId : value) (w : world) :
  validated input ->
  truthy estatAppId = false ->
  exists sample matching kept w',
    sample = demoData (toISOString (time w)) (toISOString (S (time w)))
    /\ length sample = 2%nat
    /\ matching
       = (if searchKeyword input =? "" then sample
          else filter (matchesKeyword (toLowerCase (searchKeyword input))) sample)
    /\ (forall x, In x sample ->
          In x matching
          <-> (searchKeyword input = ""
               \/ exists f s,
                    In f ["statName"; "category1"; "dataType"]
                    /\ optProp x f = VStr s
                    /\ includes (toLowerCase s) (toLowerCase (searchKeyword input))
                       = true))
    /\ kept = firstn (Z.to_nat (maxItems input)) matching
    /\ mainLogic input estatAppId w = (Ret tt, w')
    /\ requests w' = requests w
    /\ dataset w'
       = dataset w ++ kept ++ [ demoSummary input (length kept) (toISOString (S (S (time w)))) ]
    /\ optProp (demoSummary input (length kept) (toISOString (S (S (time w)))))
         "demoDataPoints" = ofNat (length kept)
    /\ (forall x, In x kept -> In x sample)
    /\ (length kept <= 2)%nat
    /\ (length kept <= Z.to_nat (maxItems input))%nat.
Proof.
  intros V A.
  set (sample := demoData (toISOString (time w)) (toISOString (S (time w)))).
  exists sample. eexists. exists (filterDemo input sample). eexists.
  split; [reflexivity |]. split; [reflexivity |]. split; [reflexivity |].
  split; [intros x; apply matching_sample |].
  split; [exact (filterDemo_firstn input sample V) |].
  split.
  { unfold mainLogic. rewrite A. cbn [negb]. apply runDemoMode_run. }
  cbn [requests dataset]. split; [reflexivity |]. split; [reflexivity |].
  split; [reflexivity |]. split; [intros x; apply filterDemo_In |].
  destruct (filterDemo_length input sample V) as [B1 B2].
  split; [exact B1 | exact B2].
Qed.

(** X7.  When the search succeeds and finds no table, the run appends
    exactly one item, the message that nothing was found together with the
    search parameters, and sends no other request than the search: it
    neither falls back to the sample records nor writes a summary. *)
Theorem mainLogic_no_tables (input : options) (estatAppId : value) (w : world) :
  truthy estatAppId = true ->
  getStatsList (buildSearchParams input) = Ret [] ->
  exists w',
    mainLogic input estatAppId w = (Ret tt, w')
    /\ requests w' = requests w ++ [StatsList (buildSearchParams input)]
    /\ dataset w'
       = dataset w
         ++ [ VObj
                [ ("message",
                   VStr "No statistical tables found for the given search criteria");
                  ("searchParams", buildSearchParams input);
                  ("extractedAt", VStr (toISOString (time w))) ] ].
Proof.
  intros A F. eexists. split.
  { unfold mainLogic, tryCatch. rewrite A. cbn [negb]. unfold apiRun.
    rewrite (bind_Ret _ _ w _ _ (send_Ret _ _ _ w F)). cbn [length Nat.eqb].
    rewrite (bind_Ret date _ _ _ _ eq_refl). reflexivity. }
  split; reflexivity.
Qed.

(** X8.  When the [try] block of [mainLogic] fails with an exception whose
    message contains none of [403], [401] and [API], the items it had
    already emitted stay in the dataset; the run then appends one [error]
    item carrying the message and the option set, then the sample records
    and the [demo_summary] item, and ends normally. *)
Theorem mainLogic_other_failure (input : options) (estatAppId : value) (e : exn)
    (w w1 : world) :
  truthy estatAppId = true ->
  apiRun input w = (Throw e, w1) ->
  authLike (message e) = false ->
  exists kept w',
    kept = filterDemo input
             (demoData (toISOString (S (time w1))) (toISOString (S (S (time w1)))))
    /\ mainLogic input estatAppId w = (Ret tt, w')
    /\ dataset w'
       = dataset w1
         ++ [ VObj
                [ ("type", VStr "error");
                  ("error", VStr (message e));
                  ("message",
                   VStr "An error occurred while processing. Falling back to demo mode.");
                  ("input", optionsValue input);
                  ("extractedAt", VStr (toISOString (time w1))) ] ]
         ++ kept
         ++ [ demoSummary input (length kept) (toISOString (S (S (S (time w1))))) ].
Proof.
  intros A F C. eexists. eexists. split; [reflexivity |]. split.
  { unfold mainLogic. rewrite A. cbn [negb]. unfold tryCatch. rewrite F.
    unfold apiFailed. rewrite C.
    rewrite (bind_Ret date _ w1 _ _ eq_refl).
    rewrite (bind_Ret (pushData _) _ _ _ _ eq_refl).
    rewrite runDemoMode_run. reflexivity. }
  cbn [dataset time]. now rewrite <- app_assoc.
Qed.

End DemoMode.

(** No application id, and the keyword of the first sample record: the
    second record does not pass. *)
Lemma mainLogic_demo_mode_witness :
  validated sampleInput
  /\ truthy VUndefined = false
  /\ exists sample summary w',
       mainLogic sampleInput VUndefined freshWorld = (Ret tt, w')
       /\ requests w' = []
       /\ dataset w' = [sample; summary]
       /\ optProp sample "sourceTableId" = VStr "demo_001"
       /\ optProp summary "demoDataPoints" = ofNat 1.
Proof.
  assert (V : validated sampleInput) by (unfold validated; cbn; lia).
  split; [exact V |]. split; [reflexivity |].
  destruct (mainLogic_demo_mode (api := sampleApi) sampleInput VUndefined freshWorld
              V eq_refl)
    as (sample & matching & kept & w' & S & _ & M & _ & K & E & R & D & _).
  subst sample. vm_compute in M. subst matching. vm_compute in K. subst kept.
  do 2 eexists. exists w'. split; [exact E |]. split; [exact R |].
  split; [exact D |]. split; reflexivity.
Defined.

Lemma mainLogic_no_tables_witness :
  truthy (VStr "app-id") = true
  /\ exists item w',
       mainLogic (api := emptyApi) sampleInput (VStr "app-id") freshWorld = (Ret tt, w')
       /\ dataset w' = [item]
       /\ optProp (optProp item "searchParams") "limit" = ofZ 4.
Proof.
  split; [reflexivity |].
  destruct (mainLogic_no_tables (api := emptyApi) sampleInput (VStr "app-id") freshWorld
              eq_refl eq_refl)
    as (w' & E & _ & D).
  eexists. exists w'. split; [exact E |]. split; [exact D | reflexivity].
Defined.

(** The second table the search returned is [null]: the record of the
    first table stays, and the sample record follows the [error] item. *)
Lemma mainLogic_other_failure_witness :
  truthy (VStr "app-id") = true
  /\ authLike (message (TypeError_read VNull "@id")) = false
  /\ exists record error sample summary w',
       mainLogic (api := nullTableApi) sampleInput (VStr "app-id") freshWorld = (Ret tt, w')
       /\ dataset w' = [record; error; sample; summary]
       /\ optProp record "sourceTableId" = VStr "0003448738"
       /\ optProp error "error" = VStr "Cannot read properties of null (reading '@id')"
       /\ optProp sample "sourceTableId" = VStr "demo_001"
       /\ optProp summary "type" = VStr "demo_summary".
Proof.
  split; [reflexivity |]. split; [reflexivity |].
  destruct (mainLogic_other_failure (api := nullTableApi) sampleInput (VStr "app-id")
              (TypeError_read VNull "@id") freshWorld
              (snd (apiRun (api := nullTableApi) sampleInput freshWorld))
              eq_refl eq_refl eq_refl)
    as (kept & w' & K & E & D).
  vm_compute in K. subst kept. vm_compute in D.
  do 4 eexists. exists w'. split; [exact E |]. split; [exact D |].
  repeat split.
Defined.

(** ** What a run leaves in the dataset *)

Section Keeps.
Variable R : world -> world -> Prop.
Hypothesis R_refl : forall w, R w w.
Hypothesis R_trans : forall w1 w2 w3, R w1 w2 -> R w2 w3 -> R w1 w3.

Lemma keeps_ret {A} (a : A) : keeps R (ret a).
Proof. intros w o w' [= <- <-]. apply R_refl. Qed.

Lemma keeps_lift {A} (o : outcome A) : keeps R (lift o).
Proof. intros w o' w' [= <- <-]. apply R_refl. Qed.

Lemma keeps_bind {A B} (c : M world A) (f : A -> M world B) :
  keeps R c -> (forall a, keeps R (f a)) -> keeps R (bind c f).
Proof.
  intros Hc Hf w o w'. unfold bind.
  destruct (c w) as [[a | e] w1] eqn:E; intros H.
  - exact (R_trans _ _ _ (Hc _ _ _ E) (Hf _ _ _ _ H)).
  - injection H as <- <-. exact (Hc _ _ _ E).
Qed.

Lemma keeps_tryCatch {A} (c : M world A) (h : exn -> M world A) :
  keeps R c -> (forall e, keeps R (h e)) -> keeps R (tryCatch c h).
Proof.
  intros Hc Hh w o w'. unfold tryCatch.
  destruct (c w) as [[a | e] w1] eqn:E; intros H.
  - injection H as <- <-. exact (Hc _ _ _ E).
  - exact (R_trans _ _ _ (Hc _ _ _ E) (Hh _ _ _ _ H)).
Qed.

Lemma keeps_forEach {X} (f : X -> M world unit) (xs : list X) :
  (forall x, keeps R (f x)) -> keeps R (forEach xs f).
Proof.
  intros Hf. induction xs as [| x xs IH]; cbn [forEach].
  - apply keeps_ret.
  - apply keeps_bind; [apply Hf | intros _; apply IH].
Qed.

End Keeps.

Lemma keeps_weaken (R Q : world -> world -> Prop) {A} (c : M world A) :
  (forall w w', R w w' -> Q w w') -> keeps R c -> keeps Q c.
Proof. intros I K w o w' H. exact (I _ _ (K _ _ _ H)). Qed.

Lemma tallies_same (w w' : world) :
  dataset w' = dataset w -> totalDataPoints w' = totalDataPoints w ->
  processedTables w' = processedTables w -> tallies w w'.
Proof.
  intros D T P. split; [exact P |]. exists []. cbn.
  now rewrite app_nil_r, Nat.add_0_r.
Qed.

Lemma tallies_refl (w : world) : tallies w w.
Proof. now apply tallies_same. Qed.

Lemma tallies_trans (w1 w2 w3 : world) : tallies w1 w2 -> tallies w2 w3 -> tallies w1 w3.
Proof.
  intros (P1 & i1 & D1 & T1) (P2 & i2 & D2 & T2).
  split; [congruence |]. exists (i1 ++ i2).
  rewrite D2, D1, T2, T1, filter_app, length_app, <- app_assoc. split; [reflexivity | lia].
Qed.

Lemma tallies_appends (w w' : world) : tallies w w' -> appends w w'.
Proof. intros (_ & items & D & _). now exists items. Qed.

Lemma appends_refl (w : world) : appends w w.
Proof. exists []. now rewrite app_nil_r. Qed.

Lemma appends_trans (w1 w2 w3 : world) : appends w1 w2 -> appends w2 w3 -> appends w1 w3.
Proof.
  intros (i1 & D1) (i2 & D2). exists (i1 ++ i2). now rewrite D2, D1, <- app_assoc.
Qed.

Lemma filter_all {X} (p : X -> bool) (l : list X) :
  Forall (fun x => p x = true) l -> filter p l = l.
Proof. induction 1 as [| x l H _ IH]; cbn; [reflexivity |]. now rewrite H, IH. Qed.

Section Tally.
Context {rt : Runtime} {api : EStat}.

Lemma normalizeStatisticalData_nullish (rawData metadata id : value) (now : nat) :
  nullish rawData = true ->
  normalizeStatisticalData rawData metadata id now
  = (Throw (TypeError_read rawData "TABLE_INF"), now).
Proof. destruct rawData; cbn; intros H; try discriminate H; reflexivity. Qed.

Lemma recordOf_untyped (rawData id row r : value) :
  recordOf rawData id row r -> untyped r = true.
Proof. intros (val & unit & c & d & lu & ea & _ & -> & _). reflexivity. Qed.

Lemma placeholderOf_untyped (rawData id : value) (e : exn) (r : value) :
  placeholderOf rawData id e r -> untyped r = true.
Proof. intros (lu & ea & ->). reflexivity. Qed.

Lemma normalizeStatisticalData_untyped (rawData metadata id : value) (now : nat)
    (l : list value) :
  fst (normalizeStatisticalData rawData metadata id now) = Ret l ->
  Forall (fun r => untyped r = true) l.
Proof.
  intros H. destruct (nullish rawData) eqn:N.
  { now rewrite (normalizeStatisticalData_nullish _ _ _ _ N) in H. }
  destruct (normalizeStatisticalData_shape rawData metadata id now N)
    as (recs & F & [(_ & E & _) | ((e & s & ph & _ & E & P) & _)]);
    rewrite E in H; injection H as <-.
  - exact (Forall2_right _ _ _ _ (recordOf_untyped rawData id) F).
  - apply Forall_app. split.
    + exact (Forall2_right _ _ _ _ (recordOf_untyped rawData id) F).
    + constructor; [exact (placeholderOf_untyped _ _ _ _ P) | constructor].
Qed.

Lemma tallies_date : keeps tallies date.
Proof. intros w o w' [= <- <-]. now apply tallies_same. Qed.

Lemma tallies_send {A} (r : request) (answer : outcome A) : keeps tallies (send r answer).
Proof. intros w o w' [= <- <-]. now apply tallies_same. Qed.

Lemma tallies_pushData (item : value) :
  untyped item = false -> keeps tallies (pushData item).
Proof.
  intros U w o w' [= <- <-]. split; [reflexivity |]. exists [item].
  cbn. rewrite U. cbn. now rewrite Nat.add_0_r.
Qed.

Lemma tallies_records (statsData metadata id : value) :
  keeps tallies
    (normalizedData <- normalize statsData metadata id ;;
     forEach normalizedData (fun dataPoint => pushData dataPoint ;;; countDataPoint)).
Proof.
  intros w o w'. unfold bind at 1. rewrite normalize_run.
  destruct (fst (normalizeStatisticalData statsData metadata id (time w))) as [l | e] eqn:E.
  - rewrite forEach_push_count. intros [= <- <-]. cbn.
    split; [reflexivity |]. exists l.
    now rewrite (filter_all _ _ (normalizeStatisticalData_untyped _ _ _ _ _ E)).
  - intros [= <- <-]. now apply tallies_same.
Qed.

Ltac tally_steps :=
  repeat first
    [ apply tallies_date | apply tallies_send | apply tallies_records
    | apply tallies_pushData; reflexivity
    | apply (keeps_lift tallies tallies_refl) | apply (keeps_ret tallies tallies_refl)
    | apply (keeps_tryCatch tallies tallies_trans); [| intros ?]
    | apply (keeps_bind tallies tallies_trans); [| intros ?] ].

Lemma tableFailed_tallies (table : value) (e : exn) : keeps tallies (tableFailed table e).
Proof. unfold tableFailed. tally_steps. Qed.

(** One iteration counts its table once, whether it fails or not, and
    counts the records it emits. *)
Lemma processTable_tally (input : options) (table : value) (w : world) o (w' : world) :
  processTable input table w = (o, w') ->
  processedTables w' = S (processedTables w)
  /\ exists items,
       dataset w' = dataset w ++ items
       /\ totalDataPoints w' = totalDataPoints w + length (filter untyped items).
Proof.
  assert (B : forall o1 w1, tableBody input table w = (o1, w1) ->
                            tallies (snd (countTable w)) w1).
  { intros o1 w1. unfold tableBody.
    rewrite (bind_Ret countTable _ w _ tt eq_refl).
    match goal with
    | |- ?c ?w0 = _ -> _ => cut (keeps tallies c); [intros K H; exact (K _ _ _ H) |]
    end.
    destruct (includeMetadata input), (wantsRaw input), (wantsStructured input);
      tally_steps. }
  unfold processTable, tryCatch.
  destruct (tableBody input table w) as [[[] | e] w1] eqn:E; intros H.
  - injection H as <- <-. destruct (B _ _ eq_refl) as (P & items & D & T).
    split; [exact P |]. now exists items.
  - pose proof (tableFailed_tallies _ _ _ _ _ H) as F.
    destruct (tallies_trans _ _ _ (B _ _ eq_refl) F) as (P & items & D & T).
    split; [exact P |]. now exists items.
Qed.

Lemma forEach_processTable_tally (input : options) (tables : list value) :
  forall w o w',
    forEach tables (processTable input) w = (o, w') ->
    (o = Ret tt -> processedTables w' = processedTables w + length tables)
    /\ exists items,
         dataset w' = dataset w ++ items
         /\ totalDataPoints w' = totalDataPoints w + length (filter untyped items).
Proof.
  induction tables as [| table rest IH]; intros w o w'; cbn [forEach].
  - intros [= <- <-]. split; [cbn; lia |]. exists []. cbn.
    now rewrite app_nil_r, Nat.add_0_r.
  - unfold bind. destruct (processTable input table w) as [[[] | e] w1] eqn:E; intros H.
    + apply processTable_tally in E. destruct E as (P1 & i1 & D1 & T1).
      apply IH in H. destruct H as (P2 & i2 & D2 & T2).
      split; [intros O; rewrite (P2 O), P1; cbn; lia |].
      exists (i1 ++ i2).
      rewrite D2, D1, T2, T1, filter_app, length_app, <- app_assoc.
      split; [reflexivity | lia].
    + injection H as <- <-. apply processTable_tally in E.
      destruct E as (_ & items & D & T). split; [discriminate |]. now exists items.
Qed.

End Tally.

Section Summary.
Context {rt : Runtime} {api : EStat}.

Lemma processTable_Ret (input : options) (table : value) (w : world) :
  descriptor table = true -> exists w', processTable input table w = (Ret tt, w').
Proof.
  intros D. destruct (descriptor_reads table D) as (Hid & Htitle & _ & [s Hs]).
  unfold processTable, tryCatch.
  destruct (tableBody input table w) as [[[] | e] w1]; [eauto |].
  unfold tableFailed.
  rewrite (bind_Ret _ _ _ _ _ (lift_Ret _ _ _ Hid)).
  rewrite (bind_Ret _ _ _ _ _ (lift_Ret _ _ _ Hs)).
  rewrite (bind_Ret _ _ _ _ _ (lift_Ret _ _ _ Htitle)).
  rewrite (bind_Ret date _ _ _ _ eq_refl). eexists. reflexivity.
Qed.

Lemma forEach_processTable_Ret (input : options) (tables : list value) :
  Forall (fun table => descriptor table = true) tables ->
  forall w, exists w', forEach tables (processTable input) w = (Ret tt, w').
Proof.
  induction 1 as [| table rest D _ IH]; intros w; [now exists w |].
  destruct (processTable_Ret input table w D) as [w1 E].
  rewrite (forEach_cons_Ret _ _ _ _ _ E). apply IH.
Qed.

(** The run over a search result that is not empty: the loop, then the
    summary if the loop ends normally. *)
Lemma apiRun_tables (input : options) (statsList : list value) (w : world) o
    (w1 : world) :
  getStatsList (buildSearchParams input) = Ret statsList ->
  (length statsList =? 0)%nat = false ->
  apiRun input w = (o, w1) ->
  exists w0 ol w2 items,
    forEach (slice statsList (maxItems input)) (processTable input) w0 = (ol, w2)
    /\ dataset w2 = dataset w ++ items
    /\ totalDataPoints w2 = length (filter untyped items)
    /\ match ol with
       | Ret _ =>
           o = Ret tt
           /\ processedTables w2 = length (slice statsList (maxItems input))
           /\ dataset w1
              = dataset w2
                ++ [ VObj
                       [ ("type", VStr "summary");
                         ("tablesProcessed", ofNat (processedTables w2));
                         ("totalDataPoints", ofNat (totalDataPoints w2));
                         ("searchCriteria", optionsValue input);
                         ("completedAt", VStr (toISOString (time w2))) ] ]
       | Throw e => o = Throw e /\ w1 = w2
       end.
Proof.
  intros F N. unfold apiRun.
  rewrite (bind_Ret _ _ w _ _ (send_Ret _ _ _ w F)), N.
  rewrite (bind_Ret declareCounters _ _ _ tt eq_refl).
  match goal with |- context [forEach _ _ ;;; _] => unfold bind at 1 end.
  match goal with
  | |- context [forEach ?ts ?f ?w0] =>
      destruct (forEach ts f w0) as [[[] | e] w2] eqn:L;
      pose proof (forEach_processTable_tally _ _ _ _ _ L) as (P & items & D & T);
      cbv beta iota; intros H;
      exists w0, (fst (forEach ts f w0)), w2, items; rewrite L; cbn [fst]
  end; cbn [dataset totalDataPoints processedTables] in D, T, P.
  - rewrite (bind_Ret counters _ _ _ _ eq_refl), (bind_Ret date _ _ _ _ eq_refl) in H.
    injection H as <- <-. split; [reflexivity |]. split; [exact D |].
    split; [exact T |]. split; [reflexivity |]. split; [exact (P eq_refl) |].
    reflexivity.
  - injection H as <- <-. repeat split; assumption.
Qed.

Lemma apiRun_ends (input : options) (w : world) o (w1 : world) :
  apiRun input w = (o, w1) ->
  match o with
  | Ret _ => exists items last, dataset w1 = dataset w ++ items ++ [last] /\ closing last = true
  | Throw _ => appends w w1
  end.
Proof.
  destruct (getStatsList (buildSearchParams input)) as [statsList | e] eqn:F.
  - destruct (length statsList =? 0)%nat eqn:N.
    + unfold apiRun. rewrite (bind_Ret _ _ w _ _ (send_Ret _ _ _ w F)), N.
      rewrite (bind_Ret date _ _ _ _ eq_refl). intros [= <- <-].
      exists []. eexists. split; reflexivity.
    + intros H.
      destruct (apiRun_tables _ _ _ _ _ F N H) as (w0 & [[] | e] & w2 & items & _ & D & _ & E).
      * destruct E as (-> & _ & E). exists items. eexists.
        rewrite E, D, <- app_assoc. split; reflexivity.
      * destruct E as (-> & ->). now exists items.
  - unfold apiRun. erewrite bind_Throw; [| unfold send; rewrite F; reflexivity].
    intros [= <- <-]. exists []. cbn. now rewrite app_nil_r.
Qed.

Lemma closing_after {X} (base items kept : list X) (last : X) :
  (base ++ items) ++ kept ++ [last] = base ++ (items ++ kept) ++ [last].
Proof. now rewrite <- !app_assoc. Qed.

Lemma closing_after_error {X} (base items kept : list X) (error last : X) :
  ((base ++ items) ++ [error]) ++ kept ++ [last]
  = base ++ (items ++ [error] ++ kept) ++ [last].
Proof. now rewrite <- !app_assoc. Qed.

Lemma mainLogic_ends (input : options) (estatAppId : value) (w : world) :
  exists items last w',
    mainLogic input estatAppId w = (Ret tt, w')
    /\ dataset w' = dataset w ++ items ++ [last]
    /\ closing last = true.
Proof.
  unfold mainLogic. destruct (negb (truthy estatAppId)).
  - rewrite runDemoMode_run. do 3 eexists. split; [reflexivity |]. split; reflexivity.
  - unfold tryCatch. destruct (apiRun input w) as [[[] | e] w1] eqn:R;
      apply apiRun_ends in R.
    + destruct R as (items & last & D & C). now exists items, last, w1.
    + destruct R as [items D]. unfold apiFailed. destruct (authLike (message e)).
      * rewrite runDemoMode_run. do 3 eexists.
        split; [reflexivity |]. cbn [dataset]. rewrite D.
        split; [apply closing_after | reflexivity].
      * rewrite (bind_Ret date _ w1 _ _ eq_refl).
        rewrite (bind_Ret (pushData _) _ _ _ _ eq_refl).
        rewrite runDemoMode_run. do 3 eexists.
        split; [reflexivity |]. cbn [dataset time]. rewrite D.
        split; [apply closing_after_error | reflexivity].
Qed.

(** X9.  Every run ends normally, only appends to the dataset, and appends
    at least one item; the last item it appends tells how the run ended:
    the [summary] of the tables, the [demo_summary] of the sample data, or
    the message that the search found no table. *)
Theorem mainLogic_closing (input : options) (estatAppId : value) (w : world) :
  exists items last w',
    mainLogic input estatAppId w = (Ret tt, w')
    /\ dataset w' = dataset w ++ items ++ [last]
    /\ closing last = true.
Proof. apply mainLogic_ends. Qed.

(** X10.  When the search finds tables (objects with scalar id and title,
    as e-Stat describes them), the run ends with a [summary] item that
    agrees with what it did: [tablesProcessed] is the number of tables
    attempted, the smaller of [maxItems] and the number found, counting the
    tables that failed; [totalDataPoints] is the number of records in the
    dataset, the items appended before the summary that are neither [raw]
    nor [error] items. *)
Theorem mainLogic_summary (input : options) (estatAppId : value)
    (statsList : list value) (w : world) :
  validated input ->
  truthy estatAppId = true ->
  getStatsList (buildSearchParams input) = Ret statsList ->
  statsList <> [] ->
  Forall (fun table => descriptor table = true) statsList ->
  exists items summary w',
    mainLogic input estatAppId w = (Ret tt, w')
    /\ dataset w' = dataset w ++ items ++ [summary]
    /\ optProp summary "type" = VStr "summary"
    /\ optProp summary "tablesProcessed"
       = ofNat (Nat.min (Z.to_nat (maxItems input)) (length statsList))
    /\ optProp summary "totalDataPoints" = ofNat (length (filter untyped items))
    /\ optProp summary "searchCriteria" = optionsValue input.
Proof.
  intros [V1 V2] A F NE D.
  assert (N : (length statsList =? 0)%nat = false).
  { destruct statsList; [contradiction | reflexivity]. }
  destruct (slice_firstn statsList (maxItems input)) as [S _]; [lia |].
  assert (DS : Forall (fun table => descriptor table = true)
                 (slice statsList (maxItems input))).
  { apply Forall_forall. intros t I. apply In_slice in I.
    revert t I. now apply Forall_forall. }
  unfold mainLogic, tryCatch. rewrite A. cbn [negb].
  destruct (apiRun input w) as [o w1] eqn:R.
  destruct (apiRun_tables _ _ _ _ _ F N R) as (w0 & ol & w2 & items & L & Dw & T & E).
  destruct (forEach_processTable_Ret input _ DS w0) as [w2' L'].
  rewrite L' in L. injection L as <- <-. destruct E as (-> & P & E).
  exists items. eexists. exists w1. split; [reflexivity |].
  split; [rewrite E, Dw, <- app_assoc; reflexivity |].
  split; [reflexivity |]. cbn. rewrite P, T, S, length_firstn.
  repeat split.
Qed.

End Summary.

Lemma mainLogic_summary_witness :
  validated sampleInput
  /\ truthy (VStr "app-id") = true
  /\ getStatsList (buildSearchParams sampleInput)
     = Ret [ populationTable; laborTable; householdTable ]
  /\ exists record failed summary w',
       mainLogic sampleInput (VStr "app-id") freshWorld = (Ret tt, w')
       /\ dataset w' = [record; failed; summary]
       /\ untyped record = true
       /\ optProp failed "type" = VStr "error"
       /\ optProp summary "tablesProcessed" = ofNat 2
       /\ optProp summary "totalDataPoints" = ofNat 1.
Proof.
  assert (V : validated sampleInput) by (unfold validated; cbn; lia).
  split; [exact V |]. split; [reflexivity |]. split; [reflexivity |].
  destruct (mainLogic_summary (api := sampleApi) sampleInput (VStr "app-id")
              [ populationTable; laborTable; householdTable ] freshWorld
              V eq_refl eq_refl ltac:(discriminate)
              ltac:(repeat constructor))
    as (items & summary & w' & E & D & _ & P & T & _).
  pose proof E as C. vm_compute in C. injection C as <-.
  cbn [dataset freshWorld app] in D.
  destruct items as [| record [| failed [| extra items]]];
    try discriminate D; [| destruct items; discriminate D].
  injection D as <- <- <-.
  do 3 eexists. eexists. split; [exact E |]. split; [reflexivity |].
  split; [reflexivity |]. split; [reflexivity |]. split; [exact P | exact T].
Defined.

(** ** One table, fetched *)

Section Fetched.
Context {rt : Runtime} {api : EStat}.

(** The iteration of a descriptor up to the answer of the data fetch. *)
Lemma tableBody_fetched (input : options) (table payload : value) (w : world) :
  descriptor table = true ->
  getStatsData (optProp table "@id") = Ret payload ->
  tableBody input table w
  = ((if wantsRaw input then
        extractedAt <- date ;;
        pushData (rawItem (optProp table "@id") table
                    (metadataFor input (optProp table "@id")) payload extractedAt)
      else ret tt) ;;;
     (if wantsStructured input then
        normalizedData <- normalize payload (metadataFor input (optProp table "@id"))
                            (optProp table "@id") ;;
        forEach normalizedData (fun dataPoint => pushData dataPoint ;;; countDataPoint)
      else ret tt))
      {| time := time w; dataset := dataset w;
         requests := requests w
                     ++ (if includeMetadata input then [MetaInfo (optProp table "@id")] else [])
                     ++ [StatsData (optProp table "@id")];
         totalDataPoints := totalDataPoints w;
         processedTables := S (processedTables w) |}.
Proof.
  intros D F. destruct (descriptor_reads table D) as (Hid & Htitle & [s Hs] & _).
  unfold tableBody, metadataFor.
  rewrite (bind_Ret countTable _ w _ _ eq_refl).
  rewrite (bind_Ret _ _ _ _ _ (lift_Ret _ _ _ Hid)).
  rewrite (bind_Ret _ _ _ _ _ (lift_Ret _ _ _ Htitle)).
  rewrite (bind_Ret _ _ _ _ _ (lift_Ret _ _ _ Hs)).
  destruct (includeMetadata input).
  - assert (M : forall w0,
               tryCatch (send (MetaInfo (optProp table "@id"))
                           (getMetaInfo (optProp table "@id")))
                 (fun _ => ret VNull) w0
               = (Ret (match getMetaInfo (optProp table "@id") with
                       | Ret metadata => metadata
                       | Throw _ => VNull
                       end),
                  {| time := time w0; dataset := dataset w0;
                     requests := requests w0 ++ [MetaInfo (optProp table "@id")];
                     totalDataPoints := totalDataPoints w0;
                     processedTables := processedTables w0 |})).
    { intros w0. unfold tryCatch, send, ret.
      now destruct (getMetaInfo (optProp table "@id")). }
    rewrite (bind_Ret _ _ _ _ _ (M _)).
    rewrite (bind_Ret _ _ _ _ _ (send_Ret _ _ _ _ F)).
    cbn [time dataset requests totalDataPoints processedTables countTable].
    now rewrite <- app_assoc.
  - rewrite (bind_Ret (ret VNull) _ _ _ _ eq_refl).
    rewrite (bind_Ret _ _ _ _ _ (send_Ret _ _ _ _ F)). reflexivity.
Qed.

(** X11.  When the data fetch of a table descriptor returns a payload, the
    iteration ends normally and counts the table.  The metadata request is
    sent only when [includeMetadata] is set, before the data request.  The
    [raw] item, when the format asks for it, comes first and carries the
    table, the payload and the metadata document exactly as fetched; the
    records of the normaliser follow when the format asks for them, and the
    record counter grows by their number. *)
Theorem processTable_fetched (input : options) (table payload : value) (w : world) :
  descriptor table = true ->
  getStatsData (optProp table "@id") = Ret payload ->
  nullish payload = false ->
  exists l w',
    processTable input table w = (Ret tt, w')
    /\ fst (normalizeStatisticalData payload (metadataFor input (optProp table "@id"))
              (optProp table "@id") (if wantsRaw input then S (time w) else time w))
       = Ret l
    /\ requests w'
       = requests w
         ++ (if includeMetadata input then [MetaInfo (optProp table "@id")] else [])
         ++ [StatsData (optProp table "@id")]
    /\ dataset w'
       = dataset w
         ++ (if wantsRaw input
             then [ rawItem (optProp table "@id") table
                      (metadataFor input (optProp table "@id")) payload
                      (toISOString (time w)) ]
             else [])
         ++ (if wantsStructured input then l else [])
    /\ processedTables w' = S (processedTables w)
    /\ totalDataPoints w'
       = totalDataPoints w + (if wantsStructured input then length l else 0).
Proof.
  intros D F N.
  set (id := optProp table "@id") in *.
  set (start := if wantsRaw input then S (time w) else time w).
  destruct (normalizeStatisticalData_Ret payload (metadataFor input id) id start N)
    as (l & El).
  exists l. unfold processTable, tryCatch.
  rewrite (tableBody_fetched input table payload w D F). fold id.
  subst start. unfold wantsRaw, wantsStructured in *.
  destruct (outputFormat input).
  - rewrite (bind_Ret (ret tt) _ _ _ _ eq_refl).
    erewrite bind_Ret; [| apply normalize_Ret; cbn [time]; exact El].
    rewrite forEach_push_count.
    eexists. split; [reflexivity |]. split; [exact El |]. cbn.
    repeat split.
  - rewrite (bind_Ret _ _ _ _ _ (bind_Ret date _ _ _ _ eq_refl)).
    eexists. split; [reflexivity |]. split; [exact El |]. cbn.
    repeat split. lia.
  - rewrite (bind_Ret _ _ _ _ _ (bind_Ret date _ _ _ _ eq_refl)).
    unfold pushData at 1.
    cbn [time dataset requests totalDataPoints processedTables].
    erewrite bind_Ret; [| apply normalize_Ret; cbn [time]; exact El].
    rewrite forEach_push_count.
    eexists. split; [reflexivity |]. split; [exact El |]. cbn.
    repeat split. now rewrite <- app_assoc.
Qed.

(** X12.  When the data fetch returns [null] or [undefined] (status ['0']
    without a [STATISTICAL_DATA] section), the normaliser throws a
    TypeError, and the iteration turns it into one [error] item for the
    table; the [raw] item, if the format asks for it, has already been
    emitted with that payload.  Under the [raw] format nothing fails and no
    [error] item is written; no record is ever counted. *)
Theorem processTable_nullish_payload (input : options) (table payload : value)
    (w : world) :
  descriptor table = true ->
  getStatsData (optProp table "@id") = Ret payload ->
  nullish payload = true ->
  exists w',
    processTable input table w = (Ret tt, w')
    /\ dataset w'
       = dataset w
         ++ (if wantsRaw input
             then [ rawItem (optProp table "@id") table
                      (metadataFor input (optProp table "@id")) payload
                      (toISOString (time w)) ]
             else [])
         ++ (if wantsStructured input
             then [ tableErrorItem (optProp table "@id") (optProp table "TITLE")
                      (TypeError_read payload "TABLE_INF")
                      (toISOString (if wantsRaw input then S (time w) else time w)) ]
             else [])
    /\ processedTables w' = S (processedTables w)
    /\ totalDataPoints w' = totalDataPoints w.
Proof.
  intros D F N. destruct (descriptor_reads table D) as (Hid & Htitle & _ & [s Hs]).
  unfold processTable, tryCatch.
  rewrite (tableBody_fetched input table payload w D F).
  set (id := optProp table "@id") in *.
  unfold wantsRaw, wantsStructured in *.
  destruct (outputFormat input).
  - rewrite (bind_Ret (ret tt) _ _ _ _ eq_refl).
    erewrite bind_Throw;
      [| rewrite normalize_run, normalizeStatisticalData_nullish by exact N; reflexivity].
    unfold tableFailed.
    rewrite (bind_Ret _ _ _ _ _ (lift_Ret _ _ _ Hid)).
    rewrite (bind_Ret _ _ _ _ _ (lift_Ret _ _ _ Hs)).
    rewrite (bind_Ret _ _ _ _ _ (lift_Ret _ _ _ Htitle)).
    rewrite (bind_Ret date _ _ _ _ eq_refl).
    eexists. split; [reflexivity |]. cbn. repeat split.
  - rewrite (bind_Ret _ _ _ _ _ (bind_Ret date _ _ _ _ eq_refl)).
    eexists. split; [reflexivity |]. cbn. repeat split.
  - rewrite (bind_Ret _ _ _ _ _ (bind_Ret date _ _ _ _ eq_refl)).
    unfold pushData at 1.
    cbn [time dataset requests totalDataPoints processedTables].
    erewrite bind_Throw;
      [| rewrite normalize_run, normalizeStatisticalData_nullish by exact N; reflexivity].
    unfold tableFailed.
    rewrite (bind_Ret _ _ _ _ _ (lift_Ret _ _ _ Hid)).
    rewrite (bind_Ret _ _ _ _ _ (lift_Ret _ _ _ Hs)).
    rewrite (bind_Ret _ _ _ _ _ (lift_Ret _ _ _ Htitle)).
    rewrite (bind_Ret date _ _ _ _ eq_refl).
    eexists. split; [reflexivity |]. cbn. repeat split. now rewrite <- app_assoc.
Qed.

End Fetched.

(** The first table of the sample service, under the format [both]. *)
Lemma processTable_fetched_witness :
  descriptor populationTable = true
  /\ getStatsData (optProp populationTable "@id") = Ret scenarioPayload
  /\ nullish scenarioPayload = false
  /\ exists rawItem record w',
       processTable
         {| searchKeyword := ""; surveyYears := ""; statsField := ""; maxItems := 1;
            includeMetadata := false; outputFormat := both |}
         populationTable freshWorld = (Ret tt, w')
       /\ dataset w' = [rawItem; record]
       /\ requests w' = [StatsData (VStr "0003448738")]
       /\ optProp rawItem "rawData" = scenarioPayload
       /\ optProp record "region" = VStr "全国"
       /\ totalDataPoints w' = 1%nat.
Proof.
  split; [reflexivity |]. split; [reflexivity |]. split; [reflexivity |].
  destruct (processTable_fetched (api := sampleApi)
              {| searchKeyword := ""; surveyYears := ""; statsField := ""; maxItems := 1;
                 includeMetadata := false; outputFormat := both |}
              populationTable scenarioPayload freshWorld eq_refl eq_refl eq_refl)
    as (l & w' & E & El & R & Dw & _ & T).
  vm_compute in El. injection El as <-.
  do 2 eexists. exists w'. split; [exact E |]. split; [exact Dw |].
  split; [exact R |]. split; [reflexivity |]. split; [reflexivity | exact T].
Defined.

(** The table of the hollow server: status ['0'], no data. *)
Lemma processTable_nullish_payload_witness :
  descriptor populationTable = true
  /\ getStatsData (EStat := httpApi hollowHttp) (optProp populationTable "@id")
     = Ret VUndefined
  /\ exists item w',
       processTable (api := httpApi hollowHttp) sampleInput populationTable freshWorld
       = (Ret tt, w')
       /\ dataset w' = [item]
       /\ optProp item "type" = VStr "error"
       /\ optProp item "error"
          = VStr "Cannot read properties of undefined (reading 'TABLE_INF')".
Proof.
  split; [reflexivity |]. split; [reflexivity |].
  destruct (processTable_nullish_payload (api := httpApi hollowHttp) sampleInput
              populationTable VUndefined freshWorld eq_refl eq_refl eq_refl)
    as (w' & E & Dw & _).
  eexists. exists w'. split; [exact E |]. split; [exact Dw |]. split; reflexivity.
Defined.

(** ** The records of the normaliser *)

Lemma Forall2_map_eq {A B} (f : B -> A) (l1 : list A) (l2 : list B) :
  Forall2 (fun a b => f b = a) l1 l2 -> map f l2 = l1.
Proof. induction 1 as [| a b l1 l2 H _ IH]; cbn; [reflexivity |]. now rewrite H, IH. Qed.

Lemma Forall2_impl {A B} (R Q : A -> B -> Prop) (l1 : list A) (l2 : list B) :
  (forall a b, R a b -> Q a b) -> Forall2 R l1 l2 -> Forall2 Q l1 l2.
Proof. intros I. induction 1; constructor; auto. Qed.

Section Records.
Context {rt : Runtime}.

Lemma parseValue_number (x v : value) :
  parseValue x = Ret v -> exists n, v = VNum n /\ n <> NaN.
Proof.
  unfold parseValue. intros H. obind_inv H. injection H as <-.
  destruct (truthyNum (parseFloat a)) eqn:T.
  - exists (parseFloat a). split; [reflexivity |]. intros E. now rewrite E in T.
  - exists (Fin 0 0). split; [reflexivity | discriminate].
Qed.

Lemma rowData_facts (statName : value) (classObj : index) (row : value)
    val unit categories dataType :
  rowData statName classObj row = Ret (val, unit, categories, dataType) ->
  isString statName = true /\ exists n, val = VNum n /\ n <> NaN.
Proof.
  unfold rowData. intros H.
  apply obind_Ret in H. destruct H as (x & _ & H).
  apply obind_Ret in H. destruct H as (v & Hv & H).
  apply obind_Ret in H. destruct H as (u & _ & H).
  apply obind_Ret in H. destruct H as (c & _ & H).
  apply obind_Ret in H. destruct H as (d & Hd & H).
  injection H as <- _ _ _. split; [| exact (parseValue_number _ _ Hv)].
  unfold determineDataType in Hd. now destruct statName.
Qed.

Lemma fst_Ret_nullish (rawData metadata id : value) (now : nat) (l : list value) :
  fst (normalizeStatisticalData rawData metadata id now) = Ret l ->
  nullish rawData = false.
Proof.
  intros H. destruct (nullish rawData) eqn:N; [| reflexivity].
  now rewrite (normalizeStatisticalData_nullish _ _ _ _ N) in H.
Qed.

(** X13.  Every element of the list the normaliser returns, record or
    placeholder, carries the table id it was called with and the title of
    the payload, has no [type] field, and has a [value] that is a number
    and never [NaN]; its data type is one of the eight names, or [unknown]
    on the placeholder. *)
Theorem normalizeStatisticalData_fields (rawData metadata id : value) (now : nat)
    (l : list value) :
  fst (normalizeStatisticalData rawData metadata id now) = Ret l ->
  Forall (fun r =>
            optProp r "sourceTableId" = id
            /\ optProp r "statName" = titleOf rawData
            /\ optProp r "type" = VUndefined
            /\ (exists n, optProp r "value" = VNum n /\ n <> NaN)
            /\ exists dataType,
                 optProp r "dataType" = VStr dataType
                 /\ (In dataType dataTypes \/ dataType = "unknown")) l.
Proof.
  intros H. pose proof (fst_Ret_nullish _ _ _ _ _ H) as N.
  assert (R : forall row r, recordOf rawData id row r ->
              optProp r "sourceTableId" = id
              /\ optProp r "statName" = titleOf rawData
              /\ optProp r "type" = VUndefined
              /\ (exists n, optProp r "value" = VNum n /\ n <> NaN)
              /\ exists dataType,
                   optProp r "dataType" = VStr dataType
                   /\ (In dataType dataTypes \/ dataType = "unknown")).
  { intros row r (val & unit & c & d & lu & ea & E & -> & _).
    destruct (rowData_facts _ _ _ _ _ _ _ E) as (_ & n & -> & Hn).
    split; [reflexivity |]. split; [reflexivity |]. split; [reflexivity |].
    split; [now exists n |]. exists d. split; [reflexivity |]. left.
    exact (rowData_dataType _ _ _ _ _ _ _ E). }
  destruct (normalizeStatisticalData_shape rawData metadata id now N)
    as (recs & F & [(_ & E & _) | ((e & s & ph & _ & E & P) & _)]);
    rewrite E in H; injection H as <-.
  - exact (Forall2_right _ _ _ _ R F).
  - apply Forall_app. split; [exact (Forall2_right _ _ _ _ R F) |].
    constructor; [| constructor]. destruct P as (lu & ea & ->).
    split; [reflexivity |]. split; [reflexivity |]. split; [reflexivity |].
    split; [exists (Fin 0 0); split; [reflexivity | discriminate] |].
    exists "unknown". split; [reflexivity | now right].
Qed.

(** X14.  Nothing of the input is lost: the list the normaliser returns
    lets one read back the value rows it was made from.  Each record keeps
    its value row, unchanged, under [metadata.originalAttributes], in the
    order of the payload; when a placeholder ends the list, the records
    before it are those of the first rows and the placeholder keeps the
    whole payload under [metadata.rawData].  For a well-formed payload the
    rows read back are all the rows of the payload. *)
Theorem normalizeStatisticalData_originals (rawData metadata id : value) (now : nat)
    (l : list value) :
  fst (normalizeStatisticalData rawData metadata id now) = Ret l ->
  (map originalOf l = valueRows rawData
   \/ exists recs ph,
        l = recs ++ [ph]
        /\ map originalOf recs = firstn (length recs) (valueRows rawData)
        /\ optProp (optProp ph "metadata") "rawData" = rawData)
  /\ (wellFormed rawData = true -> map originalOf l = valueRows rawData).
Proof.
  intros H. pose proof (fst_Ret_nullish _ _ _ _ _ H) as N.
  assert (O : forall recs,
              Forall2 (recordOf rawData id) (firstn (length recs) (valueRows rawData)) recs ->
              map originalOf recs = firstn (length recs) (valueRows rawData)).
  { intros recs F. apply Forall2_map_eq.
    refine (Forall2_impl _ _ _ _ _ F).
    intros row r (val & unit & c & d & lu & ea & _ & -> & _). reflexivity. }
  destruct (normalizeStatisticalData_shape rawData metadata id now N)
    as (recs & F & [(_ & E & L) | ((e & s & ph & T & E & P) & _)]);
    rewrite E in H; injection H as <-.
  - assert (A : map originalOf recs = valueRows rawData).
    { rewrite (O recs F), L. apply firstn_all. }
    split; [now left | now intros _].
  - split.
    + right. exists recs, ph. split; [reflexivity |]. split; [exact (O recs F) |].
      destruct P as (lu & ea & ->). reflexivity.
    + intros W. destruct (wellFormed_tryBlock rawData id
                            {| clock := now; normalizedData := [] |} W) as [s' T'].
      rewrite T' in T. discriminate T.
Qed.

(** X15.  A payload whose title is not a string (an object holding the
    number and the text of the title, for instance) yields no record at
    all: whenever it has a value row, the first row already fails, and the
    list is the placeholder alone. *)
Theorem normalizeStatisticalData_title (rawData metadata id : value) (now : nat) :
  nullish rawData = false ->
  isString (titleOf rawData) = false ->
  valueRows rawData <> [] ->
  exists ph,
    fst (normalizeStatisticalData rawData metadata id now) = Ret [ph]
    /\ isPlaceholder ph
    /\ optProp ph "statName" = titleOf rawData.
Proof.
  intros N S V.
  assert (Z : forall recs,
              Forall2 (recordOf rawData id) (firstn (length recs) (valueRows rawData)) recs ->
              recs = []).
  { intros [| r recs] F; [reflexivity |]. inversion F as [| row r' rows recs' R _ E1 E2].
    destruct R as (val & unit & c & d & lu & ea & E & _).
    destruct (rowData_facts _ _ _ _ _ _ _ E) as [I _]. congruence. }
  destruct (normalizeStatisticalData_shape rawData metadata id now N)
    as (recs & F & [(_ & E & L) | ((e & s & ph & _ & E & P) & _)]);
    pose proof (Z recs F) as ->.
  - destruct (valueRows rawData); [contradiction | discriminate L].
  - exists ph. split; [exact E |].
    split; [exact (proj1 (placeholderOf_isPlaceholder _ _ _ _ P)) |].
    destruct P as (lu & ea & ->). reflexivity.
Qed.

End Records.

Lemma normalizeStatisticalData_fields_witness :
  exists r,
    fst (normalizeStatisticalData scenarioPayload VNull (VStr "0003448738") 0) = Ret [r]
    /\ optProp r "sourceTableId" = VStr "0003448738"
    /\ exists n, optProp r "value" = VNum n /\ n <> NaN.
Proof.
  eexists. split; [vm_compute; reflexivity |].
  pose proof (normalizeStatisticalData_fields scenarioPayload VNull (VStr "0003448738") 0
                _ eq_refl) as F.
  inversion F as [| r l (I & _ & _ & V & _) _]. split; [exact I | exact V].
Defined.

(** Three value rows, the second of which is [null]: the first row is read
    back, and the placeholder keeps the payload. *)
Lemma normalizeStatisticalData_originals_witness :
  exists l,
    fst (normalizeStatisticalData brokenPayload VNull (VStr "0003448738") 0) = Ret l
    /\ length l = 2%nat
    /\ (map originalOf l = valueRows brokenPayload
        \/ exists recs ph,
             l = recs ++ [ph]
             /\ map originalOf recs = firstn (length recs) (valueRows brokenPayload)
             /\ optProp (optProp ph "metadata") "rawData" = brokenPayload).
Proof.
  eexists. split; [vm_compute; reflexivity |]. split; [reflexivity |].
  exact (proj1 (normalizeStatisticalData_originals brokenPayload VNull
                  (VStr "0003448738") 0 _ eq_refl)).
Defined.

Lemma normalizeStatisticalData_title_witness :
  nullish numberedTitlePayload = false
  /\ isString (titleOf numberedTitlePayload) = false
  /\ length (valueRows numberedTitlePayload) = 2%nat
  /\ exists ph,
       fst (normalizeStatisticalData numberedTitlePayload VNull (VStr "0003448738") 0)
       = Ret [ph]
       /\ optProp (optProp ph "metadata") "error"
          = VStr "statName.toLowerCase is not a function".
Proof.
  split; [reflexivity |]. split; [reflexivity |]. split; [reflexivity |].
  destruct (normalizeStatisticalData_title numberedTitlePayload VNull (VStr "0003448738") 0
              eq_refl eq_refl ltac:(discriminate)) as (ph & E & _).
  exists ph. split; [exact E |].
  vm_compute in E. injection E as <-. reflexivity.
Defined.

(** ** The options, the search and the run *)

Section Options.
Context {rt : Runtime} {irt : InputRuntime}.

(** X16.  An input that has none of the six options (the empty object, or
    any value that is not an object, [null] and [undefined] apart) yields
    the defaults: no search criterion, ten tables, metadata included, the
    [structured] format. *)
Theorem validateInput_defaults (input : value) :
  nullish input = false ->
  optProp input "searchKeyword" = VUndefined ->
  optProp input "surveyYears" = VUndefined ->
  optProp input "statsField" = VUndefined ->
  optProp input "maxItems" = VUndefined ->
  optProp input "includeMetadata" = VUndefined ->
  optProp input "outputFormat" = VUndefined ->
  parseInt "undefined" = NotANumber ->
  validateInput input
  = Ret {| searchKeyword := ""; surveyYears := ""; statsField := ""; maxItems := 10;
           includeMetadata := true; outputFormat := structured |}.
Proof.
  intros N K Y F M I O P. unfold validateInput, textOption.
  rewrite !(getProp_value _ _ N), K, Y, F, M, I, O. cbn. now rewrite P.
Qed.

End Options.

Lemma validateInput_defaults_witness :
  validateInput (VObj [])
  = Ret {| searchKeyword := ""; surveyYears := ""; statsField := ""; maxItems := 10;
           includeMetadata := true; outputFormat := structured |}.
Proof.
  exact (validateInput_defaults (VObj []) eq_refl eq_refl eq_refl eq_refl eq_refl eq_refl
           eq_refl eq_refl).
Defined.

(** X17.  The search asks e-Stat for at least as many tables as the run
    will process and never for more than 100: [limit] is twice [maxItems],
    capped at 100.  A criterion is sent only when it is not empty, and the
    keyword goes under the name [searchWord]. *)
Theorem buildSearchParams_limit (input : options) :
  validated input ->
  exists limit,
    optProp (buildSearchParams input) "limit" = ofZ limit
    /\ limit = Z.min (2 * maxItems input) 100
    /\ (maxItems input <= limit <= 100)%Z
    /\ ((maxItems input <= 50)%Z -> limit = (2 * maxItems input)%Z)
    /\ ((50 <= maxItems input)%Z -> limit = 100%Z)
    /\ optProp (buildSearchParams input) "searchWord"
       = (if searchKeyword input =? "" then VUndefined else VStr (searchKeyword input))
    /\ optProp (buildSearchParams input) "surveyYears"
       = (if surveyYears input =? "" then VUndefined else VStr (surveyYears input))
    /\ optProp (buildSearchParams input) "statsField"
       = (if statsField input =? "" then VUndefined else VStr (statsField input))
    /\ optProp (buildSearchParams input) "searchKeyword" = VUndefined.
Proof.
  intros [L U]. exists (Z.min (maxItems input * 2) 100).
  unfold buildSearchParams.
  destruct (searchKeyword input =? ""), (surveyYears input =? ""),
    (statsField input =? "");
    (split; [reflexivity |]); (split; [lia |]); (split; [lia |]); (split; [lia |]);
    (split; [lia |]); repeat split.
Qed.

Lemma buildSearchParams_limit_witness :
  validated sampleInput
  /\ buildSearchParams sampleInput
     = VObj [ ("searchWord", VStr "人口"); ("limit", ofZ 4) ]
  /\ exists limit,
       optProp (buildSearchParams sampleInput) "limit" = ofZ limit
       /\ limit = 4%Z.
Proof.
  assert (V : validated sampleInput) by (unfold validated; cbn; lia).
  split; [exact V |]. split; [reflexivity |].
  destruct (buildSearchParams_limit sampleInput V) as (limit & E & L & _).
  exists limit. split; [exact E | exact L].
Defined.

Section WholeRun.
Context {rt : Runtime} {irt : InputRuntime} {api : EStat}.

Lemma mainLogic_fetches (input : options) (estatAppId : value) (w w' : world) o :
  validated input ->
  mainLogic input estatAppId w = (o, w') ->
  (dataFetches w' <= dataFetches w + Z.to_nat (maxItems input))%nat
  /\ (metaFetches w' <= metaFetches w + Z.to_nat (maxItems input))%nat.
Proof.
  intros V E. split.
  - refine (mainLogic_within dataFetches _ _ _ _ _ _ _ input estatAppId V w _ w' E).
    + apply processTable_within_data.
    + apply within_data_StatsList.
    + apply quiet_within_data, quiet_date.
    + intros item. apply quiet_within_data, quiet_pushData.
    + apply quiet_within_data, quiet_declareCounters.
    + apply quiet_within_data, quiet_counters.
    + intros i. apply quiet_within_data, quiet_runDemoMode.
  - refine (mainLogic_within metaFetches _ _ _ _ _ _ _ input estatAppId V w _ w' E).
    + apply processTable_within_meta.
    + apply within_meta_StatsList.
    + apply quiet_within_meta, quiet_date.
    + intros item. apply quiet_within_meta, quiet_pushData.
    + apply quiet_within_meta, quiet_declareCounters.
    + apply quiet_within_meta, quiet_counters.
    + intros i. apply quiet_within_meta, quiet_runDemoMode.
Qed.

(** X18.  From the raw actor input: either validation throws, before
    anything is sent or emitted (a text option that is not a string, or a
    [maxItems] that cannot be converted), or the run ends normally with at
    most 100 data fetches and at most 100 metadata fetches, whatever the
    input asked for and whatever the collaborators answer.  An input that
    is missing ([null], [undefined] or any falsy value) counts as the empty
    object. *)
Theorem run_bounded (input estatAppId : value) (w : world) :
  (exists e,
      validateInput (or_ input (VObj [])) = Throw e
      /\ run input estatAppId w = (Throw e, w))
  \/ (exists o w',
        validateInput (or_ input (VObj [])) = Ret o
        /\ run input estatAppId w = (Ret tt, w')
        /\ (dataFetches w' <= dataFetches w + 100)%nat
        /\ (metaFetches w' <= metaFetches w + 100)%nat
        /\ (length (dataset w) < length (dataset w'))%nat).
Proof.
  unfold run. destruct (validateInput (or_ input (VObj []))) as [o | e] eqn:V.
  - right. destruct (mainLogic_ends o estatAppId w) as (items & last & w' & E & D & _).
    exists o, w'. split; [reflexivity |].
    split; [now rewrite (bind_Ret _ _ _ _ _ (lift_Ret _ _ w eq_refl)) |].
    pose proof (validateInput_range _ _ V) as R.
    destruct (mainLogic_fetches o estatAppId w w' _ R E) as [F1 F2].
    split; [lia |]. split; [lia |].
    rewrite D, !length_app. cbn. lia.
  - left. exists e. split; reflexivity.
Qed.

End WholeRun.

(** ** The requests of the fetchers *)

Section Asking.
Context {rt : Runtime}.

(** X19.  The fetchers, called as [mainLogic] calls them, only ever ask the
    HTTP client for Japanese JSON: two clients that answer alike every
    request with [lang] = [J] and [dataFormat] = [json] give the same
    result, whatever the search parameters (which cannot override the two
    settings) and the table id. *)
Theorem fetchers_ask_japanese_json (h1 h2 : Http) (params : obj) (statsDataId : value) :
  (forall path p,
      lookup "lang" p = Some (VStr "J") ->
      lookup "dataFormat" p = Some (VStr "json") ->
      get (Http := h1) path p = get (Http := h2) path p) ->
  Utils.getStatsList (http := h1) (VObj params)
  = Utils.getStatsList (http := h2) (VObj params)
  /\ Utils.getMetaInfo (http := h1) statsDataId
     = Utils.getMetaInfo (http := h2) statsDataId
  /\ Utils.getStatsData (http := h1) statsDataId (VObj [])
     = Utils.getStatsData (http := h2) statsDataId (VObj []).
Proof.
  intros H. split; [| split].
  - unfold Utils.getStatsList. rewrite H; [reflexivity | |].
    + now rewrite !lookup_set.
    + now rewrite lookup_set.
  - unfold Utils.getMetaInfo. now rewrite H.
  - unfold Utils.getStatsData. now rewrite H.
Qed.

End Asking.

Lemma fetchers_ask_japanese_json_witness :
  Utils.getStatsList (http := pickyHttp) (VObj [ ("lang", VStr "E") ])
  = Throw (Error "e-Stat API Error (getStatsList): Status 403 - Unknown API error").
Proof.
  assert (H : forall path p,
             lookup "lang" p = Some (VStr "J") ->
             lookup "dataFormat" p = Some (VStr "json") ->
             get (Http := pickyHttp) path p = get (Http := forbiddenHttp) path p).
  { intros path p L D. cbn. now rewrite L, D. }
  rewrite (proj1 (fetchers_ask_japanese_json pickyHttp forbiddenHttp
                    [ ("lang", VStr "E") ] VNull H)).
  reflexivity.
Defined.
